(** * GRIP async request state: a shallow embedding

    The definitions below follow the TypeScript of
    [GRIP_ASYNC_REQUEST_STATE.md]: the request-state variants and their
    helper predicates, the retry and TTL-refresh arithmetic, the
    per-destination record [DestState] with its history ring, the controller
    handle, and the lifecycle entry points ([onConnect], [onDisconnect],
    [executeRetry], [handleRequestKeyChange], [kickoff]).

    Conventions.
    - A JavaScript [number] holding a millisecond time or delay is a [Z];
      counters ([retryAttempt], [listenerCount], [historySize]) are [nat].
      Floating-point rounding and fractional multipliers are outside the
      model.
    - [T | null] and [T | undefined] are [option T]; [a ?? b] is
      [default b a].
    - Every method mutates the tap; here it is a function [Tap -> Tap]. The
      calls that leave the tap ([publish], [abort], [clearTimeout],
      [setTimeout], the fetcher) are appended to the [effects] trace.
    - [Date.now()] reads the field [clock] of the tap. *)

From Stdlib Require Import ZArith Bool Lia.
From stdpp Require Import base option list gmap strings.

Local Open Scope Z_scope.

(** ** Request state *)

Record Error := mkError { message : string }.

(** [type RequestState]: six variants, each carrying [retryAt]. *)
Inductive RequestState :=
| Idle (retryAt : option Z)
| Loading (initiatedAt : Z) (retryAt : option Z)
| Success (retrievedAt : Z) (retryAt : option Z)
| Failed (error : Error) (failedAt : Z) (retryAt : option Z)
| StaleWhileRevalidate (retrievedAt refreshInitiatedAt : Z) (retryAt : option Z)
| StaleWithError (retrievedAt : Z) (error : Error) (failedAt : Z) (retryAt : option Z).

(** The discriminant [state.type]. *)
Inductive StateType :=
| idle | loading | success | error | stale_while_revalidate | stale_with_error.

Definition type (s : RequestState) : StateType :=
  match s with
  | Idle _ => idle
  | Loading _ _ => loading
  | Success _ _ => success
  | Failed _ _ _ => error
  | StaleWhileRevalidate _ _ _ => stale_while_revalidate
  | StaleWithError _ _ _ _ => stale_with_error
  end.

Definition StateType_eqb (a b : StateType) : bool :=
  match a, b with
  | idle, idle | loading, loading | success, success | error, error
  | stale_while_revalidate, stale_while_revalidate
  | stale_with_error, stale_with_error => true
  | _, _ => false
  end.

Definition retryAt (s : RequestState) : option Z :=
  match s with
  | Idle r | Loading _ r | Success _ r | Failed _ _ r
  | StaleWhileRevalidate _ _ r | StaleWithError _ _ _ r => r
  end.

(** The object spread [{ ...state, retryAt: r }]: a new state value. *)
Definition withRetryAt (r : option Z) (s : RequestState) : RequestState :=
  match s with
  | Idle _ => Idle r
  | Loading i _ => Loading i r
  | Success t _ => Success t r
  | Failed e f _ => Failed e f r
  | StaleWhileRevalidate t i _ => StaleWhileRevalidate t i r
  | StaleWithError t e f _ => StaleWithError t e f r
  end.

(** ** State helper functions *)

Definition hasData (state : RequestState) : bool :=
  StateType_eqb (type state) success
  || StateType_eqb (type state) stale_while_revalidate
  || StateType_eqb (type state) stale_with_error.

Definition isStale (state : RequestState) : bool :=
  StateType_eqb (type state) stale_while_revalidate
  || StateType_eqb (type state) stale_with_error.

Definition isRefreshing (state : RequestState) : bool :=
  StateType_eqb (type state) loading
  || StateType_eqb (type state) stale_while_revalidate.

Definition isRefreshingWithData (state : RequestState) : bool :=
  StateType_eqb (type state) stale_while_revalidate.

Definition hasError (state : RequestState) : bool :=
  StateType_eqb (type state) error
  || StateType_eqb (type state) stale_with_error.

Definition getError (state : RequestState) : option Error :=
  match state with
  | Failed e _ _ | StaleWithError _ e _ _ => Some e
  | _ => None
  end.

Definition isLoading (state : RequestState) : bool :=
  StateType_eqb (type state) loading.

Definition isIdle (state : RequestState) : bool :=
  StateType_eqb (type state) idle.

Definition getDataRetrievedAt (state : RequestState) : option Z :=
  match state with
  | Success t _ | StaleWhileRevalidate t _ _ | StaleWithError t _ _ _ => Some t
  | _ => None
  end.

Definition getRequestInitiatedAt (state : RequestState) : option Z :=
  match state with
  | Loading i _ => Some i
  | StaleWhileRevalidate _ i _ => Some i
  | _ => None
  end.

Definition getErrorFailedAt (state : RequestState) : option Z :=
  match state with
  | Failed _ f _ | StaleWithError _ _ f _ => Some f
  | _ => None
  end.

(** [Date.now()] is the argument [now]. *)
Definition hasScheduledRetry (state : RequestState) (now : Z) : bool :=
  match retryAt state with
  | Some r => now <? r
  | None => false
  end.

Definition getRetryTimeRemaining (state : RequestState) (now : Z) : option Z :=
  match retryAt state with
  | None => None
  | Some r => let remaining := r - now in
              Some (if 0 <? remaining then remaining else 0)
  end.

(** [getStatusMessage(state)]; a template literal is the concatenation of
    its pieces. *)
Definition getStatusMessage (state : RequestState) : string :=
  match state with
  | Idle _ => "Ready"
  | Loading _ _ => "Loading..."
  | Success _ _ => "Loaded"
  | Failed e _ _ => String.append "Error: " (message e)
  | StaleWhileRevalidate _ _ _ => "Refreshing..."
  | StaleWithError _ e _ _ =>
    String.append "Stale (Error: " (String.append (message e) ")")
  end.

(** ** Retry and refresh arithmetic *)

Record RetryConfig := mkRetryConfig {
  maxRetries : option Z;
  initialDelayMs : option Z;
  maxDelayMs : option Z;
  backoffMultiplier : option Z;
  retryOnError : option (Error -> bool) }.

(** [calculateRetryTime(attempt, config, baseTime = Date.now())]. *)
Definition calculateRetryTime (attempt : nat) (config : RetryConfig)
    (baseTime : option Z) (now : Z) : option Z :=
  let baseTime := default now baseTime in
  if default 3 (maxRetries config) <=? Z.of_nat attempt then None
  else
    let delay :=
      Z.min (default 1000 (initialDelayMs config)
             * default 2 (backoffMultiplier config) ^ Z.of_nat attempt)
            (default 30000 (maxDelayMs config)) in
    Some (baseTime + delay).

(** The values [calculateRetryTime] works with: the configured ones, or the
    defaults it substitutes. *)
Definition effMaxRetries (config : RetryConfig) : Z :=
  default 3 (maxRetries config).
Definition effInitialDelayMs (config : RetryConfig) : Z :=
  default 1000 (initialDelayMs config).
Definition effMaxDelayMs (config : RetryConfig) : Z :=
  default 30000 (maxDelayMs config).
Definition effBackoffMultiplier (config : RetryConfig) : Z :=
  default 2 (backoffMultiplier config).

(** [calculateRefreshTime(retrievedAt, ttlMs, refreshBeforeExpiryMs = 0)]. *)
Definition calculateRefreshTime (retrievedAt ttlMs : Z)
    (refreshBeforeExpiryMs : option Z) (now : Z) : option Z :=
  let refreshBeforeExpiryMs := default 0 refreshBeforeExpiryMs in
  if ttlMs <=? 0 then None
  else
    let expiryTime := retrievedAt + ttlMs in
    let refreshTime := expiryTime - refreshBeforeExpiryMs in
    if now <? refreshTime then Some refreshTime else None.

(** ** Data model *)

(** A destination context ([GripContext]) and a grip are identities. *)
Definition Dest := nat.
Definition Grip := string.

(** The handle [setTimeout] returns (always truthy) and the identity of an
    [AbortController]. *)
Definition TimerId := positive.
Definition AbortId := nat.

(** [interface StateHistoryEntry]. *)
Record StateHistoryEntry := mkEntry {
  entry_state : RequestState;
  entry_timestamp : Z;
  entry_requestKey : option string;
  entry_transitionReason : option string }.

(** [interface AsyncRequestState], the snapshot published on the state grip. *)
Record AsyncRequestState := mkAsyncRequestState {
  ars_state : RequestState;
  ars_requestKey : option string;
  ars_hasListeners : bool;
  ars_history : list StateHistoryEntry }.

(** The two controller objects the tap builds: the closure record of
    [createController(dest)] and the one of [createNoOpController()]. The
    closures themselves are [createController] and [createNoOpController]
    below; a destination record and a publication hold this reference. *)
Inductive ControllerRef :=
| LiveController (dest : Dest)
| NoOpController.

(** [interface DestState]; [inflightSeq] is among the fields the sources
    leave out ([// ... existing fields ...]) and is named in section 3.3 of
    the specification. *)
Record DestState := mkDestState {
  currentState : RequestState;
  requestKey : option string;
  listenerCount : nat;
  retryAttempt : nat;
  retryTimer : option TimerId;
  refreshTimer : option TimerId;
  history : list StateHistoryEntry;
  historySize : nat;
  controller : option ControllerRef;
  abortController : option AbortId;
  inflightSeq : nat }.

Definition set_currentState (v : RequestState) (s : DestState) : DestState :=
  mkDestState v (requestKey s) (listenerCount s) (retryAttempt s) (retryTimer s)
    (refreshTimer s) (history s) (historySize s) (controller s)
    (abortController s) (inflightSeq s).
Definition set_requestKey (v : option string) (s : DestState) : DestState :=
  mkDestState (currentState s) v (listenerCount s) (retryAttempt s) (retryTimer s)
    (refreshTimer s) (history s) (historySize s) (controller s)
    (abortController s) (inflightSeq s).
Definition set_listenerCount (v : nat) (s : DestState) : DestState :=
  mkDestState (currentState s) (requestKey s) v (retryAttempt s) (retryTimer s)
    (refreshTimer s) (history s) (historySize s) (controller s)
    (abortController s) (inflightSeq s).
Definition set_retryAttempt (v : nat) (s : DestState) : DestState :=
  mkDestState (currentState s) (requestKey s) (listenerCount s) v (retryTimer s)
    (refreshTimer s) (history s) (historySize s) (controller s)
    (abortController s) (inflightSeq s).
Definition set_retryTimer (v : option TimerId) (s : DestState) : DestState :=
  mkDestState (currentState s) (requestKey s) (listenerCount s) (retryAttempt s) v
    (refreshTimer s) (history s) (historySize s) (controller s)
    (abortController s) (inflightSeq s).
Definition set_refreshTimer (v : option TimerId) (s : DestState) : DestState :=
  mkDestState (currentState s) (requestKey s) (listenerCount s) (retryAttempt s)
    (retryTimer s) v (history s) (historySize s) (controller s)
    (abortController s) (inflightSeq s).
Definition set_history (v : list StateHistoryEntry) (s : DestState) : DestState :=
  mkDestState (currentState s) (requestKey s) (listenerCount s) (retryAttempt s)
    (retryTimer s) (refreshTimer s) v (historySize s) (controller s)
    (abortController s) (inflightSeq s).
Definition set_controller (v : option ControllerRef) (s : DestState) : DestState :=
  mkDestState (currentState s) (requestKey s) (listenerCount s) (retryAttempt s)
    (retryTimer s) (refreshTimer s) (history s) (historySize s) v
    (abortController s) (inflightSeq s).
Definition set_abortController (v : option AbortId) (s : DestState) : DestState :=
  mkDestState (currentState s) (requestKey s) (listenerCount s) (retryAttempt s)
    (retryTimer s) (refreshTimer s) (history s) (historySize s) (controller s)
    v (inflightSeq s).
Definition set_inflightSeq (v : nat) (s : DestState) : DestState :=
  mkDestState (currentState s) (requestKey s) (listenerCount s) (retryAttempt s)
    (retryTimer s) (refreshTimer s) (history s) (historySize s) (controller s)
    (abortController s) v.

(** JavaScript truthiness of a [string | null] request key: [null] and the
    empty string are falsy. *)
Definition truthy (key : option string) : bool :=
  match key with
  | Some k => negb (String.eqb k "")
  | None => false
  end.

(** [a !== b] on [string | null]. *)
Definition key_neq (a b : option string) : bool :=
  match a, b with
  | Some x, Some y => negb (String.eqb x y)
  | None, None => false
  | _, _ => true
  end.

(** The timers a destination can have pending. *)
Inductive TimerKind := RetryTimer | RefreshTimer.

Section AsyncTap.

(** Resolved parameters of a destination, fetch results, and grip values
    belong to the graph runtime and the application. *)
Context {Params Result Value : Type}.

(** What [publish] delivers on a grip. *)
Inductive Published :=
| PState (s : AsyncRequestState)
| PController (c : ControllerRef)
| PData (v : Value).

(** Calls that leave the tap, in program order. *)
Inductive Effect :=
| Publish (updates : list (Grip * Published)) (dest : Dest)
| Abort (a : AbortId)
| ClearTimeout (timer : TimerId)
| SetTimeout (timer : TimerId) (kind : TimerKind) (dest : Dest)
    (key : option string) (fireAt : Z)
| Fetch (dest : Dest) (key : option string) (signal : AbortId) (seq : nat).

(** [{result, storedAt, ttlMs}], the cache contract's entry. *)
Record CacheEntry := mkCacheEntry {
  result : Result;
  storedAt : Z;
  ttlMs : Z }.

(** The constructor inputs of the tap. *)
Record TapConfig := mkTapConfig {
  provides : list Grip;
  stateGrip : option Grip;
  controllerGrip : option Grip;
  requestKeyOf : Params -> option string;
  getResetUpdates : Params -> list (Grip * Value);
  mapResult : Result -> list (Grip * Value);
  cacheTtlMs : Z;
  refreshBeforeExpiryMs : option Z;
  opt_historySize : option nat;
  retry : RetryConfig }.

(** The mutable fields of the tap ([listenerCounts],
    [destinationRequestKeys], and whether [engine], [homeContext] and
    [producer] are set), the per-destination records, and its surroundings:
    what the destinations' parameters resolve to, the request cache, the
    clock, the next fresh [AbortController] and timer handle, and the trace
    of calls made so far. *)
Record Tap := mkTap {
  dests : gmap Dest DestState;
  listenerCounts : gmap string nat;
  destinationRequestKeys : gmap Dest string;
  destParams : gmap Dest Params;
  cache : gmap string CacheEntry;
  engine : bool;
  homeContext : bool;
  producer : bool;
  clock : Z;
  nextAbort : AbortId;
  nextTimer : TimerId;
  effects : list Effect }.

Definition set_dests (v : gmap Dest DestState) (t : Tap) : Tap :=
  mkTap v (listenerCounts t) (destinationRequestKeys t) (destParams t) (cache t)
    (engine t) (homeContext t) (producer t) (clock t) (nextAbort t)
    (nextTimer t) (effects t).
Definition set_listenerCounts (v : gmap string nat) (t : Tap) : Tap :=
  mkTap (dests t) v (destinationRequestKeys t) (destParams t) (cache t)
    (engine t) (homeContext t) (producer t) (clock t) (nextAbort t)
    (nextTimer t) (effects t).
Definition set_destinationRequestKeys (v : gmap Dest string) (t : Tap) : Tap :=
  mkTap (dests t) (listenerCounts t) v (destParams t) (cache t)
    (engine t) (homeContext t) (producer t) (clock t) (nextAbort t)
    (nextTimer t) (effects t).
Definition set_nextAbort (v : AbortId) (t : Tap) : Tap :=
  mkTap (dests t) (listenerCounts t) (destinationRequestKeys t) (destParams t)
    (cache t) (engine t) (homeContext t) (producer t) (clock t) v
    (nextTimer t) (effects t).
Definition set_nextTimer (v : TimerId) (t : Tap) : Tap :=
  mkTap (dests t) (listenerCounts t) (destinationRequestKeys t) (destParams t)
    (cache t) (engine t) (homeContext t) (producer t) (clock t) (nextAbort t)
    v (effects t).
Definition emit (e : Effect) (t : Tap) : Tap :=
  mkTap (dests t) (listenerCounts t) (destinationRequestKeys t) (destParams t)
    (cache t) (engine t) (homeContext t) (producer t) (clock t) (nextAbort t)
    (nextTimer t) (effects t ++ [e]).

Variable cfg : TapConfig.

(** Modelled from the spec: [getDestState] is called everywhere and defined
    nowhere in the sources. Section 3.3: one record per destination, lazily
    created, [currentState] defaulting to [{type: idle, retryAt: null}];
    section 4.1: [historySize] defaults to 10. *)
Definition newDestState : DestState :=
  {| currentState := Idle None; requestKey := None; listenerCount := 0%nat;
     retryAttempt := 0%nat; retryTimer := None; refreshTimer := None;
     history := []; historySize := default 10%nat (opt_historySize cfg);
     controller := None; abortController := None; inflightSeq := 0%nat |}.

Definition getDestState (dest : Dest) (t : Tap) : DestState :=
  default newDestState (dests t !! dest).

(** A write through the reference [const state = this.getDestState(dest)]. *)
Definition modify (dest : Dest) (f : DestState -> DestState) (t : Tap) : Tap :=
  set_dests (<[dest := f (getDestState dest t)]> (dests t)) t.

(** Modelled from the spec: [getDestinationParams] and [getRequestKey] are
    called in the sources and defined nowhere. Section 4.2 step 1: resolve
    the destination's parameters (absent while they do not resolve) and
    compute [requestKeyOf(params)]. *)
Definition getDestinationParams (dest : Dest) (t : Tap) : option Params :=
  destParams t !! dest.

Definition getRequestKey (params : Params) : option string :=
  requestKeyOf cfg params.

(** [this.provides.includes(grip)]. *)

Definition isOutputGrip (grip : Grip) : bool :=
  bool_decide (grip ∈ provides cfg).

(** ** State publication and the history ring *)

(** [publishState(dest)]: the snapshot's [history] is [[...state.history]],
    a copy, frozen ([HistoryStore] below models the copy and the freeze on a
    store of arrays). The elided tail publishes on the state grip when one is
    configured. *)
Definition snapshotOf (state : DestState) : AsyncRequestState :=
  {| ars_state := currentState state;
     ars_requestKey := requestKey state;
     ars_hasListeners := (0 <? listenerCount state)%nat;
     ars_history := history state |}.

Definition publishState (dest : Dest) (t : Tap) : Tap :=
  let state := getDestState dest t in
  let asyncState := snapshotOf state in
  match stateGrip cfg with
  | Some g => emit (Publish [(g, PState asyncState)] dest) t
  | None => t
  end.

(** [state.history.push(entry)] followed by the ring's
    [if (state.history.length > state.historySize) state.history.shift()]. *)
Definition pushBounded (size : nat) (entry : StateHistoryEntry)
    (h : list StateHistoryEntry) : list StateHistoryEntry :=
  let h := h ++ [entry] in
  if (size <? length h)%nat then tail h else h.

(** [addHistoryEntry(dest, newState, reason)]. The first statement returns
    when history is disabled, before the state is updated or published. *)
Definition addHistoryEntry (dest : Dest) (newState : RequestState)
    (reason : option string) (t : Tap) : Tap :=
  let state := getDestState dest t in
  if (historySize state =? 0)%nat then t
  else
    let entry :=
      {| entry_state := currentState state;
         entry_timestamp := clock t;
         entry_requestKey := requestKey state;
         entry_transitionReason := reason |} in
    let t := modify dest (fun s => set_history (pushBounded (historySize s) entry (history s)) s) t in
    let t := modify dest (set_currentState newState) t in
    publishState dest t.

(** ** Controller publication *)

(** [publishController(dest)]: [state.controller || createNoOpController()]. *)
Definition publishController (dest : Dest) (t : Tap) : Tap :=
  match controllerGrip cfg with
  | None => t
  | Some g =>
    if negb (engine t) || negb (homeContext t) || negb (producer t) then t
    else
      let state := getDestState dest t in
      let controller := default NoOpController (controller state) in
      emit (Publish [(g, PController controller)] dest) t
  end.

(** ** Timers and cancellation *)

(** [if (state.retryTimer) { clearTimeout(state.retryTimer); state.retryTimer = null; }] *)
Definition clearRetryTimer (dest : Dest) (t : Tap) : Tap :=
  match retryTimer (getDestState dest t) with
  | Some timer => modify dest (set_retryTimer None) (emit (ClearTimeout timer) t)
  | None => t
  end.

(** The same statement for [state.refreshTimer]. *)
Definition clearRefreshTimer (dest : Dest) (t : Tap) : Tap :=
  match refreshTimer (getDestState dest t) with
  | Some timer => modify dest (set_refreshTimer None) (emit (ClearTimeout timer) t)
  | None => t
  end.

(** Modelled from the spec: the tap method [cancelRetry(dest)] is declared
    and called in the sources, its body is not there. Section 4.5:
    [cancelRetry()] cancels the retry and the refresh timer, aborts nothing,
    leaves [retryAttempt] alone and starts nothing. *)
Definition cancelRetry (dest : Dest) (t : Tap) : Tap :=
  clearRefreshTimer dest (clearRetryTimer dest t).

(** [if (state.abortController) { state.abortController.abort(); ...;
    state.abortController = undefined; }], with the statement between the
    two given as [between]. *)
Definition abortInflight (dest : Dest) (between : Tap -> Tap) (t : Tap) : Tap :=
  match abortController (getDestState dest t) with
  | Some a =>
    let t := emit (Abort a) t in
    let t := between t in
    modify dest (set_abortController None) t
  | None => t
  end.

(** [this.addHistoryEntry(dest, state.currentState, reason)], the statement
    between [abort()] and the clearing of the field in [kickoff] and in
    [handleRequestKeyChange]. *)
Definition recordAbort (reason : string) (dest : Dest) (t : Tap) : Tap :=
  addHistoryEntry dest (currentState (getDestState dest t)) (Some reason) t.

(** Modelled from the spec: the tap method [reset(dest)] is declared and
    called in the sources, its body is not there. Section 4.5: abort the
    in-flight request, cancel the timers, reset [retryAttempt] to 0, start
    nothing, return to [idle] and clear the history; section 4.2 step 10: a
    snapshot follows the transition. *)
Definition reset (dest : Dest) (t : Tap) : Tap :=
  let t := abortInflight dest id t in
  let t := cancelRetry dest t in
  let t := modify dest (set_retryAttempt 0%nat) t in
  let t := modify dest (set_history []) t in
  let t := modify dest (set_currentState (Idle None)) t in
  publishState dest t.

(** ** Request runner *)

(** The sources give the head of [kickoff] and elide the rest
    ([// ... rest of kickoff logic ...]); the rest is this parameter. *)
Variable kickoffRest : Dest -> option bool -> Tap -> Tap.

(** [state.abortController = new AbortController()]. *)
Definition newAbortController (dest : Dest) (t : Tap) : Tap :=
  let a := nextAbort t in
  modify dest (set_abortController (Some a)) (set_nextAbort (S a) t).

(** The statements of [kickoff] that the sources show: abort the in-flight
    request, create the new [AbortController], cancel the scheduled retry
    and refresh. *)
Definition kickoffHead (dest : Dest) (t : Tap) : Tap :=
  let t := abortInflight dest (recordAbort "concurrent_request_aborted" dest) t in
  let t := newAbortController dest t in
  let t := cancelRetry dest t in
  clearRefreshTimer dest t.

(** [kickoff(dest, forceRefetch)]. *)
Definition kickoff (dest : Dest) (forceRefetch : option bool) (t : Tap) : Tap :=
  let t := kickoffHead dest t in
  kickoffRest dest forceRefetch t.

(** The part of [handleRequestKeyChange] that precedes [if (newKey)]: cancel
    the old timers, abort the in-flight request, reset the attempt counter,
    update the key, add the key-change history entry. *)
Definition keyChangeReset (dest : Dest) (newKey : option string) (t : Tap) : Tap :=
  let t := clearRetryTimer dest t in
  let t := clearRefreshTimer dest t in
  let t := abortInflight dest (recordAbort "request_key_changed_aborted" dest) t in
  let t := modify dest (set_retryAttempt 0%nat) t in
  let t := modify dest (set_requestKey newKey) t in
  addHistoryEntry dest (withRetryAt None (currentState (getDestState dest t)))
    (Some "request_key_changed") t.

(** [this.publish(resets, dest)] of the reset values of the output grips. *)
Definition publishResets (dest : Dest) (t : Tap) : Tap :=
  match getDestinationParams dest t with
  | Some params =>
    let resets := getResetUpdates cfg params in
    if (0 <? length resets)%nat
    then emit (Publish (map (fun gv => (gv.1, PData gv.2)) resets) dest) t
    else t
  | None => t
  end.

(** [handleRequestKeyChange(dest, oldKey, newKey)]. *)
Definition handleRequestKeyChange (dest : Dest) (oldKey : option string)
    (newKey : option string) (t : Tap) : Tap :=
  let t := keyChangeReset dest newKey t in
  if truthy newKey then
    let t := addHistoryEntry dest (Loading (clock t) None)
               (Some "request_initiated") t in
    kickoff dest (Some false) t
  else
    let t := publishResets dest t in
    let t := modify dest (set_currentState (Idle None)) t in
    publishState dest t.

(** The tap at the point where [handleRequestKeyChange] hands over to the
    elided rest of [kickoff] (truthy new key) or returns (otherwise). *)
Definition afterKeyChange (dest : Dest) (newKey : option string) (t : Tap) : Tap :=
  let t := keyChangeReset dest newKey t in
  if truthy newKey then
    let t := addHistoryEntry dest (Loading (clock t) None)
               (Some "request_initiated") t in
    kickoffHead dest t
  else
    let t := publishResets dest t in
    let t := modify dest (set_currentState (Idle None)) t in
    publishState dest t.

(** [currentParams ? this.getRequestKey(currentParams) : null]. *)
Definition currentKeyOf (dest : Dest) (t : Tap) : option string :=
  let currentParams := getDestinationParams dest t in
  match currentParams with
  | Some params => getRequestKey params
  | None => None
  end.

(** [executeRetry(dest, requestKey)], the retry timer's callback. *)
Definition executeRetry (dest : Dest) (requestKey : option string) (t : Tap) : Tap :=
  let state := getDestState dest t in
  if (listenerCount state =? 0)%nat then
    let t := modify dest (set_retryTimer None) t in
    let t := modify dest (fun s => set_currentState (withRetryAt None (currentState s)) s) t in
    publishState dest t
  else
    let currentKey := currentKeyOf dest t in
    if key_neq currentKey requestKey then
      handleRequestKeyChange dest requestKey currentKey t
    else kickoff dest (Some true) t.

(** ** Controller *)

(** [interface AsyncTapController]: four methods, each run against the tap. *)
Record AsyncTapController := mkController {
  call_retry : option bool -> Tap -> Tap;
  call_refresh : option bool -> Tap -> Tap;
  call_reset : Tap -> Tap;
  call_cancelRetry : Tap -> Tap }.

(** [forceRefetch === true] on an optional boolean. *)
Definition isTrue (forceRefetch : option bool) : bool :=
  match forceRefetch with
  | Some true => true
  | _ => false
  end.

(** The statements of the controller's [retry] before its call of
    [kickoff]: abort the in-flight request, cancel the scheduled retries,
    [state.retryAttempt += 1]. *)
Definition retryPrelude (dest : Dest) (t : Tap) : Tap :=
  let t := abortInflight dest id t in
  let t := cancelRetry dest t in
  modify dest (fun s => set_retryAttempt (retryAttempt s + 1)%nat s) t.

(** [createController(dest)]: closures over [dest]. *)
Definition createController (dest : Dest) : AsyncTapController :=
  {| call_retry := fun forceRefetch t =>
       let t := retryPrelude dest t in
       kickoff dest (Some (isTrue forceRefetch)) t;
     call_refresh := fun forceRefetch t =>
       let state := getDestState dest t in
       if StateType_eqb (type (currentState state)) success
          || StateType_eqb (type (currentState state)) stale_while_revalidate
          || StateType_eqb (type (currentState state)) stale_with_error
       then kickoff dest (Some (isTrue forceRefetch)) t
       else kickoff dest (Some (isTrue forceRefetch)) t;
     call_reset := fun t => reset dest t;
     call_cancelRetry := fun t => cancelRetry dest t |}.

(** [createNoOpController()]: four empty bodies. *)
Definition createNoOpController : AsyncTapController :=
  {| call_retry := fun _ t => t;
     call_refresh := fun _ t => t;
     call_reset := fun t => t;
     call_cancelRetry := fun t => t |}.

(** The object behind a published or stored controller reference. *)
Definition controllerObject (c : ControllerRef) : AsyncTapController :=
  match c with
  | LiveController dest => createController dest
  | NoOpController => createNoOpController
  end.

(** ** Listener tracking *)

(** Modelled from the spec: [incrementListenerCount] and
    [decrementListenerCount] are called in the sources and defined nowhere.
    Section 3.4: a mapping from request key to a count aggregated across
    destinations; section 4.7: connect increments it, disconnect decrements
    it. *)
Definition incrementListenerCount (key : string) (t : Tap) : Tap :=
  set_listenerCounts
    (<[key := (default 0%nat (listenerCounts t !! key) + 1)%nat]> (listenerCounts t)) t.

Definition decrementListenerCount (key : string) (t : Tap) : Tap :=
  set_listenerCounts
    (<[key := (default 0%nat (listenerCounts t !! key) - 1)%nat]> (listenerCounts t)) t.

(** [onConnect] and [onDisconnect] keep the tap's earlier connection logic
    ([// ... existing connection logic ...]); it is these parameters. *)
Variable existingConnect : Dest -> Grip -> Tap -> Tap.
Variable existingDisconnect : Dest -> Grip -> Tap -> Tap.

(** The block of [onConnect] under [if (isOutputGrip)]: count the listener
    and record the destination's request key. *)
Definition addListener (dest : Dest) (t : Tap) : Tap :=
  let t := modify dest (fun s => set_listenerCount (listenerCount s + 1)%nat s) t in
  match getDestinationParams dest t with
  | Some params =>
    let key := getRequestKey params in
    match key with
    | Some k =>
      if truthy key then
        let t := set_destinationRequestKeys
                   (<[dest := k]> (destinationRequestKeys t)) t in
        incrementListenerCount k t
      else t
    | None => t
    end
  | None => t
  end.

(** The block of [onConnect] under
    [if (this.controllerGrip && !state.controller)]. *)
Definition ensureController (dest : Dest) (t : Tap) : Tap :=
  match controllerGrip cfg, controller (getDestState dest t) with
  | Some _, None =>
    let t := modify dest (set_controller (Some (LiveController dest))) t in
    publishController dest t
  | _, _ => t
  end.

(** [onConnect(dest, grip)]. *)
Definition onConnect (dest : Dest) (grip : Grip) (t : Tap) : Tap :=
  let isOutputGrip := isOutputGrip grip in
  let t := if isOutputGrip then addListener dest t else t in
  let t := ensureController dest t in
  let t := existingConnect dest grip t in
  publishState dest t.

(** The first statements of [onDisconnect] under [if (isOutputGrip)]:
    uncount the listener and, for a destination with a recorded key, cancel
    the timers and clear [retryAt] when no listener is left. *)
Definition dropListener (dest : Dest) (t : Tap) : Tap :=
  let t := modify dest
             (fun s => set_listenerCount (Nat.max 0 (listenerCount s - 1)) s) t in
  match destinationRequestKeys t !! dest with
  | Some key =>
    if truthy (Some key) then
      let t := decrementListenerCount key t in
      if (listenerCount (getDestState dest t) =? 0)%nat then
        let t := cancelRetry dest t in
        let t := clearRefreshTimer dest t in
        modify dest (fun s => set_currentState (withRetryAt None (currentState s)) s) t
      else t
    else t
  | None => t
  end.

(** The last statement under [if (isOutputGrip)]:
    [if (state.listenerCount === 0 && this.controllerGrip)]. *)
Definition dropController (dest : Dest) (t : Tap) : Tap :=
  if (listenerCount (getDestState dest t) =? 0)%nat
     && bool_decide (is_Some (controllerGrip cfg))
  then
    let t := modify dest (set_controller None) t in
    publishController dest t
  else t.

(** [onDisconnect(dest, grip)]. *)
Definition onDisconnect (dest : Dest) (grip : Grip) (t : Tap) : Tap :=
  let isOutputGrip := isOutputGrip grip in
  let t := if isOutputGrip then dropController dest (dropListener dest t) else t in
  let t := existingDisconnect dest grip t in
  publishState dest t.

(** ** Scheduling *)

(** [setTimeout]: a fresh handle, recorded in the trace. *)
Definition armTimer (kind : TimerKind) (dest : Dest) (fireAt : Z) (t : Tap)
    : TimerId * Tap :=
  let timer := nextTimer t in
  let t := set_nextTimer (Pos.succ timer) t in
  (timer, emit (SetTimeout timer kind dest (requestKey (getDestState dest t)) fireAt) t).

(** Modelled from the spec: [scheduleRetry] is named in the implementation
    plan and has no body in the sources. Section 4.2 step 9: a retry is
    scheduled if the destination has listeners and [retryAttempt <
    maxRetries], otherwise [retryAt = null]; section 4.3: [retryAt = now +
    delay] with the delay of [calculateRetryTime], and [retryAttempt] is
    incremented at schedule time. *)
Definition scheduleRetry (dest : Dest) (t : Tap) : Tap :=
  let state := getDestState dest t in
  let retryAt :=
    if (0 <? listenerCount state)%nat
    then calculateRetryTime (retryAttempt state) (retry cfg) None (clock t)
    else None in
  match retryAt with
  | Some fireAt =>
    let t := modify dest (fun s => set_retryAttempt (retryAttempt s + 1)%nat s) t in
    let '(timer, t) := armTimer RetryTimer dest fireAt t in
    let t := modify dest (set_retryTimer (Some timer)) t in
    let t := modify dest (fun s => set_currentState (withRetryAt (Some fireAt) (currentState s)) s) t in
    publishState dest t
  | None =>
    let t := modify dest (fun s => set_currentState (withRetryAt None (currentState s)) s) t in
    publishState dest t
  end.

(** The refresh time of section 4.4 for this tap's options. *)
Definition refreshAt (retrievedAt : Z) : Z :=
  retrievedAt + cacheTtlMs cfg - default 0 (refreshBeforeExpiryMs cfg).

(** Modelled from the spec: the code that arms the TTL refresh is not in the
    sources. Section 4.4: [refreshAt] is [calculateRefreshTime]'s; if it is
    absent or [hasListeners == false] nothing is scheduled; otherwise a
    one-shot timer is armed and [retryAt = refreshAt] is recorded in the
    current state. *)
Definition scheduleTtlRefresh (dest : Dest) (retrievedAt : Z) (t : Tap) : Tap :=
  let state := getDestState dest t in
  if (0 <? listenerCount state)%nat then
    match calculateRefreshTime retrievedAt (cacheTtlMs cfg)
            (refreshBeforeExpiryMs cfg) (clock t) with
    | Some refreshAt =>
      let '(timer, t) := armTimer RefreshTimer dest refreshAt t in
      let t := modify dest (set_refreshTimer (Some timer)) t in
      let t := modify dest (fun s => set_currentState (withRetryAt (Some refreshAt) (currentState s)) s) t in
      publishState dest t
    | None => t
    end
  else t.

(** Modelled from the spec: section 4.2 step 6, a cache entry is a fresh hit
    while the clock is within its TTL. *)
Definition freshHit (forceRefetch : option bool) (key : option string) (t : Tap)
    : option CacheEntry :=
  if isTrue forceRefetch then None
  else
    match key with
    | Some k =>
      match cache t !! k with
      | Some entry =>
        if clock t <? storedAt entry + ttlMs entry then Some entry else None
      | None => None
      end
    | None => None
    end.

(** Modelled from the spec: section 4.2 step 7, the state a destination
    enters when a request is sent: [stale-while-revalidate] with
    [retrievedAt] preserved if data is available, [loading] otherwise. *)
Definition requestInitiatedState (current : RequestState) (now : Z) : RequestState :=
  if hasData current
  then StaleWhileRevalidate (default now (getDataRetrievedAt current)) now None
  else Loading now None.

(** Modelled from the spec: steps 5 to 8 of [kickoff] (section 4.2), which
    the sources elide, for a destination whose [requestKey] is the key of
    the request. Step 5 bumps [inflightSeq]; step 6 consults the cache unless
    [forceRefetch], and a fresh hit publishes the mapped result, moves to
    [success] and schedules the TTL refresh, with no request; step 7 picks
    the next state; step 8 invokes the fetcher. *)
Definition specRequest (dest : Dest) (forceRefetch : option bool) (t : Tap) : Tap :=
  let t := modify dest (fun s => set_inflightSeq (inflightSeq s + 1)%nat s) t in
  let state := getDestState dest t in
  match freshHit forceRefetch (requestKey state) t with
  | Some entry =>
    let t := emit (Publish (map (fun gv => (gv.1, PData gv.2))
                              (mapResult cfg (result entry))) dest) t in
    let t := addHistoryEntry dest (Success (clock t) None) (Some "cache_hit") t in
    scheduleTtlRefresh dest (clock t) t
  | None =>
    let next := requestInitiatedState (currentState state) (clock t) in
    let reason := if hasData (currentState state)
                  then "refresh_initiated" else "request_initiated" in
    let t := addHistoryEntry dest next (Some reason) t in
    emit (Fetch dest (requestKey state)
            (default 0%nat (abortController state)) (inflightSeq state)) t
  end.

End AsyncTap.

Arguments TapConfig : clear implicits.
Arguments Tap : clear implicits.
Arguments Effect : clear implicits.
Arguments Published : clear implicits.
Arguments CacheEntry : clear implicits.
Arguments AsyncTapController : clear implicits.

(** Modelled from the spec: the rest of [kickoff], elided in the sources.
    Section 4.2 steps 1 and 2: resolve the destination's parameters and
    compute the key; if it differs from [dest.requestKey], delegate to the
    request-key change and return; otherwise go on with steps 5 to 8. The
    key change calls [kickoff] again after it has updated [requestKey], so
    that inner call goes on with steps 5 to 8 at once
    ([specKickoffRest_settled] below). *)
Definition specKickoffRest {Params Result Value : Type}
    (cfg : TapConfig Params Result Value) (dest : Dest)
    (forceRefetch : option bool) (t : Tap Params Result Value)
    : Tap Params Result Value :=
  let state := getDestState cfg dest t in
  let newKey := currentKeyOf cfg dest t in
  if key_neq newKey (requestKey state)
  then handleRequestKeyChange cfg (specRequest cfg) dest (requestKey state) newKey t
  else specRequest cfg dest forceRefetch t.

(** ** The history array as a shared object

    [state.history] is one JavaScript array, mutated in place by [push] and
    [shift]; [publishState] hands out [Object.freeze([...state.history])].
    Here arrays live in a store and are named by location, so that sharing
    between the tap and a published snapshot is visible. States and history
    entries stay values: no statement of the sources writes a field of one
    (every update builds a new object). *)
Module HistoryStore.

Definition Loc := nat.

Record ArrayObj := mkArray {
  elems : list StateHistoryEntry;
  frozen : bool }.

(** The part of [DestState] that [addHistoryEntry] and [publishState] touch,
    with [history] a reference. *)
Record DestHistory := mkDest {
  currentState : RequestState;
  requestKey : option string;
  listenerCount : nat;
  history : Loc;
  historySize : nat }.

(** A published [AsyncRequestState] object; [history] is a reference. *)
Record Snapshot := mkSnapshot {
  snap_state : RequestState;
  snap_requestKey : option string;
  snap_hasListeners : bool;
  snap_history : Loc }.

Record World := mkWorld {
  store : gmap Loc ArrayObj;
  dest : DestHistory;
  published : list Snapshot;
  clock : Z }.

Definition read (l : Loc) (σ : gmap Loc ArrayObj) : list StateHistoryEntry :=
  match σ !! l with
  | Some a => elems a
  | None => []
  end.

(** [[...arr]]: a new array with the elements of [arr]. *)
Definition spread (l : Loc) (σ : gmap Loc ArrayObj) : Loc * gmap Loc ArrayObj :=
  let l' := fresh (dom σ) in
  (l', <[l' := mkArray (read l σ) false]> σ).

(** [Object.freeze(arr)]. *)
Definition freeze (l : Loc) (σ : gmap Loc ArrayObj) : gmap Loc ArrayObj :=
  alter (fun a => mkArray (elems a) true) l σ.

(** What a write to an array does: it completes, or throws [TypeError]. *)
Inductive Outcome :=
| Done (σ : gmap Loc ArrayObj)
| TypeError.

(** The ways a holder of an array reference can try to change it. Methods of
    [Array.prototype] throw on a frozen array; an assignment to an index or
    to [length] throws in strict code and is ignored in sloppy code. *)
Inductive Mutation :=
| Push (e : StateHistoryEntry)
| Pop
| Shift
| Unshift (e : StateHistoryEntry)
| SetIndex (i : nat) (e : StateHistoryEntry)
| SetLength (n : nat).

Definition isAssignment (m : Mutation) : bool :=
  match m with
  | SetIndex _ _ | SetLength _ => true
  | _ => false
  end.

Definition applyMutation (m : Mutation) (l : list StateHistoryEntry)
    : list StateHistoryEntry :=
  match m with
  | Push e => l ++ [e]
  | Pop => removelast l
  | Shift => tail l
  | Unshift e => e :: l
  | SetIndex i e => if (i <? length l)%nat then <[i := e]> l else l
  | SetLength n => take n l
  end.

Definition mutate (strict : bool) (m : Mutation) (l : Loc)
    (σ : gmap Loc ArrayObj) : Outcome :=
  match σ !! l with
  | Some a =>
    if frozen a then
      if isAssignment m && negb strict then Done σ else TypeError
    else Done (<[l := mkArray (applyMutation m (elems a)) false]> σ)
  | None => TypeError
  end.

(** The store after a write: unchanged when the write threw. *)
Definition storeAfter (o : Outcome) (σ : gmap Loc ArrayObj) : gmap Loc ArrayObj :=
  match o with
  | Done σ' => σ'
  | TypeError => σ
  end.

(** [publishState(dest)]. *)
Definition publishState (w : World) : World :=
  let state := dest w in
  let '(copy, σ) := spread (history state) (store w) in
  let σ := freeze copy σ in
  let asyncState :=
    {| snap_state := currentState state;
       snap_requestKey := requestKey state;
       snap_hasListeners := (0 <? listenerCount state)%nat;
       snap_history := copy |} in
  mkWorld σ state (published w ++ [asyncState]) (clock w).

(** [addHistoryEntry(dest, newState, reason)]. *)
Definition addHistoryEntry (newState : RequestState) (reason : option string)
    (w : World) : World :=
  let state := dest w in
  if (historySize state =? 0)%nat then w
  else
    let entry :=
      {| entry_state := currentState state;
         entry_timestamp := clock w;
         entry_requestKey := requestKey state;
         entry_transitionReason := reason |} in
    let σ := storeAfter (mutate true (Push entry) (history state) (store w)) (store w) in
    let σ :=
      if (historySize state <? length (read (history state) σ))%nat
      then storeAfter (mutate true Shift (history state) σ) σ
      else σ in
    let state := mkDest newState (requestKey state) (listenerCount state)
                   (history state) (historySize state) in
    publishState (mkWorld σ state (published w) (clock w)).

(** [state.currentState = { ...state.currentState, retryAt: null }]. *)
Definition clearRetryAt (w : World) : World :=
  let state := dest w in
  mkWorld (store w)
    (mkDest (withRetryAt None (currentState state)) (requestKey state)
       (listenerCount state) (history state) (historySize state))
    (published w) (clock w).

(** The tap's own steps on a destination, and the passing of time. *)
Inductive Step :=
| AddHistoryEntry (newState : RequestState) (reason : option string)
| PublishState
| ClearRetryAt
| Tick (now : Z).

Definition step (s : Step) (w : World) : World :=
  match s with
  | AddHistoryEntry newState reason => addHistoryEntry newState reason w
  | PublishState => publishState w
  | ClearRetryAt => clearRetryAt w
  | Tick now => mkWorld (store w) (dest w) (published w) now
  end.

Definition run (steps : list Step) (w : World) : World :=
  foldl (fun w s => step s w) w steps.

(** A published snapshot with its history array read out of the store. *)
Definition resolve (σ : gmap Loc ArrayObj) (s : Snapshot) : AsyncRequestState :=
  {| ars_state := snap_state s;
     ars_requestKey := snap_requestKey s;
     ars_hasListeners := snap_hasListeners s;
     ars_history := read (snap_history s) σ |}.

(** The record of the value model that a world stands for: the array read
    out of the store, and the fields this module leaves out at their initial
    values. *)
Definition viewOf (w : World) : DestState :=
  mkDestState (currentState (dest w)) (requestKey (dest w))
    (listenerCount (dest w)) 0%nat None None
    (read (history (dest w)) (store w)) (historySize (dest w)) None None 0%nat.

(** The internal buffer exists and is not frozen; every published history
    array exists, is frozen, and is not the internal buffer. *)
Definition wellFormed (w : World) : Prop :=
  (exists l, store w !! history (dest w) = Some (mkArray l false))
  /\ forall s, s ∈ published w ->
       snap_history s <> history (dest w)
       /\ exists l, store w !! snap_history s = Some (mkArray l true).

End HistoryStore.

(** ** A concrete tap

    The user-data tap of the README: one output grip, a state grip and a
    controller grip; the destination parameter is the user id and the request
    key is that id, absent while the id is empty. *)
Module Scenario.

Definition USER_DATA : Grip := "UserData".
Definition USER_DATA_STATE : Grip := "UserDataState".
Definition USER_DATA_CONTROLLER : Grip := "UserDataController".

Definition retryConfig : RetryConfig :=
  {| maxRetries := Some 2; initialDelayMs := Some 100; maxDelayMs := None;
     backoffMultiplier := Some 2; retryOnError := None |}.

Definition config (size : option nat) : TapConfig string Z Z :=
  {| provides := [USER_DATA];
     stateGrip := Some USER_DATA_STATE;
     controllerGrip := Some USER_DATA_CONTROLLER;
     requestKeyOf := fun userId => if String.eqb userId "" then None else Some userId;
     getResetUpdates := fun _ => [(USER_DATA, 0)];
     mapResult := fun r => [(USER_DATA, r)];
     cacheTtlMs := 1000;
     refreshBeforeExpiryMs := Some 200;
     opt_historySize := size;
     retry := retryConfig |}.

(** An attached tap with no destination yet, at time [now]. *)
Definition freshTap (now : Z) : Tap string Z Z :=
  {| dests := ∅; listenerCounts := ∅; destinationRequestKeys := ∅;
     destParams := ∅; cache := ∅; engine := true; homeContext := true;
     producer := true; clock := now; nextAbort := 0%nat; nextTimer := 1%positive;
     effects := [] |}.

(** The tap with destination 0 in state [s], its user id resolving to [userId]. *)
Definition tapWith (s : DestState) (userId : string) (now : Z) : Tap string Z Z :=
  {| dests := {[ 0%nat := s ]}; listenerCounts := ∅; destinationRequestKeys := ∅;
     destParams := {[ 0%nat := userId ]}; cache := ∅; engine := true;
     homeContext := true; producer := true; clock := now; nextAbort := 7%nat;
     nextTimer := 5%positive; effects := [] |}.

(** A destination holding data for key ["A"], one listener, a refresh timer
    pending, one history entry, room for [size] entries. *)
Definition withData (size : nat) : DestState :=
  {| currentState := Success 0 (Some 800); requestKey := Some "A";
     listenerCount := 1%nat; retryAttempt := 0%nat; retryTimer := None;
     refreshTimer := Some 3%positive;
     history := [mkEntry (Loading 0 None) 0 (Some "A") (Some "fetch_success")];
     historySize := size; controller := Some (LiveController 0%nat);
     abortController := None; inflightSeq := 1%nat |}.

(** A destination whose request failed: retry scheduled for 150, all
    listeners gone. *)
Definition failedNoListeners : DestState :=
  {| currentState := Failed (mkError "HTTP 500") 50 (Some 150);
     requestKey := Some "A"; listenerCount := 0%nat; retryAttempt := 1%nat;
     retryTimer := Some 4%positive; refreshTimer := None; history := [];
     historySize := 10%nat; controller := None; abortController := None;
     inflightSeq := 1%nat |}.

(** A destination with history disabled, before its first request. *)
Definition historyDisabled : DestState :=
  {| currentState := Idle None; requestKey := Some "A"; listenerCount := 1%nat;
     retryAttempt := 0%nat; retryTimer := None; refreshTimer := None;
     history := []; historySize := 0%nat; controller := None;
     abortController := None; inflightSeq := 0%nat |}.

(** Scenario S6: two scheduled retries have failed, one listener remains. *)
Definition failedTwice : DestState :=
  {| currentState := Failed (mkError "HTTP 500") 350 None;
     requestKey := Some "A"; listenerCount := 1%nat; retryAttempt := 2%nat;
     retryTimer := None; refreshTimer := None; history := [];
     historySize := 10%nat; controller := Some (LiveController 0%nat);
     abortController := None; inflightSeq := 3%nat |}.

(** Scenario S5: the request for key ["A"] is in flight, a retry timer and a
    refresh timer are pending, and the history holds one entry. *)
Definition inflight (size : nat) : DestState :=
  {| currentState := Loading 0 None; requestKey := Some "A";
     listenerCount := 1%nat; retryAttempt := 2%nat;
     retryTimer := Some 2%positive; refreshTimer := Some 3%positive;
     history := [mkEntry (Idle None) 0 (Some "A") (Some "request_initiated")];
     historySize := size; controller := Some (LiveController 0%nat);
     abortController := Some 6%nat; inflightSeq := 1%nat |}.

(** A destination's history buffer at location 0 holding one entry, with
    room for two, and nothing published yet. *)
Definition sharedWorld : HistoryStore.World :=
  HistoryStore.mkWorld
    {[ 0%nat := HistoryStore.mkArray
                  [mkEntry (Loading 0 None) 0 (Some "A") (Some "fetch_success")]
                  false ]}
    (HistoryStore.mkDest (Success 0 None) (Some "A") 1%nat 0%nat 2%nat)
    [] 10.

(** Three transitions, enough to evict from a ring of two. *)
Definition refreshCycle : list HistoryStore.Step :=
  [HistoryStore.Tick 800;
   HistoryStore.AddHistoryEntry (StaleWhileRevalidate 0 800 None)
     (Some "ttl_refresh_executed");
   HistoryStore.Tick 850;
   HistoryStore.AddHistoryEntry (Success 850 None) (Some "refresh_success");
   HistoryStore.AddHistoryEntry (Success 850 (Some 1650))
     (Some "ttl_refresh_scheduled")].

(** Earlier connection logic that does nothing. *)
Definition noExisting : Dest -> Grip -> Tap string Z Z -> Tap string Z Z :=
  fun _ _ t => t.

End Scenario.

(** ** What a step does to the destination record and to the trace

    Each step of the tap rewrites the destination's record and appends to
    the trace. The functions below name those two results, so that a
    composite method can be read off as a composition. *)

(** The history entry [addHistoryEntry] builds. *)
Definition entryFor (now : Z) (reason : option string) (s : DestState)
    : StateHistoryEntry :=
  {| entry_state := currentState s;
     entry_timestamp := now;
     entry_requestKey := requestKey s;
     entry_transitionReason := reason |}.

(** The record after [addHistoryEntry]. *)
Definition recordTransition (now : Z) (newState : RequestState)
    (reason : option string) (s : DestState) : DestState :=
  if (historySize s =? 0)%nat then s
  else set_currentState newState
         (set_history (pushBounded (historySize s) (entryFor now reason s) (history s)) s).

(** The [publish] call of [publishState] for a record. *)
Definition statePublication {Params Result Value : Type}
    (cfg : TapConfig Params Result Value) (dest : Dest) (s : DestState)
    : list (Effect Value) :=
  match stateGrip cfg with
  | Some g => [Publish [(g, PState (snapshotOf s))] dest]
  | None => []
  end.

(** The [clearTimeout] call for a pending timer. *)
Definition clearing {Value : Type} (timer : option TimerId) : list (Effect Value) :=
  match timer with
  | Some tm => [ClearTimeout tm]
  | None => []
  end.

(** The [abort] call for an in-flight request. *)
Definition aborting {Value : Type} (a : option AbortId) : list (Effect Value) :=
  match a with
  | Some a => [Abort a]
  | None => []
  end.

(** Whether a trace entry is a call of the fetcher for [dest]. *)
Definition isFetchFor {Value : Type} (dest : Dest) (e : Effect Value) : bool :=
  match e with
  | Fetch d _ _ _ => (d =? dest)%nat
  | _ => false
  end.

(** The number of requests sent for [dest] so far. *)
Definition requestsSent {Params Result Value : Type} (dest : Dest)
    (t : Tap Params Result Value) : nat :=
  length (filter (fun e => isFetchFor dest e = true) (effects t)).

(** [this.engine && this.homeContext && this.producer]: the tap is attached. *)
Definition attached {Params Result Value : Type} (t : Tap Params Result Value) : bool :=
  engine t && homeContext t && producer t.

(** Whether a trace entry starts work: a call of the fetcher or the arming
    of a timer. *)
Definition startsWork {Value : Type} (e : Effect Value) : bool :=
  match e with
  | Fetch _ _ _ _ | SetTimeout _ _ _ _ _ => true
  | _ => false
  end.

(** The newest [n] elements of a list, which is what a ring of capacity [n]
    retains. *)
Definition newest {A : Type} (n : nat) (l : list A) : list A :=
  drop (length l - n) l.

(** The entries a request-key change records: one for the aborted request
    when there was one (still under the old key), one for the key change
    (under the new key), and one for the request it starts when the new key
    is truthy. *)
Definition keyChangeEntries (now : Z) (newKey : option string) (s : DestState)
    : list StateHistoryEntry :=
  match abortController s with
  | Some _ => [entryFor now (Some "request_key_changed_aborted") s]
  | None => []
  end
  ++ [entryFor now (Some "request_key_changed") (set_requestKey newKey s)]
  ++ (if truthy newKey
      then [entryFor now (Some "request_initiated")
              (set_currentState (withRetryAt None (currentState s))
                 (set_requestKey newKey s))]
      else []).

(** The controller most recently published for [dest] on [grip]. *)
Fixpoint lastController {Value : Type} (grip : Grip) (dest : Dest)
    (trace : list (Effect Value)) : option ControllerRef :=
  match trace with
  | [] => None
  | e :: rest =>
    match lastController grip dest rest with
    | Some c => Some c
    | None =>
      match e with
      | Publish [(g, PController c)] d =>
        if String.eqb g grip && (d =? dest)%nat then Some c else None
      | _ => None
      end
    end
  end.

(** The passing of time between two calls: [Date.now()] reads [now] from
    here on. *)
Definition set_clock {Params Result Value : Type} (now : Z)
    (t : Tap Params Result Value) : Tap Params Result Value :=
  mkTap (dests t) (listenerCounts t) (destinationRequestKeys t) (destParams t)
    (cache t) (engine t) (homeContext t) (producer t) now (nextAbort t)
    (nextTimer t) (effects t).

(** A run of transitions of one destination, each made through
    [addHistoryEntry] at its own time: a step is the time, the new state and
    the reason. *)
Definition transitions {Params Result Value : Type}
    (cfg : TapConfig Params Result Value) (dest : Dest)
    (steps : list (Z * RequestState * option string))
    (t : Tap Params Result Value) : Tap Params Result Value :=
  foldl (fun t step =>
           addHistoryEntry cfg dest step.1.2 step.2 (set_clock step.1.1 t))
        t steps.

(** The entries such a run records, starting from the state [current] under
    the key [key]: each entry holds the state being left. *)
Fixpoint transitionLog (current : RequestState) (key : option string)
    (steps : list (Z * RequestState * option string)) : list StateHistoryEntry :=
  match steps with
  | [] => []
  | step :: rest =>
    mkEntry current step.1.1 key step.2 :: transitionLog step.1.2 key rest
  end.

(** * Properties *)

(** ** Reading the tap after a primitive step *)

Section Frame.
Context {Params Result Value : Type}.
Variable cfg : TapConfig Params Result Value.
Implicit Types (t : Tap Params Result Value) (d : Dest) (e : Effect Value).

Lemma getDestState_modify d f t :
  getDestState cfg d (modify cfg d f t) = f (getDestState cfg d t).
Proof. unfold getDestState, modify. simpl. by rewrite lookup_insert_eq. Qed.

Lemma getDestState_modify_ne d d' f t :
  d <> d' -> getDestState cfg d' (modify cfg d f t) = getDestState cfg d' t.
Proof. intros Hne. unfold getDestState, modify. simpl. by rewrite lookup_insert_ne. Qed.

Lemma getDestState_emit d e t : getDestState cfg d (emit e t) = getDestState cfg d t.
Proof. reflexivity. Qed.

Lemma getDestState_set_nextAbort d a t :
  getDestState cfg d (set_nextAbort a t) = getDestState cfg d t.
Proof. reflexivity. Qed.

Lemma getDestState_set_nextTimer d a t :
  getDestState cfg d (set_nextTimer a t) = getDestState cfg d t.
Proof. reflexivity. Qed.

Lemma getDestState_set_listenerCounts d m t :
  getDestState cfg d (set_listenerCounts m t) = getDestState cfg d t.
Proof. reflexivity. Qed.

Lemma getDestState_set_destinationRequestKeys d m t :
  getDestState cfg d (set_destinationRequestKeys m t) = getDestState cfg d t.
Proof. reflexivity. Qed.

Lemma effects_modify d f t : effects (modify cfg d f t) = effects t.
Proof. reflexivity. Qed.

Lemma effects_emit e t : effects (emit e t) = effects t ++ [e].
Proof. reflexivity. Qed.

Lemma clock_modify d f t : clock (modify cfg d f t) = clock t.
Proof. reflexivity. Qed.

Lemma clock_emit e t : clock (emit e t) = clock t.
Proof. reflexivity. Qed.

Lemma getDestinationParams_modify d d' f t :
  getDestinationParams d' (modify cfg d f t) = getDestinationParams d' t.
Proof. reflexivity. Qed.

Lemma getDestinationParams_emit d e t :
  getDestinationParams d (emit e t) = getDestinationParams d t.
Proof. reflexivity. Qed.

End Frame.

Create Rewrite HintDb tap.
#[local] Hint Rewrite
  @getDestState_modify @getDestState_emit @getDestState_set_nextAbort
  @getDestState_set_nextTimer @getDestState_set_listenerCounts
  @getDestState_set_destinationRequestKeys @effects_modify @effects_emit
  @clock_modify @clock_emit @getDestinationParams_modify
  @getDestinationParams_emit : tap.

(** ** Retry backoff *)

Section Backoff.
Variable config : RetryConfig.

Lemma calculateRetryTime_below (attempt : nat) (baseTime : option Z) (now : Z) :
  Z.of_nat attempt < effMaxRetries config ->
  calculateRetryTime attempt config baseTime now =
    Some (default now baseTime
          + Z.min (effMaxDelayMs config)
              (effInitialDelayMs config
               * effBackoffMultiplier config ^ Z.of_nat attempt)).
Proof.
  intros Hlt. unfold calculateRetryTime.
  fold (effMaxRetries config) (effInitialDelayMs config) (effMaxDelayMs config)
    (effBackoffMultiplier config).
  destruct (Z.leb_spec (effMaxRetries config) (Z.of_nat attempt)) as [Hle|_]; [lia|].
  by rewrite Z.min_comm.
Qed.

Lemma calculateRetryTime_exhausted (attempt : nat) (baseTime : option Z) (now : Z) :
  effMaxRetries config <= Z.of_nat attempt ->
  calculateRetryTime attempt config baseTime now = None.
Proof.
  intros Hle. unfold calculateRetryTime. fold (effMaxRetries config).
  destruct (Z.leb_spec (effMaxRetries config) (Z.of_nat attempt)); [done|lia].
Qed.

End Backoff.

(** C5. A retry scheduled with attempt counter [retryAttempt < maxRetries]
    is due at [now + min(maxDelayMs, initialDelayMs * backoffMultiplier ^
    retryAttempt)]; with [retryAttempt >= maxRetries] no retry time is
    produced ([retryAt] is null), in particular on the first failure
    ([retryAttempt = 0]) when [maxRetries = 0]. *)
Theorem calculateRetryTime_backoff (config : RetryConfig) (retryAttempt : nat) (now : Z) :
  (Z.of_nat retryAttempt < effMaxRetries config ->
     calculateRetryTime retryAttempt config None now =
       Some (now + Z.min (effMaxDelayMs config)
                     (effInitialDelayMs config
                      * effBackoffMultiplier config ^ Z.of_nat retryAttempt)))
  /\ (effMaxRetries config <= Z.of_nat retryAttempt ->
        calculateRetryTime retryAttempt config None now = None)
  /\ (maxRetries config = Some 0 ->
        calculateRetryTime 0 config None now = None).
Proof.
  split; [|split].
  - apply calculateRetryTime_below.
  - apply calculateRetryTime_exhausted.
  - intros H0. apply calculateRetryTime_exhausted.
    unfold effMaxRetries. rewrite H0. simpl. lia.
Qed.

(** Scenario S2: the first retry after a failure at 50 is due at 150, the
    second at 250, and there is no third. *)
Lemma calculateRetryTime_backoff_witness :
  calculateRetryTime 0 Scenario.retryConfig None 50 = Some 150
  /\ calculateRetryTime 1 Scenario.retryConfig None 50 = Some 250
  /\ calculateRetryTime 2 Scenario.retryConfig None 50 = None.
Proof.
  split; [|split].
  - apply (proj1 (calculateRetryTime_backoff Scenario.retryConfig 0 50)).
    vm_compute. reflexivity.
  - apply (proj1 (calculateRetryTime_backoff Scenario.retryConfig 1 50)).
    vm_compute. reflexivity.
  - apply (proj1 (proj2 (calculateRetryTime_backoff Scenario.retryConfig 2 50))).
    vm_compute. discriminate.
Defined.

(** ** TTL refresh *)

Lemma calculateRefreshTime_due (retrievedAt ttl : Z) (before : option Z) (now : Z) :
  0 < ttl -> now < retrievedAt + ttl - default 0 before ->
  calculateRefreshTime retrievedAt ttl before now
    = Some (retrievedAt + ttl - default 0 before).
Proof.
  intros Httl Hnow. unfold calculateRefreshTime.
  destruct (Z.leb_spec ttl 0); [lia|].
  destruct (Z.ltb_spec now (retrievedAt + ttl - default 0 before)); [done|lia].
Qed.

Lemma calculateRefreshTime_none (retrievedAt ttl : Z) (before : option Z) (now : Z) :
  ttl <= 0 \/ retrievedAt + ttl - default 0 before <= now ->
  calculateRefreshTime retrievedAt ttl before now = None.
Proof.
  intros H. unfold calculateRefreshTime.
  destruct (Z.leb_spec ttl 0); [done|].
  destruct (Z.ltb_spec now (retrievedAt + ttl - default 0 before)); [lia|done].
Qed.

Section Refresh.
Context {Params Result Value : Type}.
Variable cfg : TapConfig Params Result Value.
Implicit Types (t : Tap Params Result Value) (d : Dest).

Lemma scheduleTtlRefresh_armed d retrievedAt t :
  0 < cacheTtlMs cfg -> clock t < refreshAt cfg retrievedAt ->
  (0 < listenerCount (getDestState cfg d t))%nat ->
  let t' := scheduleTtlRefresh cfg d retrievedAt t in
  refreshTimer (getDestState cfg d t') = Some (nextTimer t)
  /\ retryAt (currentState (getDestState cfg d t')) = Some (refreshAt cfg retrievedAt)
  /\ SetTimeout (nextTimer t) RefreshTimer d (requestKey (getDestState cfg d t))
       (refreshAt cfg retrievedAt) ∈ effects t'.
Proof.
  unfold refreshAt. intros Httl Hnow Hl. unfold scheduleTtlRefresh.
  apply Nat.ltb_lt in Hl. rewrite Hl.
  rewrite (calculateRefreshTime_due _ _ _ _ Httl Hnow).
  unfold armTimer, publishState. cbv zeta.
  split; [|split].
  - destruct (stateGrip cfg); by autorewrite with tap.
  - destruct (stateGrip cfg); autorewrite with tap; simpl;
      by destruct (currentState (getDestState cfg d t)).
  - destruct (stateGrip cfg); autorewrite with tap; set_solver.
Qed.

Lemma scheduleTtlRefresh_skipped d retrievedAt t :
  cacheTtlMs cfg <= 0 \/ refreshAt cfg retrievedAt <= clock t
    \/ listenerCount (getDestState cfg d t) = 0%nat ->
  scheduleTtlRefresh cfg d retrievedAt t = t.
Proof.
  unfold refreshAt. intros H. unfold scheduleTtlRefresh.
  destruct (Nat.ltb_spec 0 (listenerCount (getDestState cfg d t))) as [Hl|Hl]; [|done].
  rewrite calculateRefreshTime_none; [done|].
  destruct H as [H|[H|H]]; [by left|by right|lia].
Qed.

End Refresh.

(** C9. After a success at [retrievedAt], with [cacheTtlMs > 0], the refresh
    time is [retrievedAt + cacheTtlMs - refreshBeforeExpiryMs]: that is what
    [calculateRefreshTime] returns while the time is still ahead, and the
    timer armed for a destination with listeners fires then. No refresh is
    scheduled when that time is [<= now], when [cacheTtlMs <= 0], or when the
    destination has no listeners: the tap is left as it was. *)
Theorem ttl_refresh_time {Params Result Value : Type}
    (cfg : TapConfig Params Result Value) (d : Dest) (retrievedAt : Z)
    (t : Tap Params Result Value) :
  (0 < cacheTtlMs cfg ->
   clock t < retrievedAt + cacheTtlMs cfg - default 0 (refreshBeforeExpiryMs cfg) ->
     calculateRefreshTime retrievedAt (cacheTtlMs cfg) (refreshBeforeExpiryMs cfg) (clock t)
       = Some (retrievedAt + cacheTtlMs cfg - default 0 (refreshBeforeExpiryMs cfg))
     /\ ((0 < listenerCount (getDestState cfg d t))%nat ->
         refreshTimer (getDestState cfg d (scheduleTtlRefresh cfg d retrievedAt t))
           = Some (nextTimer t)
         /\ SetTimeout (nextTimer t) RefreshTimer d (requestKey (getDestState cfg d t))
              (retrievedAt + cacheTtlMs cfg - default 0 (refreshBeforeExpiryMs cfg))
              ∈ effects (scheduleTtlRefresh cfg d retrievedAt t)))
  /\ (retrievedAt + cacheTtlMs cfg - default 0 (refreshBeforeExpiryMs cfg) <= clock t
      \/ cacheTtlMs cfg <= 0
      \/ listenerCount (getDestState cfg d t) = 0%nat ->
        scheduleTtlRefresh cfg d retrievedAt t = t)
  /\ (retrievedAt + cacheTtlMs cfg - default 0 (refreshBeforeExpiryMs cfg) <= clock t
      \/ cacheTtlMs cfg <= 0 ->
        calculateRefreshTime retrievedAt (cacheTtlMs cfg) (refreshBeforeExpiryMs cfg) (clock t)
          = None).
Proof.
  split; [|split].
  - intros Httl Hnow. split; [by apply calculateRefreshTime_due|].
    intros Hl.
    destruct (scheduleTtlRefresh_armed cfg d retrievedAt t Httl Hnow Hl) as (H1 & _ & H3).
    by split.
  - intros H. apply scheduleTtlRefresh_skipped. tauto.
  - intros H. apply calculateRefreshTime_none. tauto.
Qed.

(** Scenario S3: data retrieved at 0 with a TTL of 1000 and a margin of 200
    is refreshed at 800; at 800 it is too late to schedule. *)
Lemma ttl_refresh_time_witness :
  calculateRefreshTime 0 1000 (Some 200) 0 = Some 800
  /\ refreshTimer (getDestState (Scenario.config None) 0%nat
       (scheduleTtlRefresh (Scenario.config None) 0%nat 0
          (Scenario.tapWith (Scenario.withData 10) "A" 0))) = Some 5%positive
  /\ scheduleTtlRefresh (Scenario.config None) 0%nat 0
       (Scenario.tapWith (Scenario.withData 10) "A" 800)
     = Scenario.tapWith (Scenario.withData 10) "A" 800.
Proof.
  pose proof (ttl_refresh_time (Scenario.config None) 0%nat 0
                (Scenario.tapWith (Scenario.withData 10) "A" 0)) as (H1 & _ & _).
  pose proof (ttl_refresh_time (Scenario.config None) 0%nat 0
                (Scenario.tapWith (Scenario.withData 10) "A" 800)) as (_ & H2 & _).
  split; [|split].
  - apply H1; vm_compute; reflexivity.
  - apply H1; vm_compute; first [reflexivity | lia].
  - apply H2. left. vm_compute. discriminate.
Defined.

(** ** The steps, read as record and trace changes *)

Section Views.
Context {Params Result Value : Type}.
Variable cfg : TapConfig Params Result Value.
Implicit Types (t : Tap Params Result Value) (d : Dest) (s : DestState).

Lemma set_retryTimer_same s : retryTimer s = None -> set_retryTimer None s = s.
Proof. destruct s; simpl; by intros ->. Qed.

Lemma set_refreshTimer_same s : refreshTimer s = None -> set_refreshTimer None s = s.
Proof. destruct s; simpl; by intros ->. Qed.

Lemma set_abortController_same s :
  abortController s = None -> set_abortController None s = s.
Proof. destruct s; simpl; by intros ->. Qed.

Lemma getDestState_publishState d d' t :
  getDestState cfg d' (publishState cfg d t) = getDestState cfg d' t.
Proof. unfold publishState. by destruct (stateGrip cfg). Qed.

Lemma effects_publishState d t :
  effects (publishState cfg d t)
    = effects t ++ statePublication cfg d (getDestState cfg d t).
Proof.
  unfold publishState, statePublication.
  destruct (stateGrip cfg); simpl; [done|by rewrite app_nil_r].
Qed.

Lemma clock_publishState d t : clock (publishState cfg d t) = clock t.
Proof. unfold publishState. by destruct (stateGrip cfg). Qed.

Lemma getDestState_addHistoryEntry d newState reason t :
  getDestState cfg d (addHistoryEntry cfg d newState reason t)
    = recordTransition (clock t) newState reason (getDestState cfg d t).
Proof.
  unfold addHistoryEntry, recordTransition.
  destruct (historySize (getDestState cfg d t) =? 0)%nat; [done|].
  rewrite getDestState_publishState. by autorewrite with tap.
Qed.

Lemma effects_addHistoryEntry d newState reason t :
  effects (addHistoryEntry cfg d newState reason t)
    = effects t ++
      (if (historySize (getDestState cfg d t) =? 0)%nat then []
       else statePublication cfg d
              (recordTransition (clock t) newState reason (getDestState cfg d t))).
Proof.
  unfold addHistoryEntry, recordTransition.
  destruct (historySize (getDestState cfg d t) =? 0)%nat; [by rewrite app_nil_r|].
  rewrite effects_publishState. by autorewrite with tap.
Qed.

Lemma clock_addHistoryEntry d newState reason t :
  clock (addHistoryEntry cfg d newState reason t) = clock t.
Proof.
  unfold addHistoryEntry.
  destruct (historySize (getDestState cfg d t) =? 0)%nat; [done|].
  by rewrite clock_publishState.
Qed.

Lemma getDestState_clearRetryTimer d t :
  getDestState cfg d (clearRetryTimer cfg d t)
    = set_retryTimer None (getDestState cfg d t).
Proof.
  unfold clearRetryTimer.
  destruct (retryTimer (getDestState cfg d t)) eqn:E;
    [by autorewrite with tap | by rewrite set_retryTimer_same].
Qed.

Lemma effects_clearRetryTimer d t :
  effects (clearRetryTimer cfg d t)
    = effects t ++ clearing (retryTimer (getDestState cfg d t)).
Proof.
  unfold clearRetryTimer.
  destruct (retryTimer (getDestState cfg d t)); simpl; [done|by rewrite app_nil_r].
Qed.

Lemma clock_clearRetryTimer d t : clock (clearRetryTimer cfg d t) = clock t.
Proof. unfold clearRetryTimer. by destruct (retryTimer (getDestState cfg d t)). Qed.

Lemma getDestState_clearRefreshTimer d t :
  getDestState cfg d (clearRefreshTimer cfg d t)
    = set_refreshTimer None (getDestState cfg d t).
Proof.
  unfold clearRefreshTimer.
  destruct (refreshTimer (getDestState cfg d t)) eqn:E;
    [by autorewrite with tap | by rewrite set_refreshTimer_same].
Qed.

Lemma effects_clearRefreshTimer d t :
  effects (clearRefreshTimer cfg d t)
    = effects t ++ clearing (refreshTimer (getDestState cfg d t)).
Proof.
  unfold clearRefreshTimer.
  destruct (refreshTimer (getDestState cfg d t)); simpl; [done|by rewrite app_nil_r].
Qed.

Lemma clock_clearRefreshTimer d t : clock (clearRefreshTimer cfg d t) = clock t.
Proof. unfold clearRefreshTimer. by destruct (refreshTimer (getDestState cfg d t)). Qed.

Lemma getDestState_cancelRetry d t :
  getDestState cfg d (cancelRetry cfg d t)
    = set_refreshTimer None (set_retryTimer None (getDestState cfg d t)).
Proof.
  unfold cancelRetry. by rewrite getDestState_clearRefreshTimer, getDestState_clearRetryTimer.
Qed.

Lemma effects_cancelRetry d t :
  effects (cancelRetry cfg d t)
    = effects t ++ clearing (retryTimer (getDestState cfg d t))
        ++ clearing (refreshTimer (getDestState cfg d t)).
Proof.
  unfold cancelRetry.
  rewrite effects_clearRefreshTimer, getDestState_clearRetryTimer, effects_clearRetryTimer.
  by rewrite <- app_assoc.
Qed.

Lemma clock_cancelRetry d t : clock (cancelRetry cfg d t) = clock t.
Proof. unfold cancelRetry. by rewrite clock_clearRefreshTimer, clock_clearRetryTimer. Qed.

Lemma getDestState_newAbortController d t :
  getDestState cfg d (newAbortController cfg d t)
    = set_abortController (Some (nextAbort t)) (getDestState cfg d t).
Proof. unfold newAbortController. by autorewrite with tap. Qed.

Lemma effects_newAbortController d t :
  effects (newAbortController cfg d t) = effects t.
Proof. reflexivity. Qed.

Lemma clock_newAbortController d t : clock (newAbortController cfg d t) = clock t.
Proof. reflexivity. Qed.

(** Aborting with nothing recorded in between (the controller's [retry]). *)
Lemma getDestState_abortInflight_id d t :
  getDestState cfg d (abortInflight cfg d id t)
    = set_abortController None (getDestState cfg d t).
Proof.
  unfold abortInflight.
  destruct (abortController (getDestState cfg d t)) eqn:E;
    [by autorewrite with tap | by rewrite set_abortController_same].
Qed.

Lemma effects_abortInflight_id d t :
  effects (abortInflight cfg d id t)
    = effects t ++ aborting (abortController (getDestState cfg d t)).
Proof.
  unfold abortInflight.
  destruct (abortController (getDestState cfg d t)); simpl; [done|by rewrite app_nil_r].
Qed.

(** Aborting with a history entry recorded in between ([kickoff] and
    [handleRequestKeyChange]). *)
Lemma getDestState_abortInflight_record reason d t :
  getDestState cfg d (abortInflight cfg d (recordAbort cfg reason d) t)
    = set_abortController None
        (match abortController (getDestState cfg d t) with
         | Some _ => recordTransition (clock t)
                       (currentState (getDestState cfg d t)) (Some reason)
                       (getDestState cfg d t)
         | None => getDestState cfg d t
         end).
Proof.
  unfold abortInflight, recordAbort.
  destruct (abortController (getDestState cfg d t)) eqn:E.
  - autorewrite with tap. by rewrite getDestState_addHistoryEntry.
  - by rewrite set_abortController_same.
Qed.

Lemma effects_abortInflight_record reason d t :
  effects (abortInflight cfg d (recordAbort cfg reason d) t)
    = effects t ++
      match abortController (getDestState cfg d t) with
      | Some a =>
        Abort a ::
        (if (historySize (getDestState cfg d t) =? 0)%nat then []
         else statePublication cfg d
                (recordTransition (clock t) (currentState (getDestState cfg d t))
                   (Some reason) (getDestState cfg d t)))
      | None => []
      end.
Proof.
  unfold abortInflight, recordAbort.
  destruct (abortController (getDestState cfg d t)) eqn:E; [|by rewrite app_nil_r].
  autorewrite with tap. rewrite effects_addHistoryEntry.
  autorewrite with tap. by rewrite <- app_assoc.
Qed.

Lemma clock_abortInflight_record reason d t :
  clock (abortInflight cfg d (recordAbort cfg reason d) t) = clock t.
Proof.
  unfold abortInflight, recordAbort.
  destruct (abortController (getDestState cfg d t)); [|done].
  autorewrite with tap. by rewrite clock_addHistoryEntry.
Qed.

End Views.

(** ** Transitions and the history switch *)

Section Transitions.
Context {Params Result Value : Type}.
Variable cfg : TapConfig Params Result Value.
Implicit Types (t : Tap Params Result Value) (d : Dest) (s : DestState).

Lemma requestsSent_unchanged d t t' (added : list (Effect Value)) :
  effects t' = effects t ++ added ->
  Forall (fun e => isFetchFor d e = false) added ->
  requestsSent d t' = requestsSent d t.
Proof.
  intros Heff Hnone. unfold requestsSent. rewrite Heff, filter_app, length_app.
  clear Heff.
  replace (filter (fun e => isFetchFor d e = true) added) with (@nil (Effect Value));
    [simpl; lia|].
  symmetry. induction Hnone as [|e l He _ IH]; [done|].
  rewrite filter_cons. destruct (decide (isFetchFor d e = true)); [congruence|done].
Qed.

Lemma statePublication_no_fetch d s :
  Forall (fun e => isFetchFor d e = false) (statePublication cfg d s).
Proof. unfold statePublication. destruct (stateGrip cfg); repeat constructor. Qed.

(** With history enabled a transition updates the state, pushes the state
    being left, and publishes the snapshot. *)
Lemma addHistoryEntry_enabled d newState reason t :
  historySize (getDestState cfg d t) <> 0%nat ->
  currentState (getDestState cfg d (addHistoryEntry cfg d newState reason t)) = newState
  /\ history (getDestState cfg d (addHistoryEntry cfg d newState reason t))
       = pushBounded (historySize (getDestState cfg d t))
           (entryFor (clock t) reason (getDestState cfg d t))
           (history (getDestState cfg d t))
  /\ effects (addHistoryEntry cfg d newState reason t)
       = effects t ++ statePublication cfg d
           (getDestState cfg d (addHistoryEntry cfg d newState reason t)).
Proof.
  intros Hsize. rewrite effects_addHistoryEntry, !getDestState_addHistoryEntry.
  unfold recordTransition.
  destruct (Nat.eqb_spec (historySize (getDestState cfg d t)) 0); [done|].
  by destruct (getDestState cfg d t).
Qed.

(** With [historySize = 0] the early return leaves the tap as it was: the
    state is not updated and nothing is published. *)
Lemma addHistoryEntry_disabled d newState reason t :
  historySize (getDestState cfg d t) = 0%nat ->
  addHistoryEntry cfg d newState reason t = t.
Proof. intros Hsize. unfold addHistoryEntry. by rewrite Hsize. Qed.

End Transitions.

(** C2. After a state transition the destination's [currentState] is the new
    state and a snapshot is emitted on the state grip, for every
    [historySize], 0 included. The code does not do this at [historySize =
    0]: on a destination with history disabled, the transition from [idle]
    to [loading] made through [addHistoryEntry] leaves [currentState] at
    [idle] and publishes nothing. *)
Theorem addHistoryEntry_disabled_drops_transition :
  let cfg := Scenario.config (Some 0%nat) in
  let t := Scenario.tapWith Scenario.historyDisabled "A" 10 in
  let t' := addHistoryEntry cfg 0%nat (Loading 10 None) (Some "request_initiated") t in
  historySize (getDestState cfg 0%nat t) = 0%nat
  /\ currentState (getDestState cfg 0%nat t') = Idle None
  /\ effects t' = []
  /\ t' = t.
Proof. vm_compute. done. Qed.

(** ** The retry timer firing without listeners *)

(** C4, as amended. When the retry timer of a destination fires while
    [listenerCount] is 0, no fetch is initiated: the timer slot is cleared,
    [retryAt] is set to null on the current state (whose variant is kept),
    and one state snapshot is published; the history is left as it was (no
    [listener_unsubscribed] entry is recorded) and nothing else changes. *)
Theorem executeRetry_without_listeners {Params Result Value : Type}
    (cfg : TapConfig Params Result Value)
    (kickoffRest : Dest -> option bool -> Tap Params Result Value -> Tap Params Result Value)
    (d : Dest) (key : option string) (t : Tap Params Result Value) :
  listenerCount (getDestState cfg d t) = 0%nat ->
  let s := getDestState cfg d t in
  let t' := executeRetry cfg kickoffRest d key t in
  let s' := getDestState cfg d t' in
  s' = set_currentState (withRetryAt None (currentState s)) (set_retryTimer None s)
  /\ retryTimer s' = None
  /\ retryAt (currentState s') = None
  /\ type (currentState s') = type (currentState s)
  /\ history s' = history s
  /\ abortController s' = abortController s
  /\ effects t' = effects t ++ statePublication cfg d s'
  /\ requestsSent d t' = requestsSent d t.
Proof.
  intros Hl. cbv zeta. unfold executeRetry. rewrite Hl. simpl.
  rewrite getDestState_publishState, effects_publishState. autorewrite with tap.
  repeat split; try by destruct (getDestState cfg d t).
  - by destruct (getDestState cfg d t) as [[] ? ? ? ? ? ? ? ? ? ?].
  - by destruct (getDestState cfg d t) as [[] ? ? ? ? ? ? ? ? ? ?].
  - eapply requestsSent_unchanged.
    + rewrite effects_publishState. autorewrite with tap. reflexivity.
    + apply statePublication_no_fetch.
Qed.

(** Scenario S4, with the timer still firing at 150: the error state stays,
    its [retryAt] is gone, and no request is sent. *)
Lemma executeRetry_without_listeners_witness :
  let cfg := Scenario.config None in
  let t := Scenario.tapWith Scenario.failedNoListeners "A" 150 in
  let t' := executeRetry cfg (specKickoffRest cfg) 0%nat (Some "A") t in
  currentState (getDestState cfg 0%nat t') = Failed (mkError "HTTP 500") 50 None
  /\ retryTimer (getDestState cfg 0%nat t') = None
  /\ requestsSent 0%nat t' = 0%nat.
Proof.
  cbv zeta.
  destruct (executeRetry_without_listeners (Scenario.config None)
              (specKickoffRest (Scenario.config None)) 0%nat (Some "A")
              (Scenario.tapWith Scenario.failedNoListeners "A" 150) eq_refl)
    as (Hs & Ht & _ & _ & _ & _ & _ & Hr).
  split; [|split].
  - rewrite Hs. reflexivity.
  - exact Ht.
  - rewrite Hr. reflexivity.
Defined.

(** C4 as stated fails: after the retry timer fired on a destination without
    listeners, the history holds no entry with reason
    [listener_unsubscribed]. *)
Lemma executeRetry_records_no_listener_unsubscribed :
  let cfg := Scenario.config None in
  let t := Scenario.tapWith Scenario.failedNoListeners "A" 150 in
  let t' := executeRetry cfg (specKickoffRest cfg) 0%nat (Some "A") t in
  listenerCount (getDestState cfg 0%nat t) = 0%nat
  /\ ~ exists e, e ∈ history (getDestState cfg 0%nat t')
                 /\ entry_transitionReason e = Some "listener_unsubscribed".
Proof.
  cbv zeta. split; [reflexivity|].
  intros (e & Hin & _). vm_compute in Hin. by apply elem_of_nil in Hin.
Qed.

(** ** The head of [kickoff] *)

#[local] Hint Rewrite
  @getDestState_publishState @getDestState_addHistoryEntry
  @getDestState_clearRetryTimer @getDestState_clearRefreshTimer
  @getDestState_cancelRetry @getDestState_newAbortController
  @getDestState_abortInflight_id @getDestState_abortInflight_record
  @clock_publishState @clock_addHistoryEntry @clock_clearRetryTimer
  @clock_clearRefreshTimer @clock_cancelRetry @clock_newAbortController
  @clock_abortInflight_record : tap.

(** Compute field reads through field writes. *)
Ltac fields :=
  cbn [entryFor set_currentState set_requestKey set_listenerCount
       set_retryAttempt set_retryTimer set_refreshTimer set_history
       set_controller set_abortController set_inflightSeq
       currentState requestKey listenerCount retryAttempt retryTimer
       refreshTimer history historySize controller abortController
       inflightSeq] in *.

(** Unfold the steps down to [modify] and [emit] and split on every test. *)
Ltac step_cases :=
  unfold kickoffHead, keyChangeReset, abortInflight, recordAbort, addHistoryEntry,
    publishState, newAbortController, cancelRetry, clearRetryTimer,
    clearRefreshTimer, publishResets;
  repeat case_match; try reflexivity.

Section KickoffHead.
Context {Params Result Value : Type}.
Variable cfg : TapConfig Params Result Value.
Implicit Types (t : Tap Params Result Value) (d : Dest) (s : DestState).

Lemma cache_kickoffHead d t : cache (kickoffHead cfg d t) = cache t.
Proof. step_cases. Qed.

Lemma clock_kickoffHead d t : clock (kickoffHead cfg d t) = clock t.
Proof. unfold kickoffHead. by autorewrite with tap. Qed.

(** The head leaves the state variant, the key, the counters and the
    history bound alone; it clears both timers and installs a new
    [AbortController]. *)
Lemma kickoffHead_record d t :
  let s := getDestState cfg d t in
  let s' := getDestState cfg d (kickoffHead cfg d t) in
  currentState s' = currentState s
  /\ requestKey s' = requestKey s
  /\ retryAttempt s' = retryAttempt s
  /\ listenerCount s' = listenerCount s
  /\ historySize s' = historySize s
  /\ inflightSeq s' = inflightSeq s
  /\ retryTimer s' = None
  /\ refreshTimer s' = None
  /\ abortController s' = Some (nextAbort t)
  /\ (abortController s = None -> history s' = history s).
Proof.
  cbv zeta. unfold kickoffHead. autorewrite with tap.
  assert (nextAbort (abortInflight cfg d (recordAbort cfg "concurrent_request_aborted" d) t)
          = nextAbort t) as -> by step_cases.
  unfold recordTransition.
  destruct (getDestState cfg d t) as [cs rk lc ra rt ft h hs c [a|] sq]; simpl;
    [destruct (hs =? 0)%nat|]; simpl; repeat split; done.
Qed.

(** The head sends no request and arms no timer. *)
Lemma kickoffHead_effects d t :
  exists added, effects (kickoffHead cfg d t) = effects t ++ added
                /\ Forall (fun e => startsWork e = false) added.
Proof.
  unfold kickoffHead.
  rewrite effects_clearRefreshTimer, effects_cancelRetry, effects_newAbortController,
    effects_abortInflight_record.
  rewrite <- !app_assoc. eexists; split; [reflexivity|].
  repeat apply Forall_app_2;
    unfold clearing, statePublication;
    repeat case_match; repeat constructor.
Qed.

End KickoffHead.

(** ** The history ring *)

Section Ring.
Implicit Types (h : list StateHistoryEntry) (e : StateHistoryEntry).

Lemma newest_all {A} (n : nat) (l : list A) :
  (length l <= n)%nat -> newest n l = l.
Proof. intros H. unfold newest. by replace (length l - n)%nat with 0%nat by lia. Qed.

Lemma length_newest {A} (n : nat) (l : list A) : (length (newest n l) <= n)%nat.
Proof. unfold newest. rewrite length_drop. lia. Qed.

Lemma newest_snoc {A} (n : nat) (l : list A) (x : A) :
  newest n (newest n l ++ [x]) = newest n (l ++ [x]).
Proof.
  unfold newest. rewrite !length_app, length_drop. simpl.
  destruct (decide (length l <= n)%nat) as [Hle|Hgt].
  - replace (length l - n)%nat with 0%nat by lia. rewrite drop_0.
    f_equal. lia.
  - destruct (decide (n = 0%nat)) as [->|Hn].
    + rewrite !drop_ge; [done| |]; rewrite ?length_app, ?length_drop; simpl; lia.
    + rewrite !drop_app_le by (rewrite ?length_drop; lia).
      rewrite drop_drop. f_equal. f_equal. lia.
Qed.

Lemma newest_app_newest {A} (n : nat) (l l' : list A) :
  newest n (newest n l ++ l') = newest n (l ++ l').
Proof.
  revert l. induction l' as [|x l' IH]; intros l.
  - rewrite !app_nil_r. apply newest_all, length_newest.
  - rewrite !(assoc_L (++) _ [x] l'), <- IH, newest_snoc, IH. done.
Qed.

(** A push on a ring within its bound keeps the newest [size] entries. *)
Lemma pushBounded_newest (size : nat) e h :
  (length h <= size)%nat -> pushBounded size e h = newest size (h ++ [e]).
Proof.
  intros Hle. unfold pushBounded, newest. rewrite length_app. simpl.
  destruct (Nat.ltb_spec size (length h + 1)).
  - replace (length h + 1 - size)%nat with 1%nat by lia. by destruct h.
  - by replace (length h + 1 - size)%nat with 0%nat by lia.
Qed.

(** The bound is an invariant of pushing. *)
Lemma pushBounded_length (size : nat) e h :
  (length h <= size)%nat -> size <> 0%nat -> (length (pushBounded size e h) <= size)%nat.
Proof.
  intros Hle Hsize. rewrite pushBounded_newest by done. apply length_newest.
Qed.

(** A transition leaves the key, the counters, the history bound and the
    abort handle alone. *)
Lemma recordTransition_frame now newState reason (s : DestState) :
  requestKey (recordTransition now newState reason s) = requestKey s
  /\ retryAttempt (recordTransition now newState reason s) = retryAttempt s
  /\ historySize (recordTransition now newState reason s) = historySize s
  /\ abortController (recordTransition now newState reason s) = abortController s.
Proof. unfold recordTransition. by destruct (historySize s =? 0)%nat. Qed.

(** A transition on a record within its bound appends to the ring. *)
Lemma recordTransition_history now newState reason (s : DestState) :
  (length (history s) <= historySize s)%nat ->
  history (recordTransition now newState reason s)
    = newest (historySize s) (history s ++ [entryFor now reason s]).
Proof.
  intros Hle. unfold recordTransition.
  destruct (Nat.eqb_spec (historySize s) 0) as [H0|Hn].
  - rewrite H0 in *. destruct (history s); [|simpl in Hle; lia].
    unfold newest. simpl. done.
  - simpl. by apply pushBounded_newest.
Qed.

End Ring.

(** ** Request-key change *)

Section KeyChange.
Context {Params Result Value : Type}.
Variable cfg : TapConfig Params Result Value.
Variable kickoffRest : Dest -> option bool -> Tap Params Result Value -> Tap Params Result Value.
Implicit Types (t : Tap Params Result Value) (d : Dest) (s : DestState).

Lemma startsWork_isFetchFor d (l : list (Effect Value)) :
  Forall (fun e => startsWork e = false) l ->
  Forall (fun e => isFetchFor d e = false) l.
Proof. intros H. eapply Forall_impl; [exact H|]. by intros []. Qed.

Lemma clock_keyChangeReset d newKey t : clock (keyChangeReset cfg d newKey t) = clock t.
Proof. unfold keyChangeReset. by autorewrite with tap. Qed.

Lemma getDestinationParams_keyChangeReset d newKey t :
  getDestinationParams d (keyChangeReset cfg d newKey t) = getDestinationParams d t.
Proof. step_cases. Qed.

(** The record after the reset part of a key change. *)
Lemma keyChangeReset_record d newKey t :
  let s := getDestState cfg d t in
  let s1 := getDestState cfg d (keyChangeReset cfg d newKey t) in
  retryTimer s1 = None /\ refreshTimer s1 = None /\ abortController s1 = None
  /\ retryAttempt s1 = 0%nat
  /\ requestKey s1 = newKey
  /\ historySize s1 = historySize s
  /\ listenerCount s1 = listenerCount s
  /\ currentState s1
       = (if (historySize s =? 0)%nat then currentState s
          else withRetryAt None (currentState s))
  /\ ((length (history s) <= historySize s)%nat ->
      history s1
        = newest (historySize s)
            (history s
             ++ match abortController s with
                | Some _ => [entryFor (clock t) (Some "request_key_changed_aborted") s]
                | None => []
                end
             ++ [entryFor (clock t) (Some "request_key_changed")
                   (set_requestKey newKey s)])).
Proof.
  cbv zeta. unfold keyChangeReset. autorewrite with tap.
  destruct (getDestState cfg d t) as [cs rk lc ra rt ft h hs c ac sq].
  unfold recordTransition. fields.
  destruct (Nat.eqb_spec hs 0) as [->|Hn]; fields.
  - destruct ac; fields; repeat split.
    all: intros Hh; destruct h; [done|simpl in Hh; lia].
  - destruct ac as [a|]; fields;
      destruct (Nat.eqb_spec hs 0) as [?|_]; try done; fields; repeat split.
    + intros Hh. rewrite (pushBounded_newest hs _ (pushBounded _ _ _));
        [|by apply pushBounded_length].
      rewrite (pushBounded_newest _ _ _ Hh).
      rewrite newest_snoc. by rewrite <- app_assoc.
    + intros Hh. by rewrite pushBounded_newest.
Qed.

(** The calls the reset part makes: the old timers are cleared, the request
    in flight is aborted, and nothing is started. *)
Lemma keyChangeReset_effects d newKey t :
  let s := getDestState cfg d t in
  exists added,
    effects (keyChangeReset cfg d newKey t)
      = effects t ++ clearing (retryTimer s) ++ clearing (refreshTimer s)
          ++ aborting (abortController s) ++ added
    /\ Forall (fun e => startsWork e = false)
         (clearing (retryTimer s) ++ clearing (refreshTimer s)
          ++ aborting (abortController s) ++ added).
Proof.
  cbv zeta. unfold keyChangeReset.
  rewrite effects_addHistoryEntry. autorewrite with tap.
  rewrite effects_abortInflight_record. autorewrite with tap.
  rewrite effects_clearRefreshTimer, effects_clearRetryTimer. autorewrite with tap.
  destruct (getDestState cfg d t) as [cs rk lc ra rt ft h hs c ac sq]. simpl.
  destruct ac as [a|]; simpl.
  - eexists. rewrite <- !app_assoc. simpl. split; [reflexivity|].
    repeat apply Forall_app_2; try apply Forall_cons_2; try done;
      repeat apply Forall_app_2;
      unfold clearing, statePublication; repeat case_match; repeat constructor.
  - eexists. rewrite <- !app_assoc. simpl. split; [reflexivity|].
    repeat apply Forall_app_2;
      unfold clearing, statePublication; repeat case_match; repeat constructor.
Qed.

Lemma getDestState_publishResets d d' t :
  getDestState cfg d' (publishResets cfg d t) = getDestState cfg d' t.
Proof. step_cases. Qed.

Lemma effects_publishResets d t :
  exists added, effects (publishResets cfg d t) = effects t ++ added
    /\ Forall (fun e => startsWork e = false) added
    /\ forall params, getDestinationParams d t = Some params ->
         getResetUpdates cfg params <> [] ->
         added = [Publish (map (fun gv => (gv.1, PData gv.2))
                             (getResetUpdates cfg params)) d].
Proof.
  unfold publishResets.
  destruct (getDestinationParams d t) as [params|].
  - destruct (getResetUpdates cfg params) as [|r rs] eqn:E; simpl.
    + exists []. rewrite app_nil_r. repeat split; [constructor|].
      intros ? [= <-]. by rewrite E.
    + eexists. split; [reflexivity|]. split; [repeat constructor|].
      intros ? [= <-] _. by rewrite E.
  - exists []. rewrite app_nil_r. repeat split; [constructor|done].
Qed.

Lemma handleRequestKeyChange_afterKeyChange d oldKey newKey t :
  handleRequestKeyChange cfg kickoffRest d oldKey newKey t
    = if truthy newKey then kickoffRest d (Some false) (afterKeyChange cfg d newKey t)
      else afterKeyChange cfg d newKey t.
Proof.
  unfold handleRequestKeyChange, afterKeyChange, kickoff.
  by destruct (truthy newKey).
Qed.

Lemma afterKeyChange_effects d newKey t :
  let s := getDestState cfg d t in
  exists added,
    effects (afterKeyChange cfg d newKey t)
      = effects t ++ clearing (retryTimer s) ++ clearing (refreshTimer s)
          ++ aborting (abortController s) ++ added.
Proof.
  cbv zeta. unfold afterKeyChange.
  destruct (keyChangeReset_effects d newKey t) as (added & Heff & _).
  destruct (truthy newKey).
  - destruct (kickoffHead_effects cfg d
                (addHistoryEntry cfg d
                   (Loading (clock (keyChangeReset cfg d newKey t)) None)
                   (Some "request_initiated") (keyChangeReset cfg d newKey t)))
      as (added' & -> & _).
    rewrite effects_addHistoryEntry, Heff. rewrite <- !app_assoc. by eexists.
  - rewrite effects_publishState. autorewrite with tap.
    destruct (effects_publishResets d (keyChangeReset cfg d newKey t))
      as (added' & -> & _).
    rewrite Heff, <- !app_assoc. by eexists.
Qed.

Lemma afterKeyChange_record d newKey t :
  let s := getDestState cfg d t in
  let s2 := getDestState cfg d (afterKeyChange cfg d newKey t) in
  retryTimer s2 = None /\ refreshTimer s2 = None
  /\ retryAttempt s2 = 0%nat
  /\ requestKey s2 = newKey
  /\ historySize s2 = historySize s
  /\ ((length (history s) <= historySize s)%nat ->
      history s2
        = newest (historySize s) (history s ++ keyChangeEntries (clock t) newKey s)).
Proof.
  cbv zeta. unfold afterKeyChange, keyChangeEntries.
  destruct (keyChangeReset_record d newKey t)
    as (Hrt & Hft & Hac & Hra & Hrk & Hhs & _ & Hcs & Hh).
  destruct (truthy newKey).
  - destruct (kickoffHead_record cfg d
                (addHistoryEntry cfg d
                   (Loading (clock (keyChangeReset cfg d newKey t)) None)
                   (Some "request_initiated") (keyChangeReset cfg d newKey t)))
      as (_ & Hrk' & Hra' & _ & Hhs' & _ & Hrt' & Hft' & _ & Hh').
    rewrite getDestState_addHistoryEntry in Hrk', Hra', Hhs', Hh'.
    rewrite Hrt', Hft', Hrk', Hra', Hhs'.
    destruct (recordTransition_frame (clock (keyChangeReset cfg d newKey t))
                (Loading (clock (keyChangeReset cfg d newKey t)) None)
                (Some "request_initiated")
                (getDestState cfg d (keyChangeReset cfg d newKey t)))
      as (-> & -> & -> & Hac').
    repeat split; try done.
    intros Hle. rewrite Hh' by (by rewrite Hac').
    rewrite recordTransition_history.
    2:{ rewrite Hh, Hhs by done. apply length_newest. }
    rewrite Hh, Hhs by done. rewrite newest_snoc.
    rewrite clock_keyChangeReset. rewrite <- !app_assoc.
    unfold entryFor. rewrite Hrk, Hcs.
    destruct (Nat.eqb_spec (historySize (getDestState cfg d t)) 0) as [H0|_]; [|done].
    rewrite H0. unfold newest. rewrite !drop_ge; [done| |]; lia.
  - rewrite getDestState_publishState. autorewrite with tap.
    rewrite getDestState_publishResets. fields.
    repeat split; try done; by rewrite app_nil_r.
Qed.

End KeyChange.

(** C7, as amended. On every request-key change of a destination the request
    in flight is aborted, the retry and the refresh timer are cancelled,
    [retryAttempt] is reset to 0 and [requestKey] becomes the new key, all
    before the request for the new key is started; the history is not
    cleared: the entries the change records are appended to it, and it
    retains the newest [historySize] entries, so that every earlier entry is
    preserved while the ring has room and the oldest are evicted otherwise. *)
Theorem handleRequestKeyChange_resets {Params Result Value : Type}
    (cfg : TapConfig Params Result Value)
    (kickoffRest : Dest -> option bool -> Tap Params Result Value -> Tap Params Result Value)
    (d : Dest) (oldKey newKey : option string) (t : Tap Params Result Value) :
  let s := getDestState cfg d t in
  let t2 := afterKeyChange cfg d newKey t in
  let s2 := getDestState cfg d t2 in
  handleRequestKeyChange cfg kickoffRest d oldKey newKey t
    = (if truthy newKey then kickoffRest d (Some false) t2 else t2)
  /\ (forall a, abortController s = Some a -> Abort a ∈ effects t2)
  /\ (forall tm, retryTimer s = Some tm -> ClearTimeout tm ∈ effects t2)
  /\ (forall tm, refreshTimer s = Some tm -> ClearTimeout tm ∈ effects t2)
  /\ retryTimer s2 = None
  /\ refreshTimer s2 = None
  /\ retryAttempt s2 = 0%nat
  /\ requestKey s2 = newKey
  /\ ((length (history s) <= historySize s)%nat ->
      history s2
        = newest (historySize s) (history s ++ keyChangeEntries (clock t) newKey s))
  /\ ((length (history s) + length (keyChangeEntries (clock t) newKey s)
         <= historySize s)%nat ->
      history s2 = history s ++ keyChangeEntries (clock t) newKey s).
Proof.
  cbv zeta.
  destruct (afterKeyChange_effects cfg d newKey t) as (added & Heff).
  destruct (afterKeyChange_record cfg d newKey t) as (Hrt & Hft & Hra & Hrk & _ & Hh).
  split; [apply handleRequestKeyChange_afterKeyChange|].
  repeat split; try done.
  - intros a Ha. rewrite Heff, Ha. set_solver.
  - intros tm Htm. rewrite Heff, Htm. set_solver.
  - intros tm Htm. rewrite Heff, Htm. set_solver.
  - intros Hroom. rewrite Hh by lia. apply newest_all. rewrite length_app. lia.
Qed.

(** Scenario S5: the change from ["A"] to ["B"] with a request in flight
    aborts it, clears both timers, resets the attempt counter from 2 to 0,
    and keeps the earlier history entry in front of the three new ones. *)
Lemma handleRequestKeyChange_resets_witness :
  let cfg := Scenario.config None in
  let t := Scenario.tapWith (Scenario.inflight 10) "B" 50 in
  let s2 := getDestState cfg 0%nat (afterKeyChange cfg 0%nat (Some "B") t) in
  Abort 6%nat ∈ effects (afterKeyChange cfg 0%nat (Some "B") t)
  /\ retryAttempt s2 = 0%nat
  /\ requestKey s2 = Some "B"
  /\ history s2
     = [mkEntry (Idle None) 0 (Some "A") (Some "request_initiated");
        mkEntry (Loading 0 None) 50 (Some "A") (Some "request_key_changed_aborted");
        mkEntry (Loading 0 None) 50 (Some "B") (Some "request_key_changed");
        mkEntry (Loading 0 None) 50 (Some "B") (Some "request_initiated")].
Proof.
  cbv zeta.
  destruct (handleRequestKeyChange_resets (Scenario.config None)
              (specKickoffRest (Scenario.config None)) 0%nat (Some "A") (Some "B")
              (Scenario.tapWith (Scenario.inflight 10) "B" 50))
    as (_ & Ha & _ & _ & _ & _ & Hra & Hrk & _ & Hh).
  split; [|split; [|split]].
  - apply (Ha 6%nat). reflexivity.
  - exact Hra.
  - exact Hrk.
  - rewrite Hh; [reflexivity|]. vm_compute. lia.
Defined.

(** C7 as stated fails: with a ring of capacity 1 that is full, a key change
    (to no key, or to key ["B"]) leaves a history from which the earlier
    entry is gone. *)
Lemma handleRequestKeyChange_evicts_history :
  let cfg := Scenario.config None in
  let e := mkEntry (Loading 0 None) 0 (Some "A") (Some "fetch_success") in
  let unresolved := Scenario.tapWith (Scenario.withData 1) "" 50 in
  let changed := Scenario.tapWith (Scenario.withData 1) "B" 50 in
  e ∈ history (getDestState cfg 0%nat unresolved)
  /\ (e ∉ history (getDestState cfg 0%nat
                     (handleRequestKeyChange cfg (specKickoffRest cfg) 0%nat
                        (Some "A") None unresolved)))
  /\ e ∈ history (getDestState cfg 0%nat changed)
  /\ (e ∉ history (getDestState cfg 0%nat
                     (handleRequestKeyChange cfg (specKickoffRest cfg) 0%nat
                        (Some "A") (Some "B") changed))).
Proof.
  cbv zeta. vm_compute. repeat split.
  - set_solver.
  - intros H. apply list_elem_of_In in H. simpl in H. intuition congruence.
  - set_solver.
  - intros H. apply list_elem_of_In in H. simpl in H. intuition congruence.
Qed.

(** ** Unresolved parameters *)

Section Unresolved.
Context {Params Result Value : Type}.
Variable cfg : TapConfig Params Result Value.
Variable kickoffRest : Dest -> option bool -> Tap Params Result Value -> Tap Params Result Value.
Implicit Types (t : Tap Params Result Value) (d : Dest) (s : DestState).

Lemma handleRequestKeyChange_null d oldKey t :
  handleRequestKeyChange cfg kickoffRest d oldKey None t
    = publishState cfg d
        (modify cfg d (set_currentState (Idle None))
           (publishResets cfg d (keyChangeReset cfg d None t))).
Proof. reflexivity. Qed.

Lemma handleRequestKeyChange_null_record d oldKey t :
  let s' := getDestState cfg d (handleRequestKeyChange cfg kickoffRest d oldKey None t) in
  currentState s' = Idle None
  /\ requestKey s' = None
  /\ retryTimer s' = None /\ refreshTimer s' = None /\ abortController s' = None.
Proof.
  cbv zeta. rewrite handleRequestKeyChange_null, getDestState_publishState.
  autorewrite with tap. rewrite getDestState_publishResets.
  destruct (keyChangeReset_record cfg d None t) as (Hrt & Hft & Hac & _ & Hrk & _).
  fields. done.
Qed.

Lemma handleRequestKeyChange_null_effects d oldKey t :
  exists added,
    effects (handleRequestKeyChange cfg kickoffRest d oldKey None t)
      = effects t ++ added
    /\ Forall (fun e => startsWork e = false) added
    /\ forall params, getDestinationParams d t = Some params ->
         getResetUpdates cfg params <> [] ->
         Publish (map (fun gv => (gv.1, PData gv.2)) (getResetUpdates cfg params)) d
           ∈ added.
Proof.
  rewrite handleRequestKeyChange_null, effects_publishState. autorewrite with tap.
  destruct (effects_publishResets cfg d (keyChangeReset cfg d None t))
    as (resets & -> & Hresets & Hpub).
  destruct (keyChangeReset_effects cfg d None t) as (added & -> & Hadded).
  rewrite getDestinationParams_keyChangeReset in Hpub.
  eexists. rewrite <- !app_assoc. split; [reflexivity|]. split.
  - apply Forall_app in Hadded as (H1 & Hadded).
    apply Forall_app in Hadded as (H2 & Hadded).
    apply Forall_app in Hadded as (H3 & H4).
    repeat apply Forall_app_2; try done.
    unfold statePublication. destruct (stateGrip cfg); repeat constructor.
  - intros params Hp Hne. rewrite (Hpub params Hp Hne). set_solver.
Qed.

End Unresolved.

(** C8. When [requestKeyOf] returns null for the resolved parameters of a
    destination, the key change it causes moves the destination to [idle]
    with [retryAt = null], publishes the reset values of the output grips,
    and starts nothing: no request is sent, no timer is armed, both timer
    slots and the abort handle end up empty. A retry timer that fires on a
    destination with listeners and finds the key gone takes this path. *)
Theorem handleRequestKeyChange_unresolved {Params Result Value : Type}
    (cfg : TapConfig Params Result Value)
    (kickoffRest : Dest -> option bool -> Tap Params Result Value -> Tap Params Result Value)
    (d : Dest) (oldKey : option string) (params : Params)
    (t : Tap Params Result Value) :
  getDestinationParams d t = Some params ->
  getRequestKey cfg params = None ->
  let t' := handleRequestKeyChange cfg kickoffRest d oldKey (getRequestKey cfg params) t in
  let s' := getDestState cfg d t' in
  currentState s' = Idle None
  /\ requestKey s' = None
  /\ retryTimer s' = None /\ refreshTimer s' = None /\ abortController s' = None
  /\ (getResetUpdates cfg params <> [] ->
      Publish (map (fun gv => (gv.1, PData gv.2)) (getResetUpdates cfg params)) d
        ∈ effects t')
  /\ (exists added, effects t' = effects t ++ added
                    /\ Forall (fun e => startsWork e = false) added)
  /\ requestsSent d t' = requestsSent d t
  /\ (forall k, listenerCount (getDestState cfg d t) <> 0%nat ->
        executeRetry cfg kickoffRest d (Some k) t = t').
Proof.
  intros Hparams Hkey. cbv zeta. rewrite Hkey.
  destruct (handleRequestKeyChange_null_record cfg kickoffRest d oldKey t)
    as (Hcs & Hrk & Hrt & Hft & Hac).
  destruct (handleRequestKeyChange_null_effects cfg kickoffRest d oldKey t)
    as (added & Heff & Hadded & Hpub).
  repeat split; try done.
  - intros Hne. rewrite Heff. apply elem_of_app. right. by apply (Hpub params).
  - by exists added.
  - eapply requestsSent_unchanged; [exact Heff|]. by apply startsWork_isFetchFor.
  - intros k Hl. unfold executeRetry.
    destruct (Nat.eqb_spec (listenerCount (getDestState cfg d t)) 0); [done|].
    unfold currentKeyOf. rewrite Hparams, Hkey. reflexivity.
Qed.

(** The user id of a destination holding data for ["A"] becomes empty: the
    destination is idle, the reset value of the output grip is published,
    and no request is sent. *)
Lemma handleRequestKeyChange_unresolved_witness :
  let cfg := Scenario.config None in
  let t := Scenario.tapWith (Scenario.withData 10) "" 50 in
  let t' := handleRequestKeyChange cfg (specKickoffRest cfg) 0%nat (Some "A") None t in
  currentState (getDestState cfg 0%nat t') = Idle None
  /\ Publish [(Scenario.USER_DATA, PData 0)] 0%nat ∈ effects t'
  /\ requestsSent 0%nat t' = 0%nat.
Proof.
  cbv zeta.
  destruct (handleRequestKeyChange_unresolved (Scenario.config None)
              (specKickoffRest (Scenario.config None)) 0%nat (Some "A") ""
              (Scenario.tapWith (Scenario.withData 10) "" 50) eq_refl eq_refl)
    as (Hcs & _ & _ & _ & _ & Hpub & _ & Hsent & _).
  split; [exact Hcs|]. split; [|exact Hsent].
  apply Hpub. discriminate.
Defined.

(** ** The attempt counter *)

Section Attempts.
Context {Params Result Value : Type}.
Variable cfg : TapConfig Params Result Value.
Variable kickoffRest : Dest -> option bool -> Tap Params Result Value -> Tap Params Result Value.
Implicit Types (t : Tap Params Result Value) (d : Dest) (s : DestState).

(** The tap the controller's [retry] passes to [kickoff]. *)
Lemma call_retry_kickoff d forceRefetch t :
  call_retry (createController cfg kickoffRest d) forceRefetch t
    = kickoff cfg kickoffRest d (Some (isTrue forceRefetch)) (retryPrelude cfg d t).
Proof. reflexivity. Qed.

Lemma retryAttempt_retryPrelude d t :
  retryAttempt (getDestState cfg d (retryPrelude cfg d t))
    = S (retryAttempt (getDestState cfg d t)).
Proof. unfold retryPrelude. autorewrite with tap. fields. lia. Qed.

Lemma call_refresh_kickoff d forceRefetch t :
  call_refresh (createController cfg kickoffRest d) forceRefetch t
    = kickoff cfg kickoffRest d (Some (isTrue forceRefetch)) t.
Proof. simpl. by case_match. Qed.

Lemma executeRetry_live d key t :
  listenerCount (getDestState cfg d t) <> 0%nat ->
  key_neq (currentKeyOf cfg d t) key = false ->
  executeRetry cfg kickoffRest d key t = kickoff cfg kickoffRest d (Some true) t.
Proof.
  intros Hl Hk. unfold executeRetry.
  destruct (Nat.eqb_spec (listenerCount (getDestState cfg d t)) 0); [done|].
  by rewrite Hk.
Qed.

Lemma retryAttempt_kickoffHead d t :
  retryAttempt (getDestState cfg d (kickoffHead cfg d t))
    = retryAttempt (getDestState cfg d t).
Proof. by destruct (kickoffHead_record cfg d t) as (_ & _ & H & _). Qed.

(** Scheduling a retry counts the attempt and arms the timer for the time
    computed from the count before the increment. *)
Lemma scheduleRetry_counts d t :
  (0 < listenerCount (getDestState cfg d t))%nat ->
  Z.of_nat (retryAttempt (getDestState cfg d t)) < effMaxRetries (retry cfg) ->
  let t' := scheduleRetry cfg d t in
  retryAttempt (getDestState cfg d t') = S (retryAttempt (getDestState cfg d t))
  /\ retryTimer (getDestState cfg d t') = Some (nextTimer t)
  /\ retryAt (currentState (getDestState cfg d t'))
       = calculateRetryTime (retryAttempt (getDestState cfg d t)) (retry cfg) None (clock t).
Proof.
  intros Hl Hmax. cbv zeta. unfold scheduleRetry.
  apply Nat.ltb_lt in Hl. rewrite Hl.
  rewrite (calculateRetryTime_below _ _ None _ Hmax).
  unfold armTimer. cbv zeta. rewrite getDestState_publishState.
  autorewrite with tap. fields.
  repeat split; [lia|].
  by destruct (currentState (getDestState cfg d t)).
Qed.

End Attempts.

(** C6. A manual [controller.retry()] increments [retryAttempt] by exactly 1
    before the new request is initiated: the tap it hands to the rest of
    [kickoff] has the counter one higher. A manual [controller.refresh()]
    hands over the counter unchanged. A scheduled retry is counted when it
    is scheduled, and the timer callback hands over the counter unchanged. *)
Theorem retryAttempt_counting {Params Result Value : Type}
    (cfg : TapConfig Params Result Value)
    (kickoffRest : Dest -> option bool -> Tap Params Result Value -> Tap Params Result Value)
    (d : Dest) (forceRefetch : option bool) (key : option string)
    (t : Tap Params Result Value) :
  (call_retry (createController cfg kickoffRest d) forceRefetch t
     = kickoffRest d (Some (isTrue forceRefetch))
         (kickoffHead cfg d (retryPrelude cfg d t))
   /\ retryAttempt (getDestState cfg d (kickoffHead cfg d (retryPrelude cfg d t)))
      = S (retryAttempt (getDestState cfg d t)))
  /\ (call_refresh (createController cfg kickoffRest d) forceRefetch t
        = kickoffRest d (Some (isTrue forceRefetch)) (kickoffHead cfg d t)
      /\ retryAttempt (getDestState cfg d (kickoffHead cfg d t))
         = retryAttempt (getDestState cfg d t))
  /\ (listenerCount (getDestState cfg d t) <> 0%nat ->
      key_neq (currentKeyOf cfg d t) key = false ->
      executeRetry cfg kickoffRest d key t
        = kickoffRest d (Some true) (kickoffHead cfg d t))
  /\ ((0 < listenerCount (getDestState cfg d t))%nat ->
      Z.of_nat (retryAttempt (getDestState cfg d t)) < effMaxRetries (retry cfg) ->
      retryAttempt (getDestState cfg d (scheduleRetry cfg d t))
        = S (retryAttempt (getDestState cfg d t))).
Proof.
  split; [|split; [|split]].
  - split; [apply call_retry_kickoff|].
    by rewrite retryAttempt_kickoffHead, retryAttempt_retryPrelude.
  - split; [apply call_refresh_kickoff|]. apply retryAttempt_kickoffHead.
  - intros Hl Hk. by apply executeRetry_live.
  - intros Hl Hmax. by destruct (scheduleRetry_counts cfg d t Hl Hmax) as (H & _).
Qed.

(** Scenario S6: after two failed attempts, [refresh()] starts the request
    with the counter at 2 and [retry()] starts it with the counter at 3. *)
Lemma retryAttempt_counting_witness :
  let cfg := Scenario.config None in
  let t := Scenario.tapWith Scenario.failedTwice "A" 400 in
  let controller := createController cfg (specKickoffRest cfg) 0%nat in
  retryAttempt (getDestState cfg 0%nat (kickoffHead cfg 0%nat t)) = 2%nat
  /\ retryAttempt (getDestState cfg 0%nat
                     (kickoffHead cfg 0%nat (retryPrelude cfg 0%nat t))) = 3%nat
  /\ retryAttempt (getDestState cfg 0%nat (call_refresh controller None t)) = 2%nat
  /\ retryAttempt (getDestState cfg 0%nat (call_retry controller None t)) = 3%nat.
Proof.
  cbv zeta.
  destruct (retryAttempt_counting (Scenario.config None)
              (specKickoffRest (Scenario.config None)) 0%nat None (Some "A")
              (Scenario.tapWith Scenario.failedTwice "A" 400))
    as ((_ & H1) & (_ & H2) & _).
  split; [exact H2|]. split; [exact H1|].
  split; vm_compute; reflexivity.
Defined.

(** ** The published controller *)

Section Controller.
Context {Params Result Value : Type}.
Variable cfg : TapConfig Params Result Value.
Variable kickoffRest : Dest -> option bool -> Tap Params Result Value -> Tap Params Result Value.
Variables existingConnect existingDisconnect :
  Dest -> Grip -> Tap Params Result Value -> Tap Params Result Value.
Implicit Types (t : Tap Params Result Value) (d : Dest) (s : DestState) (g : Grip).

Lemma lastController_snoc g d (trace : list (Effect Value)) c :
  lastController g d (trace ++ [Publish [(g, PController c)] d]) = Some c.
Proof.
  induction trace as [|e trace IH]; simpl.
  - by rewrite String.eqb_refl, Nat.eqb_refl.
  - by rewrite IH.
Qed.

(** The methods of the no-op controller return the tap they are given. *)
Lemma createNoOpController_inert (forceRefetch : option bool) t :
  call_retry (@createNoOpController Params Result Value) forceRefetch t = t
  /\ call_refresh (@createNoOpController Params Result Value) forceRefetch t = t
  /\ call_reset (@createNoOpController Params Result Value) t = t
  /\ call_cancelRetry (@createNoOpController Params Result Value) t = t.
Proof. done. Qed.

Lemma publishController_attached g d t :
  controllerGrip cfg = Some g -> attached t = true ->
  effects (publishController cfg d t)
    = effects t ++ [Publish [(g, PController
                                   (default NoOpController
                                      (controller (getDestState cfg d t))))] d].
Proof.
  unfold publishController, attached. intros -> Hatt.
  destruct (engine t), (homeContext t), (producer t); done.
Qed.

Lemma dropListener_record d t :
  listenerCount (getDestState cfg d (dropListener cfg d t))
    = Nat.max 0 (listenerCount (getDestState cfg d t) - 1)
  /\ attached (dropListener cfg d t) = attached t.
Proof.
  unfold dropListener, decrementListenerCount.
  repeat case_match; autorewrite with tap; fields; split; try done.
  all: unfold attached, cancelRetry, clearRetryTimer, clearRefreshTimer;
    repeat case_match; reflexivity.
Qed.

Lemma dropController_last_listener g d t :
  controllerGrip cfg = Some g -> attached t = true ->
  listenerCount (getDestState cfg d t) = 0%nat ->
  let t' := dropController cfg d t in
  listenerCount (getDestState cfg d t') = 0%nat
  /\ controller (getDestState cfg d t') = None
  /\ effects t' = effects t ++ [Publish [(g, PController NoOpController)] d].
Proof.
  intros Hg Hatt Hl. cbv zeta. unfold dropController. rewrite Hl, Hg. simpl.
  rewrite (publishController_attached g) by done.
  assert (getDestState cfg d (publishController cfg d
            (modify cfg d (set_controller None) t))
          = set_controller None (getDestState cfg d t)) as ->.
  { unfold publishController. rewrite Hg.
    repeat case_match; by autorewrite with tap. }
  autorewrite with tap. fields. done.
Qed.

Lemma addListener_record d t :
  listenerCount (getDestState cfg d (addListener cfg d t))
    = S (listenerCount (getDestState cfg d t))
  /\ controller (getDestState cfg d (addListener cfg d t))
       = controller (getDestState cfg d t)
  /\ attached (addListener cfg d t) = attached t.
Proof.
  unfold addListener, incrementListenerCount.
  repeat case_match; autorewrite with tap; fields; repeat split; lia.
Qed.

Lemma ensureController_first g d t :
  controllerGrip cfg = Some g -> attached t = true ->
  controller (getDestState cfg d t) = None ->
  let t' := ensureController cfg d t in
  listenerCount (getDestState cfg d t') = listenerCount (getDestState cfg d t)
  /\ controller (getDestState cfg d t') = Some (LiveController d)
  /\ effects t' = effects t ++ [Publish [(g, PController (LiveController d))] d].
Proof.
  intros Hg Hatt Hc. cbv zeta. unfold ensureController. rewrite Hg, Hc.
  rewrite (publishController_attached g) by done.
  assert (getDestState cfg d (publishController cfg d
            (modify cfg d (set_controller (Some (LiveController d))) t))
          = set_controller (Some (LiveController d)) (getDestState cfg d t)) as ->.
  { unfold publishController. rewrite Hg.
    repeat case_match; by autorewrite with tap. }
  autorewrite with tap. fields. done.
Qed.

End Controller.

(** C3, as amended. With a controller grip configured on an attached tap:
    the no-op controller's [retry], [refresh], [reset] and [cancelRetry]
    return without changing anything; when an output-grip disconnect leaves
    [listenerCount] at 0, the destination's controller is cleared and the
    no-op controller is what is published; and a destination without a
    controller that connects through any grip is published the live
    controller, also when the grip is the state or controller grip and
    [listenerCount] stays as it was (0 for a destination connected only
    through those). *)
Theorem published_controller {Params Result Value : Type}
    (cfg : TapConfig Params Result Value)
    (existingConnect existingDisconnect :
       Dest -> Grip -> Tap Params Result Value -> Tap Params Result Value)
    (d : Dest) (grip g : Grip) (forceRefetch : option bool)
    (t : Tap Params Result Value) :
  controllerGrip cfg = Some g ->
  attached t = true ->
  (call_retry (@createNoOpController Params Result Value) forceRefetch t = t
   /\ call_refresh (@createNoOpController Params Result Value) forceRefetch t = t
   /\ call_reset (@createNoOpController Params Result Value) t = t
   /\ call_cancelRetry (@createNoOpController Params Result Value) t = t)
  /\ (isOutputGrip cfg grip = true ->
      (listenerCount (getDestState cfg d t) <= 1)%nat ->
      let t1 := dropController cfg d (dropListener cfg d t) in
      onDisconnect cfg existingDisconnect d grip t
        = publishState cfg d (existingDisconnect d grip t1)
      /\ listenerCount (getDestState cfg d t1) = 0%nat
      /\ controller (getDestState cfg d t1) = None
      /\ lastController g d (effects t1) = Some NoOpController)
  /\ (controller (getDestState cfg d t) = None ->
      let t1 := ensureController cfg d
                  (if isOutputGrip cfg grip then addListener cfg d t else t) in
      onConnect cfg existingConnect d grip t
        = publishState cfg d (existingConnect d grip t1)
      /\ controller (getDestState cfg d t1) = Some (LiveController d)
      /\ lastController g d (effects t1) = Some (LiveController d)
      /\ (isOutputGrip cfg grip = false ->
          listenerCount (getDestState cfg d t1) = listenerCount (getDestState cfg d t))).
Proof.
  intros Hg Hatt. split; [apply createNoOpController_inert|]. split.
  - intros Hout Hl. cbv zeta. unfold onDisconnect. rewrite Hout.
    split; [reflexivity|].
    destruct (dropListener_record cfg d t) as (Hl' & Hatt').
    destruct (dropController_last_listener cfg g d (dropListener cfg d t) Hg)
      as (H1 & H2 & H3); [by rewrite Hatt'|rewrite Hl'; lia|].
    split; [done|]. split; [done|]. rewrite H3. apply lastController_snoc.
  - intros Hc. cbv zeta. unfold onConnect. split; [reflexivity|].
    destruct (isOutputGrip cfg grip).
    + destruct (addListener_record cfg d t) as (_ & Hc' & Hatt').
      destruct (ensureController_first cfg g d (addListener cfg d t) Hg)
        as (_ & H2 & H3); [by rewrite Hatt'|by rewrite Hc'|].
      split; [done|]. split; [|done]. rewrite H3. apply lastController_snoc.
    + destruct (ensureController_first cfg g d t Hg Hatt Hc) as (H1 & H2 & H3).
      split; [done|]. split; [|done]. rewrite H3. apply lastController_snoc.
Qed.

(** Scenario S4: the only consumer of the output grip disconnects and the
    no-op controller is published. *)
Lemma published_controller_witness :
  let cfg := Scenario.config None in
  let t := Scenario.tapWith (Scenario.withData 10) "A" 100 in
  let t1 := dropController cfg 0%nat (dropListener cfg 0%nat t) in
  onDisconnect cfg Scenario.noExisting 0%nat Scenario.USER_DATA t
    = publishState cfg 0%nat t1
  /\ listenerCount (getDestState cfg 0%nat t1) = 0%nat
  /\ controller (getDestState cfg 0%nat t1) = None
  /\ lastController Scenario.USER_DATA_CONTROLLER 0%nat (effects t1)
     = Some NoOpController.
Proof.
  cbv zeta.
  destruct (published_controller (Scenario.config None) Scenario.noExisting
              Scenario.noExisting 0%nat Scenario.USER_DATA
              Scenario.USER_DATA_CONTROLLER None
              (Scenario.tapWith (Scenario.withData 10) "A" 100) eq_refl eq_refl)
    as (_ & Hdis & _).
  apply Hdis.
  - reflexivity.
  - vm_compute. lia.
Defined.

(** C3 as stated fails: a destination whose output-grip consumers are all
    gone ([listenerCount = 0]) is observed through the state grip only, and
    the controller published to it is the live one, whose [retry] changes
    the destination (the attempt counter goes from 1 to 2, with any rest of
    [kickoff]) and, with the runner of the specification, sends a request. *)
Lemma onConnect_stateGrip_publishes_live_controller :
  let cfg := Scenario.config None in
  let t := onConnect cfg Scenario.noExisting 0%nat Scenario.USER_DATA_STATE
             (Scenario.tapWith Scenario.failedNoListeners "A" 200) in
  let live := lastController Scenario.USER_DATA_CONTROLLER 0%nat (effects t) in
  listenerCount (getDestState cfg 0%nat t) = 0%nat
  /\ live = Some (LiveController 0%nat)
  /\ retryAttempt (getDestState cfg 0%nat t) = 1%nat
  /\ retryAttempt
       (getDestState cfg 0%nat
          (call_retry (controllerObject cfg (fun _ _ t => t) (LiveController 0%nat))
             None t)) = 2%nat
  /\ requestsSent 0%nat t = 0%nat
  /\ requestsSent 0%nat
       (call_retry (controllerObject cfg (specKickoffRest cfg) (LiveController 0%nat))
          None t) = 1%nat.
Proof. vm_compute. done. Qed.

(** ** Starting a request *)

Section Initiation.
Context {Params Result Value : Type}.
Variable cfg : TapConfig Params Result Value.
Implicit Types (t : Tap Params Result Value) (d : Dest) (s : DestState).

Lemma requestsSent_fetch d t key signal seq :
  requestsSent d (emit (Fetch d key signal seq) t) = S (requestsSent d t).
Proof.
  unfold requestsSent. simpl. rewrite filter_app, length_app, filter_cons. simpl.
  rewrite Nat.eqb_refl. destruct (decide (true = true)); [simpl; lia|done].
Qed.

Lemma requestsSent_addHistoryEntry d newState reason t :
  requestsSent d (addHistoryEntry cfg d newState reason t) = requestsSent d t.
Proof.
  eapply requestsSent_unchanged; [apply effects_addHistoryEntry|].
  case_match; [constructor|apply statePublication_no_fetch].
Qed.

Lemma requestsSent_kickoffHead d t :
  requestsSent d (kickoffHead cfg d t) = requestsSent d t.
Proof.
  destruct (kickoffHead_effects cfg d t) as (added & Heff & Hadded).
  eapply requestsSent_unchanged; [exact Heff|]. by apply startsWork_isFetchFor.
Qed.

Lemma requestsSent_scheduleTtlRefresh d retrievedAt t :
  requestsSent d (scheduleTtlRefresh cfg d retrievedAt t) = requestsSent d t.
Proof.
  unfold scheduleTtlRefresh. repeat case_match; try done.
  unfold armTimer in *. simplify_eq.
  eapply requestsSent_unchanged.
  - rewrite effects_publishState. autorewrite with tap.
    rewrite <- app_assoc. reflexivity.
  - apply Forall_app_2; [repeat constructor|apply statePublication_no_fetch].
Qed.

(** The rest of [kickoff]: a fresh cache hit sends nothing; otherwise one
    request is sent and, with history enabled, the state becomes the one of
    step 7. *)
Lemma specRequest_cases d forceRefetch t :
  let s := getDestState cfg d t in
  let t' := specRequest cfg d forceRefetch t in
  match freshHit forceRefetch (requestKey s) t with
  | Some _ => requestsSent d t' = requestsSent d t
  | None =>
    requestsSent d t' = S (requestsSent d t)
    /\ (historySize s <> 0%nat ->
        currentState (getDestState cfg d t')
          = requestInitiatedState (currentState s) (clock t))
  end.
Proof.
  cbv zeta. unfold specRequest. autorewrite with tap. fields.
  assert (forall f k, freshHit f k
            (modify cfg d (fun s => set_inflightSeq (inflightSeq s + 1)%nat s) t)
          = freshHit f k t) as -> by done.
  destruct (freshHit forceRefetch (requestKey (getDestState cfg d t)) t).
  - rewrite requestsSent_scheduleTtlRefresh, requestsSent_addHistoryEntry.
    eapply requestsSent_unchanged; [reflexivity|repeat constructor].
  - rewrite requestsSent_fetch, requestsSent_addHistoryEntry. split; [done|].
    intros Hsize. autorewrite with tap. fields. unfold recordTransition. fields.
    by destruct (Nat.eqb_spec (historySize (getDestState cfg d t)) 0).
Qed.

Lemma key_neq_refl (k : option string) : key_neq k k = false.
Proof. destruct k; [simpl; by rewrite String.eqb_refl|done]. Qed.

Lemma getDestinationParams_publishState d t :
  getDestinationParams d (publishState cfg d t) = getDestinationParams d t.
Proof. unfold publishState. by destruct (stateGrip cfg). Qed.

Lemma getDestinationParams_addHistoryEntry d newState reason t :
  getDestinationParams d (addHistoryEntry cfg d newState reason t)
    = getDestinationParams d t.
Proof.
  unfold addHistoryEntry.
  destruct (historySize (getDestState cfg d t) =? 0)%nat; [done|].
  by rewrite getDestinationParams_publishState.
Qed.

Lemma getDestinationParams_kickoffHead d t :
  getDestinationParams d (kickoffHead cfg d t) = getDestinationParams d t.
Proof. step_cases. Qed.

Lemma getDestinationParams_publishResets d t :
  getDestinationParams d (publishResets cfg d t) = getDestinationParams d t.
Proof.
  unfold publishResets.
  destruct (getDestinationParams d t) eqn:E; [|done]. by case_match.
Qed.

Lemma currentKeyOf_kickoffHead d t :
  currentKeyOf cfg d (kickoffHead cfg d t) = currentKeyOf cfg d t.
Proof. unfold currentKeyOf. by rewrite getDestinationParams_kickoffHead. Qed.

Lemma currentKeyOf_afterKeyChange d newKey t :
  currentKeyOf cfg d (afterKeyChange cfg d newKey t) = currentKeyOf cfg d t.
Proof.
  unfold currentKeyOf, afterKeyChange.
  destruct (truthy newKey).
  - by rewrite getDestinationParams_kickoffHead, getDestinationParams_addHistoryEntry,
      getDestinationParams_keyChangeReset.
  - rewrite getDestinationParams_publishState. autorewrite with tap.
    by rewrite getDestinationParams_publishResets, getDestinationParams_keyChangeReset.
Qed.

(** With the key unchanged the rest of [kickoff] is steps 5 to 8. *)
Lemma specKickoffRest_same d forceRefetch t :
  key_neq (currentKeyOf cfg d t) (requestKey (getDestState cfg d t)) = false ->
  specKickoffRest cfg d forceRefetch t = specRequest cfg d forceRefetch t.
Proof. intros Hk. unfold specKickoffRest. by rewrite Hk. Qed.

(** The [kickoff] that a change to the resolved key ends with finds the key
    settled: it does not delegate again. *)
Lemma specKickoffRest_settled d oldKey t :
  handleRequestKeyChange cfg (specKickoffRest cfg) d oldKey (currentKeyOf cfg d t) t
    = handleRequestKeyChange cfg (specRequest cfg) d oldKey (currentKeyOf cfg d t) t.
Proof.
  rewrite !handleRequestKeyChange_afterKeyChange.
  destruct (truthy (currentKeyOf cfg d t)); [|done].
  apply specKickoffRest_same.
  destruct (afterKeyChange_record cfg d (currentKeyOf cfg d t) t)
    as (_ & _ & _ & -> & _).
  rewrite currentKeyOf_afterKeyChange. apply key_neq_refl.
Qed.

(** A request started by [kickoff] for the unchanged key on a destination
    that has data leaves it in [stale-while-revalidate], with [retrievedAt]
    preserved. *)
Lemma kickoff_with_data d forceRefetch t :
  let s := getDestState cfg d t in
  let t' := kickoff cfg (specKickoffRest cfg) d forceRefetch t in
  key_neq (currentKeyOf cfg d t) (requestKey s) = false ->
  historySize s <> 0%nat ->
  hasData (currentState s) = true ->
  requestsSent d t' <> requestsSent d t ->
  type (currentState (getDestState cfg d t')) = stale_while_revalidate
  /\ getDataRetrievedAt (currentState (getDestState cfg d t'))
       = getDataRetrievedAt (currentState s).
Proof.
  cbv zeta. intros Hkey Hsize Hdata Hsent. unfold kickoff in *.
  destruct (kickoffHead_record cfg d t) as (Hcs & Hrk & _ & _ & Hhs & _).
  rewrite specKickoffRest_same in *
    by (by rewrite currentKeyOf_kickoffHead, Hrk).
  pose proof (specRequest_cases d forceRefetch (kickoffHead cfg d t)) as Hrest.
  cbv zeta in Hrest.
  rewrite requestsSent_kickoffHead in Hrest.
  destruct (freshHit _ _ _); [done|].
  destruct Hrest as (_ & Hstate). rewrite Hstate by (by rewrite Hhs).
  rewrite Hcs. unfold requestInitiatedState. rewrite Hdata.
  by destruct (currentState (getDestState cfg d t)).
Qed.

(** A request started after a change to the resolved key, when that key is
    truthy, leaves the destination in [loading], whatever state it was in. *)
Lemma keyChange_loading d oldKey t :
  let s := getDestState cfg d t in
  let newKey := currentKeyOf cfg d t in
  let t' := handleRequestKeyChange cfg (specKickoffRest cfg) d oldKey newKey t in
  historySize s <> 0%nat ->
  truthy newKey = true ->
  requestsSent d t' <> requestsSent d t ->
  type (currentState (getDestState cfg d t')) = loading.
Proof.
  cbv zeta. intros Hsize Htruthy Hsent.
  rewrite specKickoffRest_settled in *.
  rewrite handleRequestKeyChange_afterKeyChange, Htruthy in *.
  set (newKey := currentKeyOf cfg d t) in *.
  pose proof (specRequest_cases d (Some false) (afterKeyChange cfg d newKey t))
    as Hrest.
  cbv zeta in Hrest.
  assert (requestsSent d (afterKeyChange cfg d newKey t) = requestsSent d t) as Hsame.
  { unfold afterKeyChange. rewrite Htruthy.
    rewrite requestsSent_kickoffHead, requestsSent_addHistoryEntry.
    destruct (keyChangeReset_effects cfg d newKey t) as (added & Heff & Hadded).
    eapply requestsSent_unchanged; [exact Heff|]. by apply startsWork_isFetchFor. }
  rewrite Hsame in Hrest.
  destruct (freshHit _ _ _); [done|].
  destruct Hrest as (_ & Hstate).
  destruct (afterKeyChange_record cfg d newKey t) as (_ & _ & _ & _ & Hhs & _).
  rewrite Hstate by (by rewrite Hhs).
  unfold afterKeyChange. rewrite Htruthy.
  destruct (kickoffHead_record cfg d
              (addHistoryEntry cfg d
                 (Loading (clock (keyChangeReset cfg d newKey t)) None)
                 (Some "request_initiated") (keyChangeReset cfg d newKey t)))
    as (-> & _).
  rewrite getDestState_addHistoryEntry. unfold recordTransition.
  destruct (keyChangeReset_record cfg d newKey t) as (_ & _ & _ & _ & _ & -> & _).
  by destruct (Nat.eqb_spec (historySize (getDestState cfg d t)) 0).
Qed.

End Initiation.

Section InitiationEntries.
Context {Params Result Value : Type}.
Variable cfg : TapConfig Params Result Value.
Implicit Types (t : Tap Params Result Value) (d : Dest) (s : DestState).

(** What the controller's [retry] does before it calls [kickoff] keeps the
    state variant, the key and the history bound, and sends nothing. *)
Lemma retry_prelude d t :
  let t1 := retryPrelude cfg d t in
  currentState (getDestState cfg d t1) = currentState (getDestState cfg d t)
  /\ historySize (getDestState cfg d t1) = historySize (getDestState cfg d t)
  /\ requestKey (getDestState cfg d t1) = requestKey (getDestState cfg d t)
  /\ currentKeyOf cfg d t1 = currentKeyOf cfg d t
  /\ requestsSent d t1 = requestsSent d t.
Proof.
  cbv zeta. unfold retryPrelude. autorewrite with tap. fields.
  split; [done|]. split; [done|]. split; [done|]. split.
  - unfold currentKeyOf. autorewrite with tap.
    assert (getDestinationParams d (cancelRetry cfg d (abortInflight cfg d id t))
            = getDestinationParams d t) as -> by step_cases.
    done.
  - eapply requestsSent_unchanged.
    + rewrite effects_modify, effects_cancelRetry, effects_abortInflight_id.
      rewrite <- !app_assoc. reflexivity.
    + repeat apply Forall_app_2; unfold aborting, clearing;
        repeat case_match; repeat constructor.
Qed.

End InitiationEntries.

(** C1, as amended. On a destination with history enabled, whenever a new
    request is initiated for the destination's request key (its parameters
    still resolve to that key) while data is available (the state is
    [success], [stale-while-revalidate] or [stale-with-error]) -- by
    [kickoff], by the controller's [retry] or [refresh], or by the retry
    timer -- the resulting state is [stale-while-revalidate], never
    [loading]. A request initiated by a change of the request key to a
    truthy key leaves the destination in [loading], whatever the state
    before. *)
Theorem no_loading_with_data {Params Result Value : Type}
    (cfg : TapConfig Params Result Value) (d : Dest)
    (forceRefetch : option bool) (t t' : Tap Params Result Value) :
  historySize (getDestState cfg d t) <> 0%nat ->
  requestsSent d t' <> requestsSent d t ->
  (hasData (currentState (getDestState cfg d t)) = true ->
   key_neq (currentKeyOf cfg d t) (requestKey (getDestState cfg d t)) = false ->
   t' = kickoff cfg (specKickoffRest cfg) d forceRefetch t
   \/ t' = call_retry (createController cfg (specKickoffRest cfg) d) forceRefetch t
   \/ t' = call_refresh (createController cfg (specKickoffRest cfg) d) forceRefetch t
   \/ (listenerCount (getDestState cfg d t) <> 0%nat
       /\ t' = executeRetry cfg (specKickoffRest cfg) d
                 (requestKey (getDestState cfg d t)) t) ->
   type (currentState (getDestState cfg d t')) = stale_while_revalidate
   /\ isLoading (currentState (getDestState cfg d t')) = false)
  /\ (forall oldKey,
        truthy (currentKeyOf cfg d t) = true ->
        t' = handleRequestKeyChange cfg (specKickoffRest cfg) d oldKey
               (currentKeyOf cfg d t) t ->
        type (currentState (getDestState cfg d t')) = loading).
Proof.
  intros Hsize Hsent. split.
  - intros Hdata Hkey Hentry.
    assert (type (currentState (getDestState cfg d t')) = stale_while_revalidate) as H;
      [|split; [done|unfold isLoading; by rewrite H]].
    destruct Hentry as [->|[->|[->|(Hl & ->)]]].
    + by apply kickoff_with_data.
    + rewrite call_retry_kickoff in *.
      destruct (retry_prelude cfg d t) as (Hcs & Hhs & Hrk & Hck & Hrs).
      apply kickoff_with_data; by rewrite ?Hcs, ?Hhs, ?Hrk, ?Hck, ?Hrs.
    + rewrite call_refresh_kickoff in *. by apply kickoff_with_data.
    + rewrite executeRetry_live in * by done. by apply kickoff_with_data.
  - intros oldKey Htruthy ->. by apply keyChange_loading.
Qed.

(** Scenario S3: the TTL refresh of data retrieved at 0 starts at 800 and
    the state is [stale-while-revalidate] with [retrievedAt] still 0. *)
Lemma no_loading_with_data_witness :
  let cfg := Scenario.config None in
  let t := Scenario.tapWith (Scenario.withData 10) "A" 800 in
  let t' := kickoff cfg (specKickoffRest cfg) 0%nat (Some false) t in
  type (currentState (getDestState cfg 0%nat t')) = stale_while_revalidate
  /\ isLoading (currentState (getDestState cfg 0%nat t')) = false.
Proof.
  cbv zeta.
  apply (proj1 (no_loading_with_data (Scenario.config None) 0%nat (Some false)
                  (Scenario.tapWith (Scenario.withData 10) "A" 800)
                  (kickoff (Scenario.config None) (specKickoffRest (Scenario.config None))
                     0%nat (Some false)
                     (Scenario.tapWith (Scenario.withData 10) "A" 800))
                  ltac:(vm_compute; discriminate) ltac:(vm_compute; discriminate))).
  - reflexivity.
  - reflexivity.
  - left. reflexivity.
Defined.

(** C1 as stated fails: the destination holds data for key ["A"] (state
    [success]); its parameters now give key ["B"]; the key change initiates
    a request and the state that results is [loading]. The snapshot that
    [handleRequestKeyChange] itself publishes shows the transition: the
    state is [loading], and the entry for the state being left is [success]
    with reason [request_initiated]. *)
Lemma keyChange_with_data_goes_loading :
  let cfg := Scenario.config None in
  let t := Scenario.tapWith (Scenario.withData 10) "B" 50 in
  let t' := handleRequestKeyChange cfg (specKickoffRest cfg) 0%nat
              (Some "A") (Some "B") t in
  hasData (currentState (getDestState cfg 0%nat t)) = true
  /\ requestsSent 0%nat t' = S (requestsSent 0%nat t)
  /\ type (currentState (getDestState cfg 0%nat t')) = loading
  /\ type (currentState (getDestState cfg 0%nat t')) <> stale_while_revalidate
  /\ Publish
       [(Scenario.USER_DATA_STATE,
         PState
           {| ars_state := Loading 50 None;
              ars_requestKey := Some "B";
              ars_hasListeners := true;
              ars_history :=
                [mkEntry (Loading 0 None) 0 (Some "A") (Some "fetch_success");
                 mkEntry (Success 0 (Some 800)) 50 (Some "B")
                   (Some "request_key_changed");
                 mkEntry (Success 0 None) 50 (Some "B")
                   (Some "request_initiated")] |})] 0%nat
     ∈ effects t'.
Proof.
  cbv zeta. vm_compute. repeat split; try done.
  apply list_elem_of_In. simpl. tauto.
Qed.

(** ** Published snapshots and the history buffer *)

Section Sharing.
Import HistoryStore.
Implicit Types (w : World) (σ : gmap Loc ArrayObj) (l : Loc).

(** A write to an unfrozen array replaces its elements. *)
Lemma mutate_unfrozen strict m l σ xs :
  σ !! l = Some (mkArray xs false) ->
  mutate strict m l σ = Done (<[l := mkArray (applyMutation m xs) false]> σ).
Proof. intros H. unfold mutate. by rewrite H. Qed.

(** A write to a frozen array leaves the store as it was. *)
Lemma mutate_frozen strict m l σ xs :
  σ !! l = Some (mkArray xs true) ->
  (mutate strict m l σ = TypeError \/ mutate strict m l σ = Done σ)
  /\ storeAfter (mutate strict m l σ) σ = σ.
Proof.
  intros H. unfold mutate. rewrite H. simpl.
  destruct (isAssignment m && negb strict); simpl; auto.
Qed.

Lemma read_insert_ne l l' a σ : l <> l' -> read l' (<[l := a]> σ) = read l' σ.
Proof. intros Hne. unfold read. by rewrite lookup_insert_ne. Qed.

Lemma read_insert l a σ : read l (<[l := a]> σ) = elems a.
Proof. unfold read. by rewrite lookup_insert_eq. Qed.

(** The store after [publishState]: one new frozen array holding the
    elements of the internal buffer. *)
Lemma publishState_store w :
  let copy := fresh (dom (store w)) in
  store w !! copy = None
  /\ store (publishState w)
       = <[copy := mkArray (read (history (dest w)) (store w)) true]> (store w)
  /\ published (publishState w)
       = published w ++ [mkSnapshot (currentState (dest w)) (requestKey (dest w))
                           (0 <? listenerCount (dest w))%nat copy]
  /\ dest (publishState w) = dest w
  /\ clock (publishState w) = clock w.
Proof.
  cbv zeta. split; [apply not_elem_of_dom, is_fresh|].
  unfold publishState, spread, freeze. simpl. by rewrite alter_insert_eq.
Qed.

(** The internal buffer after the push and the eviction of
    [addHistoryEntry]: the ring step of the value model. *)
Lemma push_shift_store (size : nat) e l σ xs :
  σ !! l = Some (mkArray xs false) ->
  let σ1 := storeAfter (mutate true (Push e) l σ) σ in
  (if (size <? length (read l σ1))%nat
   then storeAfter (mutate true Shift l σ1) σ1 else σ1)
    = <[l := mkArray (pushBounded size e xs) false]> σ.
Proof.
  intros H. cbv zeta. rewrite (mutate_unfrozen _ _ _ _ _ H). simpl.
  rewrite read_insert. simpl. unfold pushBounded.
  destruct (size <? length (xs ++ [e]))%nat; [|done].
  rewrite (mutate_unfrozen _ _ _ _ (xs ++ [e])) by apply lookup_insert_eq.
  simpl. by rewrite insert_insert_eq.
Qed.

(** Every step of the tap keeps the store well formed, keeps every frozen
    array as it is, and only adds to the published snapshots. *)
Lemma step_preserves (s : Step) w :
  wellFormed w ->
  wellFormed (step s w)
  /\ (forall l xs, store w !! l = Some (mkArray xs true) ->
        store (step s w) !! l = Some (mkArray xs true))
  /\ (exists new, published (step s w) = published w ++ new)
  /\ history (dest (step s w)) = history (dest w).
Proof.
  intros ((xs & Hbuf) & Hpub).
  assert (forall w0 ys,
            store w0 !! history (dest w0) = Some (mkArray ys false) ->
            (forall sn, sn ∈ published w0 ->
               snap_history sn <> history (dest w0)
               /\ exists zs, store w0 !! snap_history sn = Some (mkArray zs true)) ->
            wellFormed (publishState w0)
            /\ (forall l zs, store w0 !! l = Some (mkArray zs true) ->
                  store (publishState w0) !! l = Some (mkArray zs true))
            /\ (exists new, published (publishState w0) = published w0 ++ new)
            /\ history (dest (publishState w0)) = history (dest w0)) as Hpublish.
  { intros w0 ys Hb Hp.
    destruct (publishState_store w0) as (Hfresh & Hst & Hpb & Hd & _).
    assert (fresh (dom (store w0)) <> history (dest w0)) as Hne.
    { intros Heq. rewrite Heq in Hfresh. congruence. }
    split; [split|split; [|split]].
    - exists ys. rewrite Hst, Hd. by rewrite lookup_insert_ne.
    - intros sn Hin. rewrite Hpb, Hst, Hd in *.
      apply elem_of_app in Hin as [Hin|Hin].
      + destruct (Hp sn Hin) as (Hn & zs & Hz). split; [done|].
        exists zs. rewrite lookup_insert_ne; [done|]. intros Heq. congruence.
      + apply list_elem_of_singleton in Hin as ->. simpl. split; [done|].
        eexists. apply lookup_insert_eq.
    - intros l zs Hl. rewrite Hst. rewrite lookup_insert_ne; [done|].
      intros <-. congruence.
    - eexists. exact Hpb.
    - by rewrite Hd. }
  destruct s as [newState reason| | |now]; simpl.
  - unfold addHistoryEntry.
    destruct (historySize (dest w) =? 0)%nat eqn:Hsize.
    + split; [split; [by exists xs|done]|].
      split; [done|]. split; [by exists []; rewrite app_nil_r|done].
    + rewrite (push_shift_store _ _ _ _ _ Hbuf).
      match goal with |- context [publishState ?w0] => set (w1 := w0) end.
      destruct (Hpublish w1 (pushBounded (historySize (dest w))
                               {| entry_state := currentState (dest w);
                                  entry_timestamp := clock w;
                                  entry_requestKey := requestKey (dest w);
                                  entry_transitionReason := reason |} xs))
        as (Hwf & Hfrozen & Hnew & Hh).
      * subst w1. simpl. apply lookup_insert_eq.
      * subst w1. simpl. intros sn Hin. destruct (Hpub sn Hin) as (Hn & zs & Hz).
        split; [done|]. exists zs. by rewrite lookup_insert_ne.
      * split; [exact Hwf|]. split; [|split; [exact Hnew|exact Hh]].
        intros l zs Hl. apply Hfrozen. subst w1. simpl.
        rewrite lookup_insert_ne; [done|]. intros <-. congruence.
  - by apply (Hpublish w xs).
  - split; [split; [by exists xs|done]|].
    split; [done|]. split; [by exists []; rewrite app_nil_r|done].
  - split; [split; [by exists xs|done]|].
    split; [done|]. split; [by exists []; rewrite app_nil_r|done].
Qed.

(** The same for any sequence of steps. *)
Lemma run_preserves (steps : list Step) w :
  wellFormed w ->
  wellFormed (run steps w)
  /\ (forall l xs, store w !! l = Some (mkArray xs true) ->
        store (run steps w) !! l = Some (mkArray xs true))
  /\ (exists new, published (run steps w) = published w ++ new).
Proof.
  revert w. induction steps as [|s steps IH]; intros w Hwf.
  - split; [done|]. split; [done|]. by exists []; rewrite app_nil_r.
  - simpl. destruct (step_preserves s w Hwf) as (Hwf1 & Hfrozen1 & (new1 & Hnew1) & _).
    destruct (IH (step s w) Hwf1) as (Hwf2 & Hfrozen2 & (new2 & Hnew2)).
    split; [done|]. split; [auto|].
    exists (new1 ++ new2). by rewrite Hnew2, Hnew1, <- app_assoc.
Qed.

End Sharing.

Section SharingRefinement.
Import HistoryStore.

(** On the store, [addHistoryEntry] changes the destination as the value
    model says. *)
Lemma addHistoryEntry_refines newState reason (w : World) :
  wellFormed w ->
  viewOf (addHistoryEntry newState reason w)
    = recordTransition (clock w) newState reason (viewOf w).
Proof.
  intros ((xs & Hbuf) & _). unfold addHistoryEntry, recordTransition, viewOf.
  simpl. destruct (historySize (dest w) =? 0)%nat; [done|].
  rewrite (push_shift_store _ _ _ _ _ Hbuf).
  match goal with |- context [publishState ?w0] => set (w1 := w0) end.
  destruct (publishState_store w1) as (Hfresh & Hst & _ & Hd & _).
  rewrite Hd, Hst. subst w1. simpl in *.
  rewrite read_insert_ne.
  - rewrite read_insert. unfold read. rewrite Hbuf. simpl. fields. done.
  - intros Heq. rewrite Heq in Hfresh. by rewrite lookup_insert_eq in Hfresh.
Qed.

End SharingRefinement.

(** C10. Every call of [publishState] publishes a snapshot whose [history]
    is a new array, frozen, holding the elements the internal buffer has at
    that moment (the snapshot read out of the store is the value model's
    snapshot). Hence no later step of the tap -- transition, push, eviction
    from the ring, publication -- changes a snapshot published before, and an
    attempt to change a published history array (a method of
    [Array.prototype], or an assignment to an index or to [length]) throws
    or is ignored and leaves every array as it was. *)
Theorem published_history_is_frozen_copy (w : HistoryStore.World)
    (steps : list HistoryStore.Step) (strict : bool) (m : HistoryStore.Mutation) :
  HistoryStore.wellFormed w ->
  (exists snap,
     HistoryStore.published (HistoryStore.publishState w)
       = HistoryStore.published w ++ [snap]
     /\ HistoryStore.snap_history snap <> HistoryStore.history (HistoryStore.dest w)
     /\ HistoryStore.store w !! HistoryStore.snap_history snap = None
     /\ HistoryStore.store (HistoryStore.publishState w) !! HistoryStore.snap_history snap
        = Some (HistoryStore.mkArray
                  (HistoryStore.read (HistoryStore.history (HistoryStore.dest w))
                     (HistoryStore.store w)) true)
     /\ HistoryStore.resolve (HistoryStore.store (HistoryStore.publishState w)) snap
        = snapshotOf (HistoryStore.viewOf w))
  /\ HistoryStore.wellFormed (HistoryStore.run steps w)
  /\ (forall snap, snap ∈ HistoryStore.published w ->
        snap ∈ HistoryStore.published (HistoryStore.run steps w)
        /\ HistoryStore.resolve (HistoryStore.store (HistoryStore.run steps w)) snap
           = HistoryStore.resolve (HistoryStore.store w) snap)
  /\ (forall snap, snap ∈ HistoryStore.published w ->
        (HistoryStore.mutate strict m (HistoryStore.snap_history snap) (HistoryStore.store w)
           = HistoryStore.TypeError
         \/ HistoryStore.mutate strict m (HistoryStore.snap_history snap)
              (HistoryStore.store w)
            = HistoryStore.Done (HistoryStore.store w))
        /\ HistoryStore.storeAfter
             (HistoryStore.mutate strict m (HistoryStore.snap_history snap)
                (HistoryStore.store w))
             (HistoryStore.store w)
           = HistoryStore.store w).
Proof.
  intros Hwf. split; [|split; [|split]].
  - destruct (publishState_store w) as (Hfresh & Hst & Hpb & Hd & _).
    destruct Hwf as ((xs & Hbuf) & _).
    eexists. split; [exact Hpb|]. cbn [HistoryStore.snap_history].
    split; [|split; [|split]].
    + intros Heq. rewrite Heq in Hfresh. congruence.
    + exact Hfresh.
    + rewrite Hst. apply lookup_insert_eq.
    + unfold HistoryStore.resolve, snapshotOf, HistoryStore.viewOf.
      cbn [HistoryStore.snap_history HistoryStore.snap_state
           HistoryStore.snap_requestKey HistoryStore.snap_hasListeners
           currentState requestKey listenerCount history].
      by rewrite Hst, read_insert.
  - by apply run_preserves.
  - intros snap Hin.
    destruct (run_preserves steps w Hwf) as (_ & Hfrozen & (new & Hnew)).
    split; [rewrite Hnew; set_solver|].
    destruct Hwf as (_ & Hpub). destruct (Hpub snap Hin) as (_ & zs & Hz).
    unfold HistoryStore.resolve, HistoryStore.read.
    by rewrite (Hfrozen _ _ Hz), Hz.
  - intros snap Hin. destruct Hwf as (_ & Hpub).
    destruct (Hpub snap Hin) as (_ & zs & Hz).
    by apply (mutate_frozen strict m _ _ zs).
Qed.

(** Scenario S3 on the store: the snapshot published at the first success
    still shows its one-entry history after a refresh cycle has pushed three
    entries through a ring of two, and a [push] on it throws. *)
Lemma published_history_is_frozen_copy_witness :
  let w := HistoryStore.publishState Scenario.sharedWorld in
  let w' := HistoryStore.run Scenario.refreshCycle w in
  exists snap,
    HistoryStore.published w = [snap]
    /\ HistoryStore.resolve (HistoryStore.store w') snap
       = {| ars_state := Success 0 None; ars_requestKey := Some "A";
            ars_hasListeners := true;
            ars_history :=
              [mkEntry (Loading 0 None) 0 (Some "A") (Some "fetch_success")] |}
    /\ HistoryStore.read (HistoryStore.history (HistoryStore.dest w'))
         (HistoryStore.store w')
       = [mkEntry (StaleWhileRevalidate 0 800 None) 850 (Some "A")
            (Some "refresh_success");
          mkEntry (Success 850 None) 850 (Some "A") (Some "ttl_refresh_scheduled")]
    /\ HistoryStore.mutate true
         (HistoryStore.Push
            (mkEntry (Idle None) 0 None (Some "forged")))
         (HistoryStore.snap_history snap) (HistoryStore.store w')
       = HistoryStore.TypeError.
Proof.
  cbv zeta.
  assert (HistoryStore.wellFormed Scenario.sharedWorld) as Hwf0.
  { split; [eexists; reflexivity|]. intros s Hs. by apply elem_of_nil in Hs. }
  pose proof (published_history_is_frozen_copy Scenario.sharedWorld
                [HistoryStore.PublishState] true HistoryStore.Pop Hwf0)
    as (_ & Hwf & _).
  pose proof (published_history_is_frozen_copy
                (HistoryStore.publishState Scenario.sharedWorld)
                Scenario.refreshCycle true HistoryStore.Pop Hwf)
    as (_ & _ & Hkeep & _).
  eexists. split; [reflexivity|].
  split; [|split].
  - rewrite (proj2 (Hkeep _ ltac:(apply list_elem_of_In; left; reflexivity))).
    vm_compute. reflexivity.
  - vm_compute. reflexivity.
  - vm_compute. reflexivity.
Defined.

(** * Further properties of the helpers, the arithmetic and the lifecycle *)

(** ** The state helpers *)

(** X1. The three predicates [hasData], [hasError] and [isRefreshing]
    generate the others: [isStale] is data with an error or a refresh,
    [isLoading] a request without data, [isRefreshingWithData] a request with
    data, [isIdle] none of the three; and a state with an error is never
    one with a request in progress. *)
Theorem helper_predicates_algebra (state : RequestState) :
  isStale state = hasData state && (hasError state || isRefreshing state)
  /\ isLoading state = isRefreshing state && negb (hasData state)
  /\ isRefreshingWithData state = isRefreshing state && hasData state
  /\ isIdle state
     = negb (hasData state) && negb (hasError state) && negb (isRefreshing state)
  /\ hasError state && isRefreshing state = false.
Proof. by destruct state. Qed.

(** X2. Two states on which [hasData], [hasError] and [isRefreshing] agree
    have the same [type]: the three answers identify the variant. *)
Theorem helpers_determine_type (s s' : RequestState) :
  hasData s = hasData s' -> hasError s = hasError s' ->
  isRefreshing s = isRefreshing s' ->
  type s = type s'.
Proof. by destruct s, s'. Qed.

Lemma helpers_determine_type_witness :
  type (Success 0 None) = type (Success 850 (Some 1650)).
Proof. apply helpers_determine_type; reflexivity. Defined.

(** X3. Each accessor returns a value exactly when its predicate holds:
    [getDataRetrievedAt] with [hasData], [getError] and [getErrorFailedAt]
    with [hasError], [getRequestInitiatedAt] with [isRefreshing]. *)
Theorem accessors_match_predicates (state : RequestState) :
  (hasData state = true <-> is_Some (getDataRetrievedAt state))
  /\ (hasError state = true <-> is_Some (getError state))
  /\ (hasError state = true <-> is_Some (getErrorFailedAt state))
  /\ (isRefreshing state = true <-> is_Some (getRequestInitiatedAt state)).
Proof.
  destruct state; simpl; repeat split;
    first [ by intros _; eexists | by intros [? [=]] | done ].
Qed.

(** X4. [getRetryTimeRemaining] and [hasScheduledRetry] agree: the remaining
    time is null exactly when [retryAt] is, it is never negative, it is
    positive exactly when a retry is scheduled, an overdue retry has 0
    remaining and is not scheduled, and a retry ahead has [retryAt - now]
    remaining. *)
Theorem retry_helpers_agree (state : RequestState) (now : Z) :
  (getRetryTimeRemaining state now = None <-> retryAt state = None)
  /\ (hasScheduledRetry state now = true
      <-> exists remaining,
            getRetryTimeRemaining state now = Some remaining /\ 0 < remaining)
  /\ (forall remaining,
        getRetryTimeRemaining state now = Some remaining -> 0 <= remaining)
  /\ (forall r, retryAt state = Some r -> r <= now ->
        getRetryTimeRemaining state now = Some 0
        /\ hasScheduledRetry state now = false)
  /\ (forall r, retryAt state = Some r -> now < r ->
        getRetryTimeRemaining state now = Some (r - now)
        /\ hasScheduledRetry state now = true).
Proof.
  unfold getRetryTimeRemaining, hasScheduledRetry.
  destruct (retryAt state) as [x|]; cbv zeta.
  - split; [done|]. split; [|split; [|split]].
    + split.
      * intros H%Z.ltb_lt. eexists. split; [reflexivity|].
        destruct (Z.ltb_spec 0 (x - now)); lia.
      * intros (? & [= <-] & H). apply Z.ltb_lt.
        destruct (Z.ltb_spec 0 (x - now)); lia.
    + intros ? [= <-]. destruct (Z.ltb_spec 0 (x - now)); lia.
    + intros ? [= <-] H.
      destruct (Z.ltb_spec 0 (x - now)), (Z.ltb_spec now x); done || lia.
    + intros ? [= <-] H.
      destruct (Z.ltb_spec 0 (x - now)), (Z.ltb_spec now x); done || lia.
  - split; [done|]. split; [|done]. split; [done|]. by intros (? & ? & ?).
Qed.

(** A failure at 50 with the retry due at 150, looked at at 100. *)
Lemma retry_helpers_agree_witness :
  getRetryTimeRemaining (Failed (mkError "HTTP 500") 50 (Some 150)) 100 = Some 50
  /\ hasScheduledRetry (Failed (mkError "HTTP 500") 50 (Some 150)) 100 = true.
Proof.
  apply (proj2 (proj2 (proj2 (proj2
           (retry_helpers_agree (Failed (mkError "HTTP 500") 50 (Some 150)) 100))))
           150); [reflexivity|lia].
Defined.

(** X5. As time passes the countdown only runs down: between [now] and a
    later [now'] the remaining time does not grow and drops by at most the
    time elapsed, and a retry that is scheduled at [now'] was scheduled at
    [now]. *)
Theorem retry_countdown (state : RequestState) (now now' : Z) :
  now <= now' ->
  (hasScheduledRetry state now' = true -> hasScheduledRetry state now = true)
  /\ (forall r r',
        getRetryTimeRemaining state now = Some r ->
        getRetryTimeRemaining state now' = Some r' ->
        r' <= r /\ r - r' <= now' - now).
Proof.
  intros Hle. unfold getRetryTimeRemaining, hasScheduledRetry.
  destruct (retryAt state) as [x|]; cbv zeta; [|done].
  split.
  - intros H%Z.ltb_lt. apply Z.ltb_lt. lia.
  - intros r r' [= <-] [= <-].
    destruct (Z.ltb_spec 0 (x - now)), (Z.ltb_spec 0 (x - now')); lia.
Qed.

Lemma retry_countdown_witness :
  hasScheduledRetry (Failed (mkError "HTTP 500") 50 (Some 150)) 60 = true.
Proof.
  apply (proj1 (retry_countdown (Failed (mkError "HTTP 500") 50 (Some 150)) 60 100
                  ltac:(lia))).
  reflexivity.
Defined.

Lemma length_append (a c : string) :
  String.length (String.append a c) = (String.length a + String.length c)%nat.
Proof.
  induction a as [|x a IH]; [done|].
  change (String.length (String x (String.append a c))
          = S (String.length a + String.length c)).
  simpl. by rewrite IH.
Qed.

Lemma append_inj_l (a b c : string) :
  String.append a b = String.append a c -> b = c.
Proof.
  induction a as [|x a IH]; [done|].
  change (String x (String.append a b) = String x (String.append a c) -> b = c).
  intros [= H]. by apply IH.
Qed.

Lemma append_inj_r (a b c : string) :
  String.append a c = String.append b c -> a = b.
Proof.
  intros H.
  assert (String.length a = String.length b) as Hlen.
  { apply (f_equal String.length) in H. rewrite !length_append in H. lia. }
  revert b H Hlen. induction a as [|x a IH]; intros [|y b]; try done.
  change (String x (String.append a c) = String y (String.append b c) ->
          String.length (String x a) = String.length (String y b) ->
          String x a = String y b).
  intros [= -> H] [= Hlen]. f_equal. by apply IH.
Qed.

(** X6. [getStatusMessage] tells the variants apart and shows the error:
    two states have the same status message exactly when they have the same
    [type] and, where there is an error, the same error message. Timestamps
    and [retryAt] do not show. *)
Theorem getStatusMessage_determines (s s' : RequestState) :
  getStatusMessage s = getStatusMessage s'
  <-> type s = type s' /\ message <$> getError s = message <$> getError s'.
Proof.
  destruct s as [?|? ?|? ?|[m] ? ?|? ? ?|? [m] ? ?],
           s' as [?|? ?|? ?|[m'] ? ?|? ? ?|? [m'] ? ?];
    simpl; split; try done; try (by intros [[=] _]).
  - intros H. split; [done|]. f_equal. by apply append_inj_l in H.
  - by intros [_ [= ->]].
  - intros H. split; [done|]. f_equal.
    apply append_inj_l in H. by apply append_inj_r in H.
  - by intros [_ [= ->]].
Qed.

(** ** The shape of the backoff and of the refresh time *)

Section BackoffShape.
Variable config : RetryConfig.

Lemma backoff_delay_nonneg (attempt : nat) :
  0 <= effInitialDelayMs config -> 0 <= effBackoffMultiplier config ->
  0 <= effInitialDelayMs config * effBackoffMultiplier config ^ Z.of_nat attempt.
Proof.
  intros Hi Hm. apply Z.mul_nonneg_nonneg; [done|].
  apply Z.pow_nonneg. done.
Qed.

Lemma backoff_delay_mono (a a' : nat) :
  0 <= effInitialDelayMs config -> 1 <= effBackoffMultiplier config ->
  (a <= a')%nat ->
  effInitialDelayMs config * effBackoffMultiplier config ^ Z.of_nat a
    <= effInitialDelayMs config * effBackoffMultiplier config ^ Z.of_nat a'.
Proof.
  intros Hi Hm Hle. apply Z.mul_le_mono_nonneg_l; [done|].
  apply Z.pow_le_mono_r; lia.
Qed.

Lemma calculateRetryTime_some (attempt : nat) (baseTime : option Z) (now due : Z) :
  calculateRetryTime attempt config baseTime now = Some due ->
  Z.of_nat attempt < effMaxRetries config
  /\ due = default now baseTime
           + Z.min (effMaxDelayMs config)
               (effInitialDelayMs config
                * effBackoffMultiplier config ^ Z.of_nat attempt).
Proof.
  intros Hdue.
  destruct (Z.lt_ge_cases (Z.of_nat attempt) (effMaxRetries config)) as [Hlt|Hge].
  - rewrite (calculateRetryTime_below config attempt baseTime now Hlt) in Hdue.
    by injection Hdue as <-.
  - by rewrite (calculateRetryTime_exhausted config attempt baseTime now Hge) in Hdue.
Qed.

End BackoffShape.

(** X7. A retry time that [calculateRetryTime] returns is for an attempt
    below [maxRetries] and lies at most [maxDelayMs] after the base time;
    with a non-negative initial delay, multiplier and cap it does not lie
    before the base time. *)
Theorem calculateRetryTime_window (attempt : nat) (config : RetryConfig)
    (baseTime : option Z) (now due : Z) :
  calculateRetryTime attempt config baseTime now = Some due ->
  Z.of_nat attempt < effMaxRetries config
  /\ due <= default now baseTime + effMaxDelayMs config
  /\ (0 <= effInitialDelayMs config -> 0 <= effBackoffMultiplier config ->
      0 <= effMaxDelayMs config -> default now baseTime <= due).
Proof.
  intros Hdue.
  destruct (calculateRetryTime_some config attempt baseTime now due Hdue) as (Hlt & ->).
  split; [done|]. split; [lia|].
  intros Hi Hm Hd.
  pose proof (backoff_delay_nonneg config attempt Hi Hm). lia.
Qed.

(** The first retry after a failure at 50, due at 150. *)
Lemma calculateRetryTime_window_witness :
  0 < effMaxRetries Scenario.retryConfig
  /\ 150 <= 50 + effMaxDelayMs Scenario.retryConfig
  /\ 50 <= 150.
Proof.
  destruct (calculateRetryTime_window 0 Scenario.retryConfig None 50 150 eq_refl)
    as (H1 & H2 & H3).
  split; [exact H1|]. split; [exact H2|].
  apply H3; vm_compute; discriminate.
Defined.

(** X8. The backoff is monotone in the attempt number: once
    [calculateRetryTime] returns null it returns null for every later
    attempt, and with a non-negative initial delay and a multiplier of at
    least 1 a later attempt is never due earlier than an earlier one. *)
Theorem calculateRetryTime_monotone (a a' : nat) (config : RetryConfig)
    (baseTime : option Z) (now : Z) :
  (a <= a')%nat ->
  (calculateRetryTime a config baseTime now = None ->
   calculateRetryTime a' config baseTime now = None)
  /\ (0 <= effInitialDelayMs config -> 1 <= effBackoffMultiplier config ->
      forall due due',
        calculateRetryTime a config baseTime now = Some due ->
        calculateRetryTime a' config baseTime now = Some due' ->
        due <= due').
Proof.
  intros Hle. split.
  - intros Hnone. apply calculateRetryTime_exhausted.
    destruct (Z.lt_ge_cases (Z.of_nat a) (effMaxRetries config)) as [Hlt|Hge]; [|lia].
    by rewrite (calculateRetryTime_below config a baseTime now Hlt) in Hnone.
  - intros Hi Hm due due' Hdue Hdue'.
    destruct (calculateRetryTime_some config a baseTime now due Hdue) as (_ & ->).
    destruct (calculateRetryTime_some config a' baseTime now due' Hdue') as (_ & ->).
    pose proof (backoff_delay_mono config a a' Hi Hm Hle). lia.
Qed.

Lemma calculateRetryTime_monotone_witness :
  calculateRetryTime 3 Scenario.retryConfig None 50 = None /\ 150 <= 250.
Proof.
  split.
  - apply (proj1 (calculateRetryTime_monotone 2 3 Scenario.retryConfig None 50
                    ltac:(lia))).
    reflexivity.
  - apply (proj2 (calculateRetryTime_monotone 0 1 Scenario.retryConfig None 50
                    ltac:(lia))); vm_compute; first [discriminate | reflexivity].
Defined.

(** X9. A refresh time that [calculateRefreshTime] returns is strictly ahead
    of the clock, belongs to a positive TTL, and with a non-negative margin
    does not lie after the expiry; a margin of the whole TTL or more yields
    no refresh time from the moment of retrieval on. *)
Theorem calculateRefreshTime_window (retrievedAt ttl : Z) (before : option Z)
    (now : Z) :
  (forall due, calculateRefreshTime retrievedAt ttl before now = Some due ->
     now < due /\ 0 < ttl /\ (0 <= default 0 before -> due <= retrievedAt + ttl))
  /\ (ttl <= default 0 before -> retrievedAt <= now ->
      calculateRefreshTime retrievedAt ttl before now = None).
Proof.
  unfold calculateRefreshTime. cbv zeta. split.
  - intros due.
    destruct (Z.leb_spec ttl 0); [done|].
    destruct (Z.ltb_spec now (retrievedAt + ttl - default 0 before)); [|done].
    intros [= <-]. lia.
  - intros Hm Hr.
    destruct (Z.leb_spec ttl 0); [done|].
    destruct (Z.ltb_spec now (retrievedAt + ttl - default 0 before)); [lia|done].
Qed.

Lemma calculateRefreshTime_window_witness :
  (0 < 800 /\ 0 < 1000 /\ (0 <= default 0 (Some 200) -> 800 <= 0 + 1000))
  /\ calculateRefreshTime 0 1000 (Some 1000) 0 = None.
Proof.
  split.
  - apply (proj1 (calculateRefreshTime_window 0 1000 (Some 200) 0) 800). reflexivity.
  - apply (proj2 (calculateRefreshTime_window 0 1000 (Some 1000) 0)); simpl; lia.
Defined.

(** X10. The refresh time does not depend on when it is asked for, as long
    as it is still ahead: the value returned at a later time is the value
    returned earlier, and once [calculateRefreshTime] returns null it
    returns null at every later time. *)
Theorem calculateRefreshTime_over_time (retrievedAt ttl : Z) (before : option Z)
    (now now' : Z) :
  now <= now' ->
  (calculateRefreshTime retrievedAt ttl before now = None ->
   calculateRefreshTime retrievedAt ttl before now' = None)
  /\ (forall due, calculateRefreshTime retrievedAt ttl before now' = Some due ->
        calculateRefreshTime retrievedAt ttl before now = Some due).
Proof.
  intros Hle. unfold calculateRefreshTime. cbv zeta.
  destruct (Z.leb_spec ttl 0); [done|].
  destruct (Z.ltb_spec now (retrievedAt + ttl - default 0 before)),
           (Z.ltb_spec now' (retrievedAt + ttl - default 0 before));
    split; done || lia.
Qed.

Lemma calculateRefreshTime_over_time_witness :
  calculateRefreshTime 0 1000 (Some 200) 900 = None
  /\ calculateRefreshTime 0 1000 (Some 200) 100 = Some 800.
Proof.
  split.
  - apply (proj1 (calculateRefreshTime_over_time 0 1000 (Some 200) 800 900
                    ltac:(lia))). reflexivity.
  - apply (proj2 (calculateRefreshTime_over_time 0 1000 (Some 200) 100 500
                    ltac:(lia))). reflexivity.
Defined.

(** ** Transitions and the ring, over one step and over a run *)

Section HistoryRing.
Context {Params Result Value : Type}.
Variable cfg : TapConfig Params Result Value.
Implicit Types (t : Tap Params Result Value) (d : Dest) (s : DestState).

Lemma last_pushBounded (size : nat) (e : StateHistoryEntry)
    (h : list StateHistoryEntry) :
  size <> 0%nat -> last (pushBounded size e h) = Some e.
Proof.
  intros Hsize. unfold pushBounded.
  destruct (Nat.ltb_spec size (length (h ++ [e]))) as [Hlt|_]; [|apply last_snoc].
  destruct h as [|x h]; [simpl in Hlt; lia|]. simpl. apply last_snoc.
Qed.

Lemma getDestState_addHistoryEntry_other d d' newState reason t :
  d <> d' ->
  getDestState cfg d' (addHistoryEntry cfg d newState reason t) = getDestState cfg d' t.
Proof.
  intros Hne. unfold addHistoryEntry.
  destruct (historySize (getDestState cfg d t) =? 0)%nat; [done|].
  rewrite getDestState_publishState.
  by rewrite !getDestState_modify_ne.
Qed.

Lemma getDestState_set_clock d now t :
  getDestState cfg d (set_clock now t) = getDestState cfg d t.
Proof. reflexivity. Qed.

Lemma transitions_snoc d steps step t :
  transitions cfg d (steps ++ [step]) t
    = addHistoryEntry cfg d step.1.2 step.2
        (set_clock step.1.1 (transitions cfg d steps t)).
Proof. unfold transitions. by rewrite foldl_snoc. Qed.

Lemma transitionLog_snoc current key steps step :
  transitionLog current key (steps ++ [step])
    = transitionLog current key steps
      ++ [mkEntry (default current (snd ∘ fst <$> last steps)) step.1.1 key step.2].
Proof.
  revert current. induction steps as [|x steps IH]; intros current; [done|].
  simpl. rewrite IH. do 3 f_equal.
  destruct steps as [|y steps]; [done|]. simpl.
  by rewrite !last_cons; destruct (last steps).
Qed.

End HistoryRing.

(** X11. With history enabled, [addHistoryEntry] makes the new state the
    current one, records the state being left as the newest history entry
    (with the time, the request key and the reason), changes no other field
    of the destination and no other destination, and publishes the snapshot
    of the record it leaves (where a state grip is configured). *)
Theorem addHistoryEntry_records_transition {Params Result Value : Type}
    (cfg : TapConfig Params Result Value) (d : Dest) (newState : RequestState)
    (reason : option string) (t : Tap Params Result Value) :
  historySize (getDestState cfg d t) <> 0%nat ->
  let s := getDestState cfg d t in
  let t' := addHistoryEntry cfg d newState reason t in
  let s' := getDestState cfg d t' in
  currentState s' = newState
  /\ last (history s')
     = Some {| entry_state := currentState s; entry_timestamp := clock t;
               entry_requestKey := requestKey s; entry_transitionReason := reason |}
  /\ s' = set_currentState newState (set_history (history s') s)
  /\ effects t' = effects t ++ statePublication cfg d s'
  /\ forall d', d <> d' -> getDestState cfg d' t' = getDestState cfg d' t.
Proof.
  intros Hsize. cbv zeta.
  destruct (addHistoryEntry_enabled cfg d newState reason t Hsize) as (Hc & Hh & He).
  split; [done|]. split; [|split; [|split]].
  - rewrite Hh. by apply last_pushBounded.
  - rewrite getDestState_addHistoryEntry. unfold recordTransition.
    destruct (Nat.eqb_spec (historySize (getDestState cfg d t)) 0); [done|].
    by destruct (getDestState cfg d t).
  - done.
  - intros d' Hne. by apply getDestState_addHistoryEntry_other.
Qed.

(** The TTL refresh of a destination holding data starts at 800. *)
Lemma addHistoryEntry_records_transition_witness :
  let cfg := Scenario.config None in
  let t := Scenario.tapWith (Scenario.withData 10) "A" 800 in
  let t' := addHistoryEntry cfg 0%nat (StaleWhileRevalidate 0 800 None)
              (Some "ttl_refresh_executed") t in
  currentState (getDestState cfg 0%nat t') = StaleWhileRevalidate 0 800 None
  /\ last (history (getDestState cfg 0%nat t'))
     = Some (mkEntry (Success 0 (Some 800)) 800 (Some "A") (Some "ttl_refresh_executed")).
Proof.
  cbv zeta.
  destruct (addHistoryEntry_records_transition (Scenario.config None) 0%nat
              (StaleWhileRevalidate 0 800 None) (Some "ttl_refresh_executed")
              (Scenario.tapWith (Scenario.withData 10) "A" 800))
    as (H1 & H2 & _).
  - vm_compute. discriminate.
  - split; [exact H1|exact H2].
Defined.

(** X12. The history is a ring of [historySize] slots: on a history within
    its bound, [addHistoryEntry] keeps the bound and never changes
    [historySize]; it appends the entry while there is room, drops the
    oldest entry and appends when the ring is full, and leaves the history
    as it is when [historySize] is 0. *)
Theorem addHistoryEntry_ring {Params Result Value : Type}
    (cfg : TapConfig Params Result Value) (d : Dest) (newState : RequestState)
    (reason : option string) (t : Tap Params Result Value) :
  let s := getDestState cfg d t in
  let s' := getDestState cfg d (addHistoryEntry cfg d newState reason t) in
  let entry := mkEntry (currentState s) (clock t) (requestKey s) reason in
  (length (history s) <= historySize s)%nat ->
  historySize s' = historySize s
  /\ (length (history s') <= historySize s')%nat
  /\ ((length (history s) < historySize s)%nat -> history s' = history s ++ [entry])
  /\ (length (history s) = historySize s -> historySize s <> 0%nat ->
      history s' = tail (history s) ++ [entry])
  /\ (historySize s = 0%nat -> history s' = history s).
Proof.
  cbv zeta. intros Hle. rewrite getDestState_addHistoryEntry.
  destruct (recordTransition_frame (clock t) newState reason (getDestState cfg d t))
    as (_ & _ & Hhs & _).
  rewrite Hhs. split; [done|].
  unfold recordTransition, entryFor.
  destruct (Nat.eqb_spec (historySize (getDestState cfg d t)) 0) as [H0|Hn].
  - split; [done|]. split; [lia|]. split; [done|done].
  - destruct (getDestState cfg d t) as [cs rk lc ra rt ft h hs c ac sq].
    fields. unfold pushBounded. rewrite length_app. simpl.
    destruct (Nat.ltb_spec hs (length h + 1)) as [Hfull|Hroom].
    + split; [destruct h; simpl in *; [lia|rewrite length_app; simpl; lia]|].
      split; [lia|]. split; [|done].
      intros _ _. by destruct h; [simpl in *; lia|].
    + split; [rewrite length_app; simpl; lia|].
      split; [done|]. split; [lia|done].
Qed.

(** A ring of one slot, full: the entry it held is replaced. *)
Lemma addHistoryEntry_ring_witness :
  let cfg := Scenario.config None in
  let t := Scenario.tapWith (Scenario.withData 1) "A" 800 in
  history (getDestState cfg 0%nat
             (addHistoryEntry cfg 0%nat (StaleWhileRevalidate 0 800 None)
                (Some "ttl_refresh_executed") t))
  = [mkEntry (Success 0 (Some 800)) 800 (Some "A") (Some "ttl_refresh_executed")].
Proof.
  cbv zeta.
  destruct (addHistoryEntry_ring (Scenario.config None) 0%nat
              (StaleWhileRevalidate 0 800 None) (Some "ttl_refresh_executed")
              (Scenario.tapWith (Scenario.withData 1) "A" 800))
    as (_ & _ & _ & H & _).
  - vm_compute. lia.
  - apply H; vm_compute; [reflexivity|discriminate].
Defined.

(** X13. After any run of transitions made through [addHistoryEntry], with
    history enabled, the history holds the newest [historySize] entries of
    everything recorded so far, each entry holding the state that was left
    at its time; the current state is the last new state of the run. *)
Theorem transitions_keep_newest {Params Result Value : Type}
    (cfg : TapConfig Params Result Value) (d : Dest)
    (steps : list (Z * RequestState * option string))
    (t : Tap Params Result Value) :
  let s := getDestState cfg d t in
  let s' := getDestState cfg d (transitions cfg d steps t) in
  historySize s <> 0%nat ->
  (length (history s) <= historySize s)%nat ->
  history s'
    = newest (historySize s)
        (history s ++ transitionLog (currentState s) (requestKey s) steps)
  /\ currentState s' = default (currentState s) (snd ∘ fst <$> last steps)
  /\ (length (history s') <= historySize s)%nat.
Proof.
  cbv zeta. intros Hsize Hle.
  assert (history (getDestState cfg d (transitions cfg d steps t))
            = newest (historySize (getDestState cfg d t))
                (history (getDestState cfg d t)
                 ++ transitionLog (currentState (getDestState cfg d t))
                      (requestKey (getDestState cfg d t)) steps)
          /\ currentState (getDestState cfg d (transitions cfg d steps t))
             = default (currentState (getDestState cfg d t)) (snd ∘ fst <$> last steps)
          /\ requestKey (getDestState cfg d (transitions cfg d steps t))
             = requestKey (getDestState cfg d t)
          /\ historySize (getDestState cfg d (transitions cfg d steps t))
             = historySize (getDestState cfg d t)) as (Hh & Hc & _ & _).
  { induction steps as [|step steps IH] using rev_ind.
    - simpl. rewrite app_nil_r. by rewrite newest_all.
    - destruct IH as (IHh & IHc & IHk & IHs).
      rewrite transitions_snoc, getDestState_addHistoryEntry.
      change (clock (set_clock step.1.1 (transitions cfg d steps t))) with step.1.1.
      rewrite getDestState_set_clock.
      destruct (recordTransition_frame (step.1.1) (step.1.2) (step.2)
                  (getDestState cfg d (transitions cfg d steps t)))
        as (Hk & _ & Hs & _).
      rewrite Hk, Hs, IHk, IHs.
      split; [|split; [|done]].
      + rewrite recordTransition_history.
        2:{ rewrite IHh, IHs. apply length_newest. }
        rewrite IHh, IHs, newest_snoc, transitionLog_snoc, app_assoc.
        unfold entryFor. by rewrite IHc, IHk.
      + unfold recordTransition. rewrite IHs.
        destruct (Nat.eqb_spec (historySize (getDestState cfg d t)) 0); [done|].
        fields. by rewrite last_snoc. }
  split; [done|]. split; [done|]. rewrite Hh. apply length_newest.
Qed.

(** A ring of two slots holding one entry: after a refresh cycle of two
    transitions the entry it held is gone. *)
Lemma transitions_keep_newest_witness :
  let cfg := Scenario.config None in
  let t := Scenario.tapWith (Scenario.withData 2) "A" 0 in
  let steps := [(800, StaleWhileRevalidate 0 800 None, Some "ttl_refresh_executed");
                (850, Success 850 None, Some "refresh_success")] in
  history (getDestState cfg 0%nat (transitions cfg 0%nat steps t))
  = [mkEntry (Success 0 (Some 800)) 800 (Some "A") (Some "ttl_refresh_executed");
     mkEntry (StaleWhileRevalidate 0 800 None) 850 (Some "A") (Some "refresh_success")].
Proof.
  cbv zeta.
  destruct (transitions_keep_newest (Scenario.config None) 0%nat
              [(800, StaleWhileRevalidate 0 800 None, Some "ttl_refresh_executed");
               (850, Success 850 None, Some "refresh_success")]
              (Scenario.tapWith (Scenario.withData 2) "A" 0)) as (H & _).
  - vm_compute. discriminate.
  - vm_compute. lia.
  - rewrite H. reflexivity.
Defined.

(** ** The head of [kickoff] and the controller's [retry] *)

Section Kickoff.
Context {Params Result Value : Type}.
Variable cfg : TapConfig Params Result Value.
Implicit Types (t : Tap Params Result Value) (d : Dest) (s : DestState).

Lemma kickoffHead_trace d t :
  let s := getDestState cfg d t in
  effects (kickoffHead cfg d t)
    = effects t
      ++ match abortController s with
         | Some a =>
           Abort a ::
           (if (historySize s =? 0)%nat then []
            else statePublication cfg d
                   (recordTransition (clock t) (currentState s)
                      (Some "concurrent_request_aborted") s))
         | None => []
         end
      ++ clearing (retryTimer s) ++ clearing (refreshTimer s).
Proof.
  cbv zeta. unfold kickoffHead.
  rewrite effects_clearRefreshTimer, effects_cancelRetry, effects_newAbortController,
    effects_abortInflight_record.
  autorewrite with tap. unfold recordTransition.
  destruct (getDestState cfg d t) as [cs rk lc ra rt ft h hs c [a|] sq]; fields;
    [destruct (hs =? 0)%nat|]; fields; simpl; by rewrite <- ?app_assoc, ?app_nil_r.
Qed.


Lemma retryPrelude_record d t :
  getDestState cfg d (retryPrelude cfg d t)
    = set_retryAttempt (retryAttempt (getDestState cfg d t) + 1)%nat
        (set_refreshTimer None (set_retryTimer None
           (set_abortController None (getDestState cfg d t)))).
Proof. unfold retryPrelude. autorewrite with tap. by destruct (getDestState cfg d t). Qed.

Lemma retryPrelude_trace d t :
  let s := getDestState cfg d t in
  effects (retryPrelude cfg d t)
    = effects t ++ aborting (abortController s)
        ++ clearing (retryTimer s) ++ clearing (refreshTimer s).
Proof.
  cbv zeta. unfold retryPrelude. autorewrite with tap.
  rewrite effects_cancelRetry, effects_abortInflight_id. autorewrite with tap.
  destruct (getDestState cfg d t); simpl. by rewrite <- !app_assoc.
Qed.

Lemma nextAbort_retryPrelude d t : nextAbort (retryPrelude cfg d t) = nextAbort t.
Proof.
  unfold retryPrelude, cancelRetry, clearRetryTimer, clearRefreshTimer, abortInflight.
  repeat case_match; reflexivity.
Qed.

End Kickoff.

(** X14. The head of [kickoff] aborts the request in flight (recording a
    [concurrent_request_aborted] entry when history is enabled), installs a
    new [AbortController], and leaves no timer pending; the state, the key,
    the attempt counter and the listener count are as they were; the calls
    it makes are that abort, the snapshot of the recorded entry, and one
    [clearTimeout] per pending timer, so that it sends no request and arms no
    timer itself. ([cancelRetry] clears the retry and the refresh timer.) *)
Theorem kickoffHead_prepares {Params Result Value : Type}
    (cfg : TapConfig Params Result Value) (d : Dest) (t : Tap Params Result Value) :
  let s := getDestState cfg d t in
  let t' := kickoffHead cfg d t in
  let s' := getDestState cfg d t' in
  let aborted := mkEntry (currentState s) (clock t) (requestKey s)
                   (Some "concurrent_request_aborted") in
  abortController s' = Some (nextAbort t)
  /\ retryTimer s' = None /\ refreshTimer s' = None
  /\ currentState s' = currentState s /\ requestKey s' = requestKey s
  /\ retryAttempt s' = retryAttempt s /\ listenerCount s' = listenerCount s
  /\ history s'
     = (if bool_decide (is_Some (abortController s)) && negb (historySize s =? 0)%nat
        then pushBounded (historySize s) aborted (history s)
        else history s)
  /\ effects t'
     = effects t
       ++ match abortController s with
          | Some a =>
            Abort a ::
            (if (historySize s =? 0)%nat then []
             else statePublication cfg d
                    (set_history (pushBounded (historySize s) aborted (history s)) s))
          | None => []
          end
       ++ clearing (retryTimer s) ++ clearing (refreshTimer s)
  /\ Forall (fun e => startsWork e = false) (drop (length (effects t)) (effects t')).
Proof.
  cbv zeta.
  destruct (kickoffHead_record cfg d t)
    as (Hcs & Hrk & Hra & Hlc & _ & _ & Hrt & Hft & Hac & _).
  repeat (split; [done|]).
  split; [|split].
  - unfold kickoffHead. autorewrite with tap. unfold recordTransition, entryFor.
    destruct (getDestState cfg d t) as [cs rk lc ra rt ft h hs c [a|] sq]; fields;
      [destruct (hs =? 0)%nat|]; done.
  - rewrite kickoffHead_trace. cbv zeta. unfold recordTransition, entryFor.
    destruct (getDestState cfg d t) as [cs rk lc ra rt ft h hs c [a|] sq]; fields;
      [destruct (hs =? 0)%nat|]; done.
  - destruct (kickoffHead_effects cfg d t) as (added & -> & Hadded).
    by rewrite drop_app_length.
Qed.



(** X16. The controller's [retry] aborts the request in flight itself and
    clears the handle before it calls [kickoff], so that [kickoff] finds
    nothing to abort: up to the rest of [kickoff] the history and the state
    are as before the call (no [concurrent_request_aborted] entry), the
    request in flight is aborted once, each pending timer is cleared once,
    and a new [AbortController] is in place. *)
Theorem manual_retry_abort_is_unrecorded {Params Result Value : Type}
    (cfg : TapConfig Params Result Value) (d : Dest) (t : Tap Params Result Value) :
  let s := getDestState cfg d t in
  let t1 := kickoffHead cfg d (retryPrelude cfg d t) in
  let s1 := getDestState cfg d t1 in
  history s1 = history s
  /\ currentState s1 = currentState s
  /\ abortController s1 = Some (nextAbort t)
  /\ retryTimer s1 = None /\ refreshTimer s1 = None
  /\ effects t1
     = effects t ++ aborting (abortController s)
         ++ clearing (retryTimer s) ++ clearing (refreshTimer s).
Proof.
  cbv zeta.
  destruct (kickoffHead_record cfg d (retryPrelude cfg d t))
    as (Hcs & _ & _ & _ & _ & _ & Hrt & Hft & Hac & Hh).
  rewrite Hcs, Hrt, Hft, Hac, Hh, nextAbort_retryPrelude, kickoffHead_trace.
  2:{ rewrite retryPrelude_record. by destruct (getDestState cfg d t). }
  cbv zeta. rewrite retryPrelude_trace, !retryPrelude_record.
  destruct (getDestState cfg d t); fields; simpl.
  repeat split; try done. by rewrite !app_nil_r.
Qed.

(** ** Connecting and disconnecting *)

Section Lifecycle.
Context {Params Result Value : Type}.
Variable cfg : TapConfig Params Result Value.
Implicit Types (t : Tap Params Result Value) (d : Dest) (s : DestState) (g : Grip).

Lemma getDestState_publishController d d' t :
  getDestState cfg d' (publishController cfg d t) = getDestState cfg d' t.
Proof. unfold publishController. repeat case_match; by autorewrite with tap. Qed.

Lemma publishController_detached d t :
  attached t = false -> publishController cfg d t = t.
Proof.
  unfold attached, publishController. intros H.
  destruct (controllerGrip cfg); [|done].
  by destruct (engine t), (homeContext t), (producer t).
Qed.

Lemma publishState_last g d t :
  stateGrip cfg = Some g ->
  last (effects (publishState cfg d t))
    = Some (Publish [(g, PState (snapshotOf (getDestState cfg d (publishState cfg d t))))] d).
Proof.
  intros Hg. rewrite getDestState_publishState.
  unfold publishState. rewrite Hg. autorewrite with tap. apply last_snoc.
Qed.

Lemma getDestState_ensureController d t :
  getDestState cfg d (ensureController cfg d t)
    = match controllerGrip cfg, controller (getDestState cfg d t) with
      | Some _, None => set_controller (Some (LiveController d)) (getDestState cfg d t)
      | _, _ => getDestState cfg d t
      end.
Proof.
  unfold ensureController.
  destruct (controllerGrip cfg), (controller (getDestState cfg d t)); try done.
  rewrite getDestState_publishController. by autorewrite with tap.
Qed.

Lemma ensureController_noop d t :
  is_Some (controller (getDestState cfg d t)) \/ controllerGrip cfg = None ->
  ensureController cfg d t = t.
Proof.
  unfold ensureController. intros [[c ->]| ->]; [by destruct (controllerGrip cfg)|done].
Qed.

Lemma getDestState_dropController d t :
  getDestState cfg d (dropController cfg d t)
    = if (listenerCount (getDestState cfg d t) =? 0)%nat
         && bool_decide (is_Some (controllerGrip cfg))
      then set_controller None (getDestState cfg d t)
      else getDestState cfg d t.
Proof.
  unfold dropController. case_match; [|done].
  rewrite getDestState_publishController. by autorewrite with tap.
Qed.

(** The record after the listener block of [onDisconnect]. *)
Lemma getDestState_dropListener d t :
  let s := getDestState cfg d t in
  getDestState cfg d (dropListener cfg d t)
    = let s1 := set_listenerCount (Nat.max 0 (listenerCount s - 1)) s in
      match destinationRequestKeys t !! d with
      | Some key =>
        if truthy (Some key) && (listenerCount s1 =? 0)%nat
        then set_currentState (withRetryAt None (currentState s))
               (set_refreshTimer None (set_retryTimer None s1))
        else s1
      | None => s1
      end.
Proof.
  cbv zeta. unfold dropListener, decrementListenerCount.
  change (destinationRequestKeys (modify cfg d ?f t)) with (destinationRequestKeys t).
  destruct (destinationRequestKeys t !! d) as [key|]; [|by autorewrite with tap].
  destruct (truthy (Some key)); [|by autorewrite with tap].
  autorewrite with tap. fields.
  destruct (Nat.max 0 (listenerCount (getDestState cfg d t) - 1) =? 0)%nat;
    autorewrite with tap; by destruct (getDestState cfg d t).
Qed.

(** The calls the listener block of [onDisconnect] makes. *)
Lemma effects_dropListener d t :
  let s := getDestState cfg d t in
  effects (dropListener cfg d t)
    = effects t
      ++ match destinationRequestKeys t !! d with
         | Some key =>
           if truthy (Some key) && (Nat.max 0 (listenerCount s - 1) =? 0)%nat
           then clearing (retryTimer s) ++ clearing (refreshTimer s)
           else []
         | None => []
         end.
Proof.
  cbv zeta. unfold dropListener, decrementListenerCount.
  change (destinationRequestKeys (modify cfg d ?f t)) with (destinationRequestKeys t).
  destruct (destinationRequestKeys t !! d) as [key|];
    [|autorewrite with tap; by rewrite app_nil_r].
  destruct (truthy (Some key)); [|autorewrite with tap; by rewrite app_nil_r].
  autorewrite with tap. fields.
  destruct (Nat.max 0 (listenerCount (getDestState cfg d t) - 1) =? 0)%nat;
    autorewrite with tap; [|by rewrite app_nil_r].
  rewrite effects_clearRefreshTimer, effects_cancelRetry. autorewrite with tap.
  destruct (getDestState cfg d t); simpl. by rewrite <- !app_assoc, !app_nil_r.
Qed.

End Lifecycle.

(** X17. [onConnect] creates a controller only for a destination that has
    none: with a controller stored, or without a controller grip, its
    controller block changes nothing, so that running it again changes
    nothing; for a destination without a controller it stores the live
    controller, and on a tap that is not attached ([engine], [homeContext]
    or [producer] missing) it stores it without publishing it. *)
Theorem ensureController_once {Params Result Value : Type}
    (cfg : TapConfig Params Result Value) (d : Dest) (t : Tap Params Result Value) :
  (is_Some (controller (getDestState cfg d t)) \/ controllerGrip cfg = None ->
   ensureController cfg d t = t)
  /\ ensureController cfg d (ensureController cfg d t) = ensureController cfg d t
  /\ (is_Some (controllerGrip cfg) -> controller (getDestState cfg d t) = None ->
      controller (getDestState cfg d (ensureController cfg d t))
        = Some (LiveController d)
      /\ (attached t = false -> effects (ensureController cfg d t) = effects t)).
Proof.
  split; [apply ensureController_noop|]. split.
  - destruct (controllerGrip cfg) as [g|] eqn:Hg;
      [|by rewrite !ensureController_noop by (by right)].
    apply ensureController_noop. left.
    rewrite getDestState_ensureController, Hg.
    destruct (controller (getDestState cfg d t)) eqn:Hc; [by rewrite Hc|done].
  - intros [g Hg] Hc. rewrite getDestState_ensureController, Hg, Hc.
    split; [done|]. intros Hatt. unfold ensureController. rewrite Hg, Hc.
    rewrite publishController_detached; [by autorewrite with tap|done].
Qed.

(** A destination with its controller keeps it; one without gets the live
    controller. *)
Lemma ensureController_once_witness :
  let cfg := Scenario.config None in
  let t := Scenario.tapWith (Scenario.withData 10) "A" 100 in
  let t0 := Scenario.tapWith Scenario.failedNoListeners "A" 100 in
  ensureController cfg 0%nat t = t
  /\ controller (getDestState cfg 0%nat (ensureController cfg 0%nat t0))
     = Some (LiveController 0%nat).
Proof.
  cbv zeta. split.
  - apply (proj1 (ensureController_once (Scenario.config None) 0%nat
                    (Scenario.tapWith (Scenario.withData 10) "A" 100))).
    left. by eexists.
  - apply (proj2 (proj2 (ensureController_once (Scenario.config None) 0%nat
                    (Scenario.tapWith Scenario.failedNoListeners "A" 100))));
      [by eexists|reflexivity].
Defined.

(** X18. [listenerCount] counts the connections through output grips only:
    where the tap's earlier connection logic leaves the count alone,
    [onConnect] raises it by one for a grip in [provides] and keeps it for
    any other grip, [onDisconnect] lowers it by one, not below 0, for a grip
    in [provides] and keeps it for any other grip, and a connect followed by
    a disconnect of the same grip restores it. Both end by publishing the
    snapshot of the record they leave, whose [hasListeners] is
    [listenerCount > 0]. *)
Theorem listeners_track_output_grips {Params Result Value : Type}
    (cfg : TapConfig Params Result Value)
    (existingConnect existingDisconnect :
       Dest -> Grip -> Tap Params Result Value -> Tap Params Result Value)
    (d : Dest) (grip : Grip) (t : Tap Params Result Value) :
  (forall g t, listenerCount (getDestState cfg d (existingConnect d g t))
               = listenerCount (getDestState cfg d t)) ->
  (forall g t, listenerCount (getDestState cfg d (existingDisconnect d g t))
               = listenerCount (getDestState cfg d t)) ->
  let count t := listenerCount (getDestState cfg d t) in
  let connected := onConnect cfg existingConnect d grip t in
  let disconnected := onDisconnect cfg existingDisconnect d grip t in
  count connected = (if isOutputGrip cfg grip then S (count t) else count t)
  /\ count disconnected = (if isOutputGrip cfg grip then Nat.pred (count t) else count t)
  /\ count (onDisconnect cfg existingDisconnect d grip connected) = count t
  /\ (forall g, stateGrip cfg = Some g ->
        (exists snapshot,
           last (effects connected) = Some (Publish [(g, PState snapshot)] d)
           /\ ars_hasListeners snapshot = (0 <? count connected)%nat)
        /\ (exists snapshot,
              last (effects disconnected) = Some (Publish [(g, PState snapshot)] d)
              /\ ars_hasListeners snapshot = (0 <? count disconnected)%nat)).
Proof.
  intros Hcon Hdis. cbv zeta.
  assert (forall t, listenerCount (getDestState cfg d (onConnect cfg existingConnect d grip t))
            = if isOutputGrip cfg grip then S (listenerCount (getDestState cfg d t))
              else listenerCount (getDestState cfg d t)) as Hc.
  { intros t0. unfold onConnect.
    rewrite getDestState_publishState, Hcon, getDestState_ensureController.
    assert (forall t1, listenerCount
              match controllerGrip cfg, controller (getDestState cfg d t1) with
              | Some _, None => set_controller (Some (LiveController d)) (getDestState cfg d t1)
              | _, _ => getDestState cfg d t1
              end = listenerCount (getDestState cfg d t1)) as ->
      by (intros; by repeat case_match).
    destruct (isOutputGrip cfg grip); [|done].
    by destruct (addListener_record cfg d t0) as (-> & _). }
  assert (forall t, listenerCount (getDestState cfg d (onDisconnect cfg existingDisconnect d grip t))
            = if isOutputGrip cfg grip then Nat.pred (listenerCount (getDestState cfg d t))
              else listenerCount (getDestState cfg d t)) as Hd.
  { intros t0. unfold onDisconnect.
    rewrite getDestState_publishState, Hdis.
    destruct (isOutputGrip cfg grip); [|done].
    rewrite getDestState_dropController.
    assert (forall s, listenerCount
              (if (listenerCount s =? 0)%nat && bool_decide (is_Some (controllerGrip cfg))
               then set_controller None s else s) = listenerCount s) as ->
      by (intros; by case_match).
    destruct (dropListener_record cfg d t0) as (-> & _). lia. }
  split; [apply Hc|]. split; [apply Hd|]. split.
  - rewrite Hd, Hc. by destruct (isOutputGrip cfg grip).
  - intros g Hg. split; eexists; (split; [by apply publishState_last|done]).
Qed.

(** A destination without listeners: a consumer of the output grip counts,
    a consumer of the state grip does not. *)
Lemma listeners_track_output_grips_witness :
  let cfg := Scenario.config None in
  let t := Scenario.tapWith Scenario.failedNoListeners "A" 100 in
  listenerCount (getDestState cfg 0%nat
     (onConnect cfg Scenario.noExisting 0%nat Scenario.USER_DATA t)) = 1%nat
  /\ listenerCount (getDestState cfg 0%nat
       (onDisconnect cfg Scenario.noExisting 0%nat Scenario.USER_DATA t)) = 0%nat
  /\ listenerCount (getDestState cfg 0%nat
       (onConnect cfg Scenario.noExisting 0%nat Scenario.USER_DATA_STATE t)) = 0%nat.
Proof.
  cbv zeta.
  destruct (listeners_track_output_grips (Scenario.config None)
              Scenario.noExisting Scenario.noExisting 0%nat Scenario.USER_DATA
              (Scenario.tapWith Scenario.failedNoListeners "A" 100))
    as (H1 & H2 & _); [reflexivity|reflexivity|].
  destruct (listeners_track_output_grips (Scenario.config None)
              Scenario.noExisting Scenario.noExisting 0%nat Scenario.USER_DATA_STATE
              (Scenario.tapWith Scenario.failedNoListeners "A" 100))
    as (H3 & _); [reflexivity|reflexivity|].
  split; [exact H1|]. split; [exact H2|exact H3].
Defined.

(** X19. [onConnect] records the destination's request key only when the
    parameters resolve to a truthy key: the entry of
    [destinationRequestKeys] for the destination becomes that key, and
    otherwise (parameters unresolved, key null or empty) stays what it was,
    as does the count per key; the entries of other destinations are never
    touched. *)
Theorem addListener_records_key {Params Result Value : Type}
    (cfg : TapConfig Params Result Value) (d : Dest) (t : Tap Params Result Value) :
  let key := currentKeyOf cfg d t in
  destinationRequestKeys (addListener cfg d t) !! d
    = (if truthy key then key else destinationRequestKeys t !! d)
  /\ (forall d', d <> d' ->
        destinationRequestKeys (addListener cfg d t) !! d'
          = destinationRequestKeys t !! d')
  /\ (truthy key = false -> listenerCounts (addListener cfg d t) = listenerCounts t).
Proof.
  cbv zeta. unfold addListener, currentKeyOf, incrementListenerCount.
  autorewrite with tap.
  destruct (getDestinationParams d t) as [params|]; [|done].
  destruct (getRequestKey cfg params) as [k|] eqn:Hk; [|done].
  destruct (truthy (Some k)) eqn:Ht; [|done]. simpl.
  split; [by rewrite lookup_insert_eq|]. split; [|done].
  intros d' Hne. by rewrite lookup_insert_ne.
Qed.

(** A destination whose user id is empty has no key to record. *)
Lemma addListener_records_key_witness :
  let cfg := Scenario.config None in
  let t := Scenario.tapWith Scenario.historyDisabled "" 0 in
  listenerCounts (addListener cfg 0%nat t) = listenerCounts t.
Proof.
  cbv zeta.
  apply (proj2 (proj2 (addListener_records_key (Scenario.config None) 0%nat
                         (Scenario.tapWith Scenario.historyDisabled "" 0)))).
  reflexivity.
Defined.

(** X20. The listener block of [onDisconnect] cancels nothing for a
    destination that has no recorded request key, or that keeps a listener:
    only [listenerCount] goes down; the timers, the state with its [retryAt]
    and the trace are as before, also when the count reaches 0 without a
    recorded key. *)
Theorem dropListener_keeps_timers {Params Result Value : Type}
    (cfg : TapConfig Params Result Value) (d : Dest) (t : Tap Params Result Value) :
  let s := getDestState cfg d t in
  let t' := dropListener cfg d t in
  destinationRequestKeys t !! d = None \/ (2 <= listenerCount s)%nat ->
  getDestState cfg d t' = set_listenerCount (Nat.pred (listenerCount s)) s
  /\ effects t' = effects t.
Proof.
  cbv zeta. intros H.
  rewrite getDestState_dropListener, effects_dropListener. cbv zeta. fields.
  replace (Nat.max 0 (listenerCount (getDestState cfg d t) - 1))
    with (Nat.pred (listenerCount (getDestState cfg d t))) by lia.
  destruct (destinationRequestKeys t !! d) as [key|]; [|by rewrite app_nil_r].
  destruct H as [?|H]; [done|].
  destruct (Nat.eqb_spec (Nat.pred (listenerCount (getDestState cfg d t))) 0); [lia|].
  rewrite andb_false_r. by rewrite app_nil_r.
Qed.

(** The only listener of a destination without a recorded key leaves: the
    refresh timer and [retryAt] stay. *)
Lemma dropListener_keeps_timers_witness :
  let cfg := Scenario.config None in
  let t := Scenario.tapWith (Scenario.withData 10) "A" 100 in
  let s' := getDestState cfg 0%nat (dropListener cfg 0%nat t) in
  listenerCount s' = 0%nat /\ refreshTimer s' = Some 3%positive
  /\ currentState s' = Success 0 (Some 800).
Proof.
  cbv zeta.
  destruct (dropListener_keeps_timers (Scenario.config None) 0%nat
              (Scenario.tapWith (Scenario.withData 10) "A" 100)) as (H & _).
  - by left.
  - rewrite H. repeat split.
Defined.

(** X21. When the last listener of a destination with a recorded request
    key disconnects, the retry and the refresh timer are cleared (one
    [clearTimeout] per pending timer, nothing else is called) and [retryAt]
    is set to null on the current state, which is otherwise kept: same
    variant, same data, same error, and no retry scheduled.
    ([cancelRetry] clears the retry and the refresh timer.) *)
Theorem dropListener_last_listener_cancels {Params Result Value : Type}
    (cfg : TapConfig Params Result Value) (d : Dest) (key : string)
    (t : Tap Params Result Value) :
  let s := getDestState cfg d t in
  let t' := dropListener cfg d t in
  let s' := getDestState cfg d t' in
  destinationRequestKeys t !! d = Some key -> key <> "" ->
  (listenerCount s <= 1)%nat ->
  s' = set_currentState (withRetryAt None (currentState s))
         (set_refreshTimer None (set_retryTimer None (set_listenerCount 0 s)))
  /\ type (currentState s') = type (currentState s)
  /\ getDataRetrievedAt (currentState s') = getDataRetrievedAt (currentState s)
  /\ getError (currentState s') = getError (currentState s)
  /\ (forall now, hasScheduledRetry (currentState s') now = false)
  /\ effects t' = effects t ++ clearing (retryTimer s) ++ clearing (refreshTimer s).
Proof.
  cbv zeta. intros Hkey Hne Hl.
  rewrite getDestState_dropListener, effects_dropListener. cbv zeta. fields.
  rewrite Hkey.
  replace (Nat.max 0 (listenerCount (getDestState cfg d t) - 1)) with 0%nat by lia.
  assert (truthy (Some key) = true) as ->.
  { simpl. destruct (String.eqb_spec key ""); done. }
  simpl. split; [done|].
  destruct (getDestState cfg d t) as [[] ? ? ? ? ? ? ? ? ? ?]; done.
Qed.

(** A failed destination with a retry pending: its only listener connects
    and leaves again. *)
Lemma dropListener_last_listener_cancels_witness :
  let cfg := Scenario.config None in
  let t := addListener cfg 0%nat (Scenario.tapWith Scenario.failedNoListeners "A" 100) in
  let t' := dropListener cfg 0%nat t in
  currentState (getDestState cfg 0%nat t') = Failed (mkError "HTTP 500") 50 None
  /\ retryTimer (getDestState cfg 0%nat t') = None
  /\ effects t' = [ClearTimeout 4%positive].
Proof.
  cbv zeta.
  destruct (dropListener_last_listener_cancels (Scenario.config None) 0%nat "A"
              (addListener (Scenario.config None) 0%nat
                 (Scenario.tapWith Scenario.failedNoListeners "A" 100)))
    as (H1 & _ & _ & _ & _ & H2).
  - reflexivity.
  - discriminate.
  - vm_compute. lia.
  - rewrite H1, H2. repeat split.
Defined.

(** ** The retry timer after a key change *)

(** X22. A retry timer that fires on a destination with listeners whose
    parameters now resolve to another, truthy key retries nothing under the
    old key: [executeRetry] runs the request-key change, which clears the
    timers, aborts the request in flight, resets [retryAttempt] to 0, makes
    the new key the destination's key, keeps the listener count, and hands
    over to [kickoff] with [forceRefetch = false]. *)
Theorem executeRetry_key_changed {Params Result Value : Type}
    (cfg : TapConfig Params Result Value)
    (kickoffRest : Dest -> option bool -> Tap Params Result Value -> Tap Params Result Value)
    (d : Dest) (key : option string) (t : Tap Params Result Value) :
  listenerCount (getDestState cfg d t) <> 0%nat ->
  key_neq (currentKeyOf cfg d t) key = true ->
  truthy (currentKeyOf cfg d t) = true ->
  let newKey := currentKeyOf cfg d t in
  let t1 := afterKeyChange cfg d newKey t in
  let s := getDestState cfg d t in
  let s1 := getDestState cfg d t1 in
  executeRetry cfg kickoffRest d key t = kickoffRest d (Some false) t1
  /\ retryAttempt s1 = 0%nat
  /\ requestKey s1 = newKey
  /\ retryTimer s1 = None /\ refreshTimer s1 = None
  /\ listenerCount s1 = listenerCount s
  /\ exists added,
       effects t1 = effects t ++ clearing (retryTimer s) ++ clearing (refreshTimer s)
                      ++ aborting (abortController s) ++ added.
Proof.
  intros Hl Hneq Htruthy. cbv zeta.
  destruct (afterKeyChange_record cfg d (currentKeyOf cfg d t) t)
    as (Hrt & Hft & Hra & Hrk & _).
  split; [|repeat (split; [done|])].
  - unfold executeRetry.
    destruct (Nat.eqb_spec (listenerCount (getDestState cfg d t)) 0); [done|].
    rewrite Hneq, handleRequestKeyChange_afterKeyChange. by rewrite Htruthy.
  - split; [|apply afterKeyChange_effects].
    unfold afterKeyChange. rewrite Htruthy.
    destruct (kickoffHead_record cfg d
                (addHistoryEntry cfg d
                   (Loading (clock (keyChangeReset cfg d (currentKeyOf cfg d t) t)) None)
                   (Some "request_initiated")
                   (keyChangeReset cfg d (currentKeyOf cfg d t) t)))
      as (_ & _ & _ & -> & _).
    rewrite getDestState_addHistoryEntry.
    destruct (keyChangeReset_record cfg d (currentKeyOf cfg d t) t)
      as (_ & _ & _ & _ & _ & _ & Hlc & _).
    rewrite <- Hlc. unfold recordTransition. by case_match.
Qed.

(** The retry timer armed for key ["A"] fires after the user id has become
    ["B"]. *)
Lemma executeRetry_key_changed_witness :
  let cfg := Scenario.config None in
  let t := Scenario.tapWith (Scenario.inflight 10) "B" 100 in
  let s1 := getDestState cfg 0%nat (afterKeyChange cfg 0%nat (Some "B") t) in
  executeRetry cfg (specKickoffRest cfg) 0%nat (Some "A") t
    = specKickoffRest cfg 0%nat (Some false) (afterKeyChange cfg 0%nat (Some "B") t)
  /\ retryAttempt s1 = 0%nat /\ requestKey s1 = Some "B".
Proof.
  cbv zeta.
  destruct (executeRetry_key_changed (Scenario.config None)
              (specKickoffRest (Scenario.config None)) 0%nat (Some "A")
              (Scenario.tapWith (Scenario.inflight 10) "B" 100))
    as (H1 & H2 & H3 & _); [vm_compute; lia|reflexivity|reflexivity|].
  split; [exact H1|]. split; [exact H2|exact H3].
Defined.

(** ** One destination at a time *)

Section Isolation.
Context {Params Result Value : Type}.
Variable cfg : TapConfig Params Result Value.
Implicit Types (t : Tap Params Result Value) (d : Dest) (s : DestState) (g : Grip).

Lemma getDestState_clearRetryTimer_other d d' t :
  d <> d' -> getDestState cfg d' (clearRetryTimer cfg d t) = getDestState cfg d' t.
Proof.
  intros Hne. unfold clearRetryTimer. case_match; [|done].
  rewrite getDestState_modify_ne by done. by autorewrite with tap.
Qed.

Lemma getDestState_clearRefreshTimer_other d d' t :
  d <> d' -> getDestState cfg d' (clearRefreshTimer cfg d t) = getDestState cfg d' t.
Proof.
  intros Hne. unfold clearRefreshTimer. case_match; [|done].
  rewrite getDestState_modify_ne by done. by autorewrite with tap.
Qed.

Lemma getDestState_cancelRetry_other d d' t :
  d <> d' -> getDestState cfg d' (cancelRetry cfg d t) = getDestState cfg d' t.
Proof.
  intros Hne. unfold cancelRetry.
  by rewrite getDestState_clearRefreshTimer_other, getDestState_clearRetryTimer_other.
Qed.

Lemma getDestState_abortInflight_other d d'
    (between : Tap Params Result Value -> Tap Params Result Value) t :
  d <> d' ->
  (forall t, getDestState cfg d' (between t) = getDestState cfg d' t) ->
  getDestState cfg d' (abortInflight cfg d between t) = getDestState cfg d' t.
Proof.
  intros Hne Hb. unfold abortInflight. case_match; [|done].
  rewrite getDestState_modify_ne, Hb by done. by autorewrite with tap.
Qed.

Lemma getDestState_recordAbort_other reason d d' t :
  d <> d' -> getDestState cfg d' (recordAbort cfg reason d t) = getDestState cfg d' t.
Proof. intros Hne. by apply getDestState_addHistoryEntry_other. Qed.

Lemma getDestState_kickoffHead_other d d' t :
  d <> d' -> getDestState cfg d' (kickoffHead cfg d t) = getDestState cfg d' t.
Proof.
  intros Hne. unfold kickoffHead, newAbortController.
  rewrite getDestState_clearRefreshTimer_other, getDestState_cancelRetry_other by done.
  rewrite getDestState_modify_ne by done. autorewrite with tap.
  apply getDestState_abortInflight_other; [done|].
  intros. by apply getDestState_recordAbort_other.
Qed.

Lemma getDestState_retryPrelude_other d d' t :
  d <> d' -> getDestState cfg d' (retryPrelude cfg d t) = getDestState cfg d' t.
Proof.
  intros Hne. unfold retryPrelude.
  rewrite getDestState_modify_ne, getDestState_cancelRetry_other by done.
  by apply getDestState_abortInflight_other.
Qed.

Lemma getDestState_keyChangeReset_other d d' newKey t :
  d <> d' -> getDestState cfg d' (keyChangeReset cfg d newKey t) = getDestState cfg d' t.
Proof.
  intros Hne. unfold keyChangeReset.
  rewrite getDestState_addHistoryEntry_other by done.
  rewrite !getDestState_modify_ne by done.
  rewrite getDestState_abortInflight_other;
    [|done|intros; by apply getDestState_recordAbort_other].
  by rewrite getDestState_clearRefreshTimer_other, getDestState_clearRetryTimer_other.
Qed.

Lemma getDestState_afterKeyChange_other d d' newKey t :
  d <> d' -> getDestState cfg d' (afterKeyChange cfg d newKey t) = getDestState cfg d' t.
Proof.
  intros Hne. unfold afterKeyChange. destruct (truthy newKey).
  - rewrite getDestState_kickoffHead_other, getDestState_addHistoryEntry_other by done.
    by apply getDestState_keyChangeReset_other.
  - rewrite getDestState_publishState, getDestState_modify_ne by done.
    rewrite getDestState_publishResets. by apply getDestState_keyChangeReset_other.
Qed.

Lemma getDestState_addListener_other d d' t :
  d <> d' -> getDestState cfg d' (addListener cfg d t) = getDestState cfg d' t.
Proof.
  intros Hne. unfold addListener, incrementListenerCount.
  repeat case_match; autorewrite with tap; by rewrite ?getDestState_modify_ne.
Qed.

Lemma getDestState_ensureController_other d d' t :
  d <> d' -> getDestState cfg d' (ensureController cfg d t) = getDestState cfg d' t.
Proof.
  intros Hne. unfold ensureController. repeat case_match; try done.
  by rewrite getDestState_publishController, getDestState_modify_ne.
Qed.

Lemma getDestState_dropListener_other d d' t :
  d <> d' -> getDestState cfg d' (dropListener cfg d t) = getDestState cfg d' t.
Proof.
  intros Hne. unfold dropListener, decrementListenerCount.
  repeat case_match; autorewrite with tap;
    rewrite ?getDestState_modify_ne, ?getDestState_clearRefreshTimer_other,
      ?getDestState_cancelRetry_other by done;
    autorewrite with tap; by rewrite ?getDestState_modify_ne.
Qed.

Lemma getDestState_dropController_other d d' t :
  d <> d' -> getDestState cfg d' (dropController cfg d t) = getDestState cfg d' t.
Proof.
  intros Hne. unfold dropController. case_match; [|done].
  by rewrite getDestState_publishController, getDestState_modify_ne.
Qed.

End Isolation.

(** X23. State is kept per destination: where the elided rest of [kickoff]
    and the tap's earlier connection logic, run for a destination, leave the
    record of another destination alone, so do [addHistoryEntry], [kickoff],
    [handleRequestKeyChange], [executeRetry], the controller's [retry] and
    [refresh], [onConnect] and [onDisconnect]. *)
Theorem destinations_are_independent {Params Result Value : Type}
    (cfg : TapConfig Params Result Value)
    (kickoffRest : Dest -> option bool -> Tap Params Result Value -> Tap Params Result Value)
    (existingConnect existingDisconnect :
       Dest -> Grip -> Tap Params Result Value -> Tap Params Result Value)
    (d d' : Dest) (t : Tap Params Result Value) :
  d <> d' ->
  (forall f t, getDestState cfg d' (kickoffRest d f t) = getDestState cfg d' t) ->
  (forall g t, getDestState cfg d' (existingConnect d g t) = getDestState cfg d' t) ->
  (forall g t, getDestState cfg d' (existingDisconnect d g t) = getDestState cfg d' t) ->
  let same t' := getDestState cfg d' t' = getDestState cfg d' t in
  (forall newState reason, same (addHistoryEntry cfg d newState reason t))
  /\ (forall forceRefetch, same (kickoff cfg kickoffRest d forceRefetch t))
  /\ (forall oldKey newKey, same (handleRequestKeyChange cfg kickoffRest d oldKey newKey t))
  /\ (forall key, same (executeRetry cfg kickoffRest d key t))
  /\ (forall forceRefetch,
        same (call_retry (createController cfg kickoffRest d) forceRefetch t)
        /\ same (call_refresh (createController cfg kickoffRest d) forceRefetch t))
  /\ (forall grip, same (onConnect cfg existingConnect d grip t)
                   /\ same (onDisconnect cfg existingDisconnect d grip t)).
Proof.
  intros Hne Hrest Hcon Hdis. cbv zeta.
  assert (forall f t0, getDestState cfg d' (kickoff cfg kickoffRest d f t0)
                       = getDestState cfg d' t0) as Hkick.
  { intros f t0. unfold kickoff. by rewrite Hrest, getDestState_kickoffHead_other. }
  assert (forall o n t0, getDestState cfg d' (handleRequestKeyChange cfg kickoffRest d o n t0)
                         = getDestState cfg d' t0) as Hkey.
  { intros o n t0. rewrite handleRequestKeyChange_afterKeyChange.
    destruct (truthy n); rewrite ?Hrest; by apply getDestState_afterKeyChange_other. }
  split; [intros; by apply getDestState_addHistoryEntry_other|].
  split; [intros; apply Hkick|]. split; [intros; apply Hkey|]. split; [|split].
  - intros key. unfold executeRetry. repeat case_match; try done.
    rewrite getDestState_publishState. by rewrite !getDestState_modify_ne.
  - intros f. split.
    + rewrite call_retry_kickoff, Hkick. by apply getDestState_retryPrelude_other.
    + by rewrite call_refresh_kickoff, Hkick.
  - intros grip. split.
    + unfold onConnect. rewrite getDestState_publishState, Hcon,
        getDestState_ensureController_other by done.
      destruct (isOutputGrip cfg grip); [|done].
      by apply getDestState_addListener_other.
    + unfold onDisconnect. rewrite getDestState_publishState, Hdis.
      destruct (isOutputGrip cfg grip); [|done].
      rewrite getDestState_dropController_other by done.
      by apply getDestState_dropListener_other.
Qed.

(** Two destinations: the retry timer of the first fires after its key has
    changed, and the record of the second is as before. *)
Lemma destinations_are_independent_witness :
  let cfg := Scenario.config None in
  let t := modify cfg 1%nat (fun _ => Scenario.failedTwice)
             (Scenario.tapWith (Scenario.inflight 10) "B" 100) in
  getDestState cfg 1%nat (executeRetry cfg (fun _ _ t => t) 0%nat (Some "A") t)
  = Scenario.failedTwice.
Proof.
  cbv zeta.
  rewrite (proj1 (proj2 (proj2 (proj2
             (destinations_are_independent (Scenario.config None) (fun _ _ t => t)
                Scenario.noExisting Scenario.noExisting 0%nat 1%nat
                (modify (Scenario.config None) 1%nat (fun _ => Scenario.failedTwice)
                   (Scenario.tapWith (Scenario.inflight 10) "B" 100))
                ltac:(discriminate) ltac:(reflexivity) ltac:(reflexivity)
                ltac:(reflexivity))))) (Some "A")).
  reflexivity.
Defined.
